(** * libssh scp.c: the SCP session state machine

    A shallow embedding of [src/libssh/scp.c].  Every C function of the
    file is a Rocq function of the same name over an explicit
    [ssh_scp_struct] record; the channel, the allocator and the result
    codes, which the file uses but does not define, are modelled in the
    first part. *)

From Stdlib Require Import String Ascii DecimalString DecimalPos DecimalN.
From Stdlib Require Import ZArith Bool Lia List.
Import ListNotations.
Open Scope Z_scope.

(** ** Bytes, C strings and the size type *)

Definition bytes := list ascii.

Definition str (s : string) : bytes := list_ascii_of_string s.

Definition NUL : ascii := "000"%char.
Definition NL : ascii := "010"%char.
Definition SP : ascii := " "%char.

(** The C string held in an array: the bytes before the first NUL. *)
Fixpoint c_str (b : bytes) : bytes :=
  match b with
  | [] => []
  | c :: t => if Ascii.eqb c NUL then [] else c :: c_str t
  end.

Definition strlen (b : bytes) : Z := Z.of_nat (length (c_str b)).

(** The first [n] elements, for a count held in a machine integer. *)
Fixpoint take_z {A : Type} (n : Z) (l : list A) : list A :=
  match l with
  | [] => []
  | x :: t => if n <=? 0 then [] else x :: take_z (n - 1) t
  end.

Fixpoint drop_z {A : Type} (n : Z) (l : list A) : list A :=
  match l with
  | [] => []
  | x :: t => if n <=? 0 then l else drop_z (n - 1) t
  end.

(** [buffer[i] = v] on an array; a store past the end is dropped. *)
Fixpoint buf_set (i : nat) (v : ascii) (b : bytes) : bytes :=
  match b, i with
  | [], _ => []
  | _ :: t, O => v :: t
  | c :: t, S j => c :: buf_set j v t
  end.

(** [buffer + i .. ] receives the bytes [d]. *)
Fixpoint buf_store (i : nat) (d : bytes) (b : bytes) : bytes :=
  match d with
  | [] => b
  | c :: t => buf_store (S i) t (buf_set i c b)
  end.

(** Modelled from the spec: the counters are u64 ([declared_size: u64,
    processed: u64]); priv.h, which declares the fields, is not under
    src/.  size_t is taken as the same 64-bit unsigned type. *)
Definition SIZE_MODULUS : Z := 2 ^ 64.

Definition wrap (z : Z) : Z := z mod SIZE_MODULUS.

(** ** Result codes and enumerations *)

(** Modelled from the spec: libssh.h, which defines the result codes, is
    not under src/.  The spec separates a failure result from a success
    result and from byte counts; the failure code is negative and the
    plain success code is zero. *)
Definition SSH_OK : Z := 0.
Definition SSH_ERROR : Z := -1.

(** Modelled from the spec: [mode: enum {Push, Pull}], the two values
    libssh.h gives in that order. *)
Definition SSH_SCP_WRITE : Z := 0.
Definition SSH_SCP_READ : Z := 1.

(** Modelled from the spec: the states of section 4.3, in the order the
    spec lists them ([New] is the state of a zeroed object). *)
Inductive ssh_scp_states : Type :=
| SSH_SCP_NEW
| SSH_SCP_WRITE_INITED
| SSH_SCP_WRITE_WRITING
| SSH_SCP_READ_INITED
| SSH_SCP_READ_REQUESTED
| SSH_SCP_READ_READING
| SSH_SCP_ERROR.

Definition state_eqb (a b : ssh_scp_states) : bool :=
  match a, b with
  | SSH_SCP_NEW, SSH_SCP_NEW
  | SSH_SCP_WRITE_INITED, SSH_SCP_WRITE_INITED
  | SSH_SCP_WRITE_WRITING, SSH_SCP_WRITE_WRITING
  | SSH_SCP_READ_INITED, SSH_SCP_READ_INITED
  | SSH_SCP_READ_REQUESTED, SSH_SCP_READ_REQUESTED
  | SSH_SCP_READ_READING, SSH_SCP_READ_READING
  | SSH_SCP_ERROR, SSH_SCP_ERROR => true
  | _, _ => false
  end.

(** Modelled from the spec: [kind: NewFile|NewDirectory]; the request
    types are non-zero so that a zeroed object holds neither, and differ
    from the failure code, which [ssh_scp_pull_request] returns on the
    same int. *)
Definition SSH_SCP_REQUEST_NEWDIR : Z := 1.
Definition SSH_SCP_REQUEST_NEWFILE : Z := 2.

(** ** The channel collaborator *)

(** What the peer and the transport will answer to the next reads. *)
Inductive rd_outcome : Type :=
| RdError
| RdData (bs : bytes).

(** What the transport will answer to the next writes. *)
Inductive wr_outcome : Type :=
| WrError
| WrAccept (n : Z).

(** One entry per call made on the channel. *)
Inductive io_event : Type :=
| EvOpen
| EvExec (cmd : bytes)
| EvPoll
| EvWrite (len : Z) (data : bytes) (ret : Z)
| EvRead (count : Z) (ret : Z)
| EvEof
| EvClose.

(** Modelled from the spec: the channel of section 6 (channels.c is not
    under src/).  [write] returns the bytes written, possibly fewer than
    requested, or failure; [read] returns the bytes read, 0 when the peer
    signalled the end, or failure.  The answers are scripted so that every
    behaviour the contract allows can be supplied; [io_log] records the
    calls in order. *)
Record ssh_channel : Type := {
  open_ok : bool;
  exec_ok : bool;
  eof_ok : bool;
  close_ok : bool;
  rd_plan : list rd_outcome;
  wr_plan : list wr_outcome;
  io_log : list io_event
}.

Definition log_event (e : io_event) (ch : ssh_channel) : ssh_channel :=
  {| open_ok := open_ok ch; exec_ok := exec_ok ch; eof_ok := eof_ok ch;
     close_ok := close_ok ch; rd_plan := rd_plan ch; wr_plan := wr_plan ch;
     io_log := io_log ch ++ [e] |}.

Definition set_rd_plan (p : list rd_outcome) (ch : ssh_channel) : ssh_channel :=
  {| open_ok := open_ok ch; exec_ok := exec_ok ch; eof_ok := eof_ok ch;
     close_ok := close_ok ch; rd_plan := p; wr_plan := wr_plan ch;
     io_log := io_log ch |}.

Definition set_wr_plan (p : list wr_outcome) (ch : ssh_channel) : ssh_channel :=
  {| open_ok := open_ok ch; exec_ok := exec_ok ch; eof_ok := eof_ok ch;
     close_ok := close_ok ch; rd_plan := rd_plan ch; wr_plan := p;
     io_log := io_log ch |}.

Definition channel_open_session (ch : ssh_channel) : Z * ssh_channel :=
  (if open_ok ch then SSH_OK else SSH_ERROR, log_event EvOpen ch).

Definition channel_request_exec (ch : ssh_channel) (cmd : bytes) : Z * ssh_channel :=
  (if exec_ok ch then SSH_OK else SSH_ERROR, log_event (EvExec cmd) ch).

Definition channel_poll (ch : ssh_channel) : ssh_channel := log_event EvPoll ch.

Definition channel_send_eof (ch : ssh_channel) : Z * ssh_channel :=
  (if eof_ok ch then SSH_OK else SSH_ERROR, log_event EvEof ch).

Definition channel_close (ch : ssh_channel) : Z * ssh_channel :=
  (if close_ok ch then SSH_OK else SSH_ERROR, log_event EvClose ch).

(** [channel_write(channel, buffer, len)]: the return value and the
    channel afterwards. *)
Definition channel_write (ch : ssh_channel) (buffer : bytes) (len : Z)
  : Z * ssh_channel :=
  let data := take_z len buffer in
  match wr_plan ch with
  | WrError :: p =>
      (SSH_ERROR, log_event (EvWrite len data SSH_ERROR) (set_wr_plan p ch))
  | WrAccept n :: p =>
      let w := Z.max 0 (Z.min n len) in
      (w, log_event (EvWrite len data w) (set_wr_plan p ch))
  | [] =>
      let w := Z.max 0 len in
      (w, log_event (EvWrite len data w) ch)
  end.

(** [channel_read(channel, dest, count, 0)]: the return value, the bytes
    stored at [dest] and the channel afterwards. *)
Definition channel_read (ch : ssh_channel) (count : Z)
  : Z * bytes * ssh_channel :=
  match rd_plan ch with
  | RdError :: p =>
      (SSH_ERROR, [], log_event (EvRead count SSH_ERROR) (set_rd_plan p ch))
  | RdData bs :: p =>
      let got := take_z count bs in
      let r := Z.of_nat (length got) in
      let p' := match drop_z count bs with
                | [] => p
                | rest => RdData rest :: p
                end in
      (r, got, log_event (EvRead count r) (set_rd_plan p' ch))
  | [] => (0, [], log_event (EvRead count 0) ch)
  end.

(** ** The session and its allocator *)

(** Modelled from the spec: the transport session is an external
    collaborator (section 1); session.c and the allocator are not under
    src/.  The record keeps what scp.c draws from them: the outcome of the
    allocations to come ([false]: NULL is returned), the number of blocks
    allocated and not yet freed, and the channels [channel_new] will
    hand out ([None]: NULL).  [ssh_set_error] only attaches a message to
    the session and is left out. *)
Record ssh_session : Type := {
  alloc_plan : list bool;
  live_blocks : Z;
  chan_plan : list (option ssh_channel)
}.

(** [malloc]: whether a block was obtained. *)
Definition malloc (s : ssh_session) : bool * ssh_session :=
  match alloc_plan s with
  | false :: p =>
      (false, {| alloc_plan := p; live_blocks := live_blocks s;
                 chan_plan := chan_plan s |})
  | true :: p =>
      (true, {| alloc_plan := p; live_blocks := live_blocks s + 1;
                chan_plan := chan_plan s |})
  | [] =>
      (true, {| alloc_plan := []; live_blocks := live_blocks s + 1;
                chan_plan := chan_plan s |})
  end.

(** [strdup]: a copy of the C string, or NULL. *)
Definition strdup (s : ssh_session) (b : bytes) : option bytes * ssh_session :=
  let '(ok, s') := malloc s in
  (if ok then Some (c_str b) else None, s').

(** [SAFE_FREE(p)]: frees a pointer that is not NULL. *)
Definition SAFE_FREE {A : Type} (p : option A) (s : ssh_session) : ssh_session :=
  match p with
  | Some _ => {| alloc_plan := alloc_plan s; live_blocks := live_blocks s - 1;
                 chan_plan := chan_plan s |}
  | None => s
  end.

Definition channel_new (s : ssh_session) : option ssh_channel * ssh_session :=
  match chan_plan s with
  | c :: p => (c, {| alloc_plan := alloc_plan s; live_blocks := live_blocks s;
                     chan_plan := p |})
  | [] => (None, s)
  end.

(** ** struct ssh_scp_struct *)

(** Modelled from the spec: the session object of section 3 (priv.h is
    not under src/), with the field names scp.c uses.  A pointer field is
    an option: [None] is NULL. *)
Record ssh_scp_struct : Type := {
  session : ssh_session;
  mode : Z;
  channel : option ssh_channel;
  location : option bytes;
  state : ssh_scp_states;
  filelen : Z;
  processed : Z;
  request_type : Z;
  request_name : option bytes;
  request_mode : option bytes
}.

Definition set_session (v : ssh_session) (s : ssh_scp_struct) : ssh_scp_struct :=
  {| session := v; mode := mode s; channel := channel s;
     location := location s; state := state s; filelen := filelen s;
     processed := processed s; request_type := request_type s;
     request_name := request_name s; request_mode := request_mode s |}.

Definition set_channel (v : option ssh_channel) (s : ssh_scp_struct) : ssh_scp_struct :=
  {| session := session s; mode := mode s; channel := v;
     location := location s; state := state s; filelen := filelen s;
     processed := processed s; request_type := request_type s;
     request_name := request_name s; request_mode := request_mode s |}.

Definition set_location (v : option bytes) (s : ssh_scp_struct) : ssh_scp_struct :=
  {| session := session s; mode := mode s; channel := channel s;
     location := v; state := state s; filelen := filelen s;
     processed := processed s; request_type := request_type s;
     request_name := request_name s; request_mode := request_mode s |}.

Definition set_state (v : ssh_scp_states) (s : ssh_scp_struct) : ssh_scp_struct :=
  {| session := session s; mode := mode s; channel := channel s;
     location := location s; state := v; filelen := filelen s;
     processed := processed s; request_type := request_type s;
     request_name := request_name s; request_mode := request_mode s |}.

Definition set_filelen (v : Z) (s : ssh_scp_struct) : ssh_scp_struct :=
  {| session := session s; mode := mode s; channel := channel s;
     location := location s; state := state s; filelen := v;
     processed := processed s; request_type := request_type s;
     request_name := request_name s; request_mode := request_mode s |}.

Definition set_processed (v : Z) (s : ssh_scp_struct) : ssh_scp_struct :=
  {| session := session s; mode := mode s; channel := channel s;
     location := location s; state := state s; filelen := filelen s;
     processed := v; request_type := request_type s;
     request_name := request_name s; request_mode := request_mode s |}.

(** The three request fields, assigned together by the decoder. *)
Definition set_request (t : Z) (n m : option bytes) (s : ssh_scp_struct)
  : ssh_scp_struct :=
  {| session := session s; mode := mode s; channel := channel s;
     location := location s; state := state s; filelen := filelen s;
     processed := processed s; request_type := t;
     request_name := n; request_mode := m |}.

(** [ZERO_STRUCTP(scp)] on a fresh block. *)
Definition zero_struct (sess : ssh_session) : ssh_scp_struct :=
  {| session := sess; mode := 0; channel := None; location := None;
     state := SSH_SCP_NEW; filelen := 0; processed := 0; request_type := 0;
     request_name := None; request_mode := None |}.

(** Calls on [scp->channel].  The functions below reach them only after
    [ssh_scp_init] stored a channel; on a NULL channel the call is not
    served and reports failure. *)
Definition scp_channel_write (scp : ssh_scp_struct) (buffer : bytes) (len : Z)
  : Z * ssh_scp_struct :=
  match channel scp with
  | Some ch => let '(w, ch') := channel_write ch buffer len in
               (w, set_channel (Some ch') scp)
  | None => (SSH_ERROR, scp)
  end.

Definition scp_channel_read (scp : ssh_scp_struct) (count : Z)
  : Z * bytes * ssh_scp_struct :=
  match channel scp with
  | Some ch => let '(r, got, ch') := channel_read ch count in
               (r, got, set_channel (Some ch') scp)
  | None => (SSH_ERROR, [], scp)
  end.

Definition scp_channel_poll (scp : ssh_scp_struct) : ssh_scp_struct :=
  match channel scp with
  | Some ch => set_channel (Some (channel_poll ch)) scp
  | None => scp
  end.

(** [r=channel_read(scp->channel,&code,1,0)] followed by the use of
    [code]: the local is not initialised, so when no byte arrives it
    still holds [code0], whatever the stack held. *)
Definition read_code (code0 : ascii) (scp : ssh_scp_struct)
  : ascii * ssh_scp_struct :=
  let '(_, got, scp') := scp_channel_read scp 1 in
  (match got with c :: _ => c | [] => code0 end, scp').

(** ** Formatting *)

(** [snprintf(buffer, size, ...)]: at most [size - 1] bytes of the
    formatted text are stored, then the terminator. *)
Definition snprintf (size : nat) (text : bytes) : bytes :=
  firstn (size - 1) text.

(** [%s] of a string argument. *)
Definition fmt_s (s : bytes) : bytes := c_str s.

(** Modelled from the spec: [PRIdS] is a macro of priv.h, not under
    src/; the spec has the size as "the decimal byte count". *)
Definition fmt_size (z : Z) : bytes :=
  str (NilZero.string_of_uint (N.to_uint (Z.to_N z))).

(** Modelled from the spec: [ssh_basename] lives in misc.c, not under
    src/.  The spec: "the basename of the caller-supplied path is used
    (any directory components are stripped)", the final path component:
    what follows the last separator. *)
Fixpoint ssh_basename (path : bytes) : bytes :=
  match path with
  | [] => []
  | c :: t =>
      if existsb (Ascii.eqb "/"%char) t then ssh_basename t
      else if Ascii.eqb c "/"%char then t else path
  end.

(** ** The functions of scp.c *)

Definition is_error (r : Z) : bool := r =? SSH_ERROR.

(** [ssh_scp_close] *)
Definition ssh_scp_close (scp : ssh_scp_struct) : Z * ssh_scp_struct :=
  match channel scp with
  | Some ch =>
      let '(r, ch) := channel_send_eof ch in
      let scp := set_channel (Some ch) scp in
      if is_error r then (SSH_ERROR, set_state SSH_SCP_ERROR scp)
      else
        let '(r, ch) := channel_close ch in
        let scp := set_channel (Some ch) scp in
        if is_error r then (SSH_ERROR, set_state SSH_SCP_ERROR scp)
        else (SSH_OK, set_state SSH_SCP_NEW (set_channel None scp))
  | None => (SSH_OK, set_state SSH_SCP_NEW scp)
  end.

(** [ssh_scp_free]: the object is gone afterwards, and with it the
    channel it still held ([channel_free]); what remains is the session
    it was allocated from. *)
Definition ssh_scp_free (scp : ssh_scp_struct) : ssh_session :=
  let scp := if negb (state_eqb (state scp) SSH_SCP_NEW)
             then snd (ssh_scp_close scp) else scp in
  let sess := session scp in
  let sess := SAFE_FREE (location scp) sess in
  let sess := SAFE_FREE (request_mode scp) sess in
  let sess := SAFE_FREE (request_name scp) sess in
  SAFE_FREE (Some scp) sess.

(** [ssh_scp_new]: the session afterwards and the handle, [None] for
    NULL. *)
Definition ssh_scp_new (sess : ssh_session) (mode : Z) (location : bytes)
  : ssh_session * option ssh_scp_struct :=
  let '(ok, sess) := malloc sess in
  if negb ok then (sess, None)
  else
    let scp := zero_struct sess in
    if negb (mode =? SSH_SCP_WRITE) && negb (mode =? SSH_SCP_READ)
    then (ssh_scp_free scp, None)
    else
      let '(loc, sess) := strdup sess location in
      let scp := set_location loc (set_session sess scp) in
      match loc with
      | None => (ssh_scp_free scp, None)
      | Some _ =>
          (sess,
           Some {| session := sess; mode := mode; channel := None;
                   location := loc; state := SSH_SCP_NEW;
                   filelen := filelen scp; processed := processed scp;
                   request_type := request_type scp;
                   request_name := request_name scp;
                   request_mode := request_mode scp |})
      end.

(** [%s] of [scp->location]. *)
Definition location_text (scp : ssh_scp_struct) : bytes :=
  match location scp with Some l => fmt_s l | None => [] end.

(** [ssh_scp_init] *)
Definition ssh_scp_init (code0 : ascii) (scp : ssh_scp_struct)
  : Z * ssh_scp_struct :=
  if negb (state_eqb (state scp) SSH_SCP_NEW) then (SSH_ERROR, scp)
  else
    let '(c, sess) := channel_new (session scp) in
    let scp := set_channel c (set_session sess scp) in
    match c with
    | None => (SSH_ERROR, set_state SSH_SCP_ERROR scp)
    | Some ch =>
        let '(r, ch) := channel_open_session ch in
        let scp := set_channel (Some ch) scp in
        if is_error r then (SSH_ERROR, set_state SSH_SCP_ERROR scp)
        else
          let execbuffer :=
            if mode scp =? SSH_SCP_WRITE
            then snprintf 1024 (str "scp -t " ++ location_text scp)
            else snprintf 1024 (str "scp -f " ++ location_text scp) in
          let '(r, ch) := channel_request_exec ch execbuffer in
          let scp := set_channel (Some ch) scp in
          if is_error r then (SSH_ERROR, set_state SSH_SCP_ERROR scp)
          else
            let '(code, scp) := read_code code0 scp in
            if negb (Ascii.eqb code NUL)
            then (SSH_ERROR, set_state SSH_SCP_ERROR scp)
            else if mode scp =? SSH_SCP_WRITE
                 then (SSH_OK, set_state SSH_SCP_WRITE_INITED scp)
                 else (SSH_OK, set_state SSH_SCP_READ_INITED scp)
    end.

(** [ssh_scp_push_directory] *)
Definition ssh_scp_push_directory (code0 : ascii) (scp : ssh_scp_struct)
  (dirname perms : bytes) : Z * ssh_scp_struct :=
  if negb (state_eqb (state scp) SSH_SCP_WRITE_INITED) then (SSH_ERROR, scp)
  else
    let dir := ssh_basename (c_str dirname) in
    let buffer :=
      snprintf 1024 (str "D" ++ fmt_s perms ++ str " 0 " ++ fmt_s dir ++ [NL]) in
    let '(r, scp) := scp_channel_write scp buffer (strlen buffer) in
    if is_error r then (SSH_ERROR, set_state SSH_SCP_ERROR scp)
    else
      let '(code, scp) := read_code code0 scp in
      if negb (Ascii.eqb code NUL)
      then (SSH_ERROR, set_state SSH_SCP_ERROR scp)
      else (SSH_OK, scp).

(** [ssh_scp_leave_directory] *)
Definition ssh_scp_leave_directory (code0 : ascii) (scp : ssh_scp_struct)
  : Z * ssh_scp_struct :=
  if negb (state_eqb (state scp) SSH_SCP_WRITE_INITED) then (SSH_ERROR, scp)
  else
    let buffer := str "E" ++ [NL] in
    let '(r, scp) := scp_channel_write scp buffer (strlen buffer) in
    if is_error r then (SSH_ERROR, set_state SSH_SCP_ERROR scp)
    else
      let '(code, scp) := read_code code0 scp in
      if negb (Ascii.eqb code NUL)
      then (SSH_ERROR, set_state SSH_SCP_ERROR scp)
      else (SSH_OK, scp).

(** [ssh_scp_push_file] *)
Definition ssh_scp_push_file (code0 : ascii) (scp : ssh_scp_struct)
  (filename : bytes) (size : Z) (perms : bytes) : Z * ssh_scp_struct :=
  let size := wrap size in
  if negb (state_eqb (state scp) SSH_SCP_WRITE_INITED) then (SSH_ERROR, scp)
  else
    let file := ssh_basename (c_str filename) in
    let buffer :=
      snprintf 1024 (str "C" ++ fmt_s perms ++ [SP] ++ fmt_size size ++ [SP]
                     ++ fmt_s file ++ [NL]) in
    let '(r, scp) := scp_channel_write scp buffer (strlen buffer) in
    if is_error r then (SSH_ERROR, set_state SSH_SCP_ERROR scp)
    else
      let '(code, scp) := read_code code0 scp in
      if negb (Ascii.eqb code NUL)
      then (SSH_ERROR, set_state SSH_SCP_ERROR scp)
      else
        (SSH_OK,
         set_state SSH_SCP_WRITE_WRITING
           (set_processed 0 (set_filelen size scp))).

(** The end-of-file check shared by [ssh_scp_write] and [ssh_scp_read]. *)
Definition end_of_file (inited : ssh_scp_states) (scp : ssh_scp_struct)
  : ssh_scp_struct :=
  if processed scp =? filelen scp
  then set_state inited (set_processed 0 (set_filelen 0 scp))
  else scp.

(** [ssh_scp_write] *)
Definition ssh_scp_write (scp : ssh_scp_struct) (buffer : bytes) (len : Z)
  : Z * ssh_scp_struct :=
  let len := wrap len in
  if negb (state_eqb (state scp) SSH_SCP_WRITE_WRITING) then (SSH_ERROR, scp)
  else
    let len := if wrap (processed scp + len) >? filelen scp
               then wrap (filelen scp - processed scp) else len in
    let scp := scp_channel_poll scp in
    let '(w, scp) := scp_channel_write scp buffer len in
    if negb (is_error w)
    then
      let scp := set_processed (wrap (processed scp + w)) scp in
      (SSH_OK, end_of_file SSH_SCP_WRITE_INITED scp)
    else (SSH_ERROR, set_state SSH_SCP_ERROR scp).

(** The loop of [ssh_scp_read_string]; [n] is [len - 1 - r], the passes
    the loop condition still allows. *)
Fixpoint read_string_loop (n r : nat) (err : Z) (scp : ssh_scp_struct)
  (buffer : bytes) : nat * Z * ssh_scp_struct * bytes :=
  match n with
  | O => (r, err, scp, buffer)
  | S n' =>
      let '(err, got, scp) := scp_channel_read scp 1 in
      let buffer := buf_store r got buffer in
      if is_error err then (r, err, scp, buffer)
      else if err =? 0 then (r, SSH_ERROR, scp, buffer)
      else
        if Ascii.eqb (nth r buffer NUL) NL then (S r, err, scp, buffer)
        else read_string_loop n' (S r) err scp buffer
  end.

(** [ssh_scp_read_string]: the return value, the object and the
    caller's buffer afterwards. *)
Definition ssh_scp_read_string (scp : ssh_scp_struct) (buffer : bytes) (len : Z)
  : Z * ssh_scp_struct * bytes :=
  let len := wrap len in
  let '(r, err, scp, buffer) :=
    read_string_loop (Z.to_nat (wrap (len - 1))) 0 SSH_OK scp buffer in
  (err, scp, buf_set r NUL buffer).

(** [strchr(s, c)] for a character [c] other than the terminator, as the
    text before the match and the text after it. *)
Fixpoint strchr (s : bytes) (c : ascii) : option (bytes * bytes) :=
  match s with
  | [] => None
  | x :: t =>
      if Ascii.eqb x NUL then None
      else if Ascii.eqb x c then Some ([], t)
      else match strchr t c with
           | Some (u, v) => Some (x :: u, v)
           | None => None
           end
  end.

(** The value of a decimal digit: [c - '0'] when ['0' <= c <= '9']. *)
Definition digit_val (c : ascii) : option Z :=
  let n := Z.of_N (N_of_ascii c) in
  if (Z.of_N (N_of_ascii "0"%char) <=? n) && (n <=? Z.of_N (N_of_ascii "9"%char))
  then Some (n - Z.of_N (N_of_ascii "0"%char))
  else None.

Definition isspace (c : ascii) : bool :=
  match c with
  | " "%char | "009"%char | "010"%char | "011"%char | "012"%char
  | "013"%char => true
  | _ => false
  end.

Fixpoint skip_spaces (s : bytes) : bytes :=
  match s with
  | c :: t => if isspace c then skip_spaces t else s
  | [] => []
  end.

Fixpoint strtoull_digits (acc : Z) (ovf : bool) (s : bytes) : Z * bool :=
  match s with
  | c :: t =>
      match digit_val c with
      | Some d =>
          let acc' := acc * 10 + d in
          if SIZE_MODULUS <=? acc' then strtoull_digits (SIZE_MODULUS - 1) true t
          else strtoull_digits acc' ovf t
      | None => (acc, ovf)
      end
  | [] => (acc, ovf)
  end.

(** [strtoull(s, NULL, 10)] of the C library: leading white space, an
    optional sign, decimal digits; ULLONG_MAX when the value does not
    fit. *)
Definition strtoull (s : bytes) : Z :=
  let s := skip_spaces (c_str s) in
  let '(neg, s) := match s with
                   | "-"%char :: t => (true, t)
                   | "+"%char :: t => (false, t)
                   | _ => (false, s)
                   end in
  let '(v, ovf) := strtoull_digits 0 false s in
  if ovf then SIZE_MODULUS - 1 else if neg then wrap (- v) else v.

(** The body of [ssh_scp_pull_request]; [stack] is what the local
    [char buffer[4096]], which is not initialised, holds on entry. *)
Definition pull_request_body (stack : bytes) (scp : ssh_scp_struct)
  : Z * ssh_scp_struct :=
  if negb (state_eqb (state scp) SSH_SCP_READ_INITED) then (SSH_ERROR, scp)
  else
    let '(err, scp, buffer) := ssh_scp_read_string scp stack 4096 in
    if is_error err then (err, scp)
    else
      let b0 := nth 0 buffer NUL in
      if Ascii.eqb b0 "C"%char || Ascii.eqb b0 "D"%char then
        match strchr buffer SP with
        | None => (SSH_ERROR, scp)
        | Some (f0, p) =>
            let '(mode, sess) := strdup (session scp) (tl f0) in
            let scp := set_session sess scp in
            match strchr p SP with
            | None => (SSH_ERROR, set_session (SAFE_FREE mode sess) scp)
            | Some (tmp, p) =>
                let size := strtoull tmp in
                match strchr p NL with
                | None => (SSH_ERROR, set_session (SAFE_FREE mode sess) scp)
                | Some (tmp, _) =>
                    let '(name, sess) := strdup sess tmp in
                    let sess := SAFE_FREE (request_name scp) sess in
                    let sess := SAFE_FREE (request_mode scp) sess in
                    let scp := set_session sess scp in
                    let scp :=
                      if Ascii.eqb b0 "C"%char
                      then set_request SSH_SCP_REQUEST_NEWFILE name mode
                             (set_filelen size scp)
                      else set_request SSH_SCP_REQUEST_NEWDIR name mode
                             (set_filelen (Z.of_N (N_of_ascii "0"%char)) scp) in
                    let scp := set_processed 0
                                 (set_state SSH_SCP_READ_REQUESTED scp) in
                    (request_type scp, scp)
                end
            end
        end
      else (SSH_ERROR, scp).

(** [ssh_scp_pull_request].  The decoder reads the array only up to
    the terminator [ssh_scp_read_string] stores, so the content of the
    array on entry has no effect (lemma [pull_request_stack_irrelevant]);
    it is taken as zeros. *)
Definition ssh_scp_pull_request (scp : ssh_scp_struct) : Z * ssh_scp_struct :=
  pull_request_body (repeat NUL 4096) scp.

(** [ssh_scp_deny_request] *)
Definition ssh_scp_deny_request (scp : ssh_scp_struct) (reason : bytes)
  : Z * ssh_scp_struct :=
  if negb (state_eqb (state scp) SSH_SCP_READ_REQUESTED) then (SSH_ERROR, scp)
  else
    let buffer := snprintf 4096 ("002"%char :: fmt_s reason ++ [NL]) in
    let '(err, scp) := scp_channel_write scp buffer (strlen buffer) in
    if is_error err then (SSH_ERROR, scp)
    else (SSH_OK, set_state SSH_SCP_READ_INITED scp).

(** [ssh_scp_accept_request] *)
Definition ssh_scp_accept_request (scp : ssh_scp_struct) : Z * ssh_scp_struct :=
  let buffer := [NUL] in
  if negb (state_eqb (state scp) SSH_SCP_READ_REQUESTED) then (SSH_ERROR, scp)
  else
    let '(err, scp) := scp_channel_write scp buffer 1 in
    if is_error err then (SSH_ERROR, scp)
    else if request_type scp =? SSH_SCP_REQUEST_NEWFILE
         then (SSH_OK, set_state SSH_SCP_READ_READING scp)
         else (SSH_OK, set_state SSH_SCP_READ_INITED scp).

(** [ssh_scp_read]: the return value, the bytes stored in the caller's
    buffer and the object afterwards. *)
Definition ssh_scp_read (scp : ssh_scp_struct) (size : Z)
  : Z * bytes * ssh_scp_struct :=
  let size := wrap size in
  let '(r, scp) :=
    if state_eqb (state scp) SSH_SCP_READ_REQUESTED
       && (request_type scp =? SSH_SCP_REQUEST_NEWFILE)
    then ssh_scp_accept_request scp
    else (SSH_OK, scp) in
  if is_error r then (r, [], scp)
  else if negb (state_eqb (state scp) SSH_SCP_READ_READING)
  then (SSH_ERROR, [], scp)
  else
    let size := if wrap (processed scp + size) >? filelen scp
                then wrap (filelen scp - processed scp) else size in
    let size := if size >? 65536 then 65536 else size in
    let '(r, got, scp) := scp_channel_read scp size in
    if negb (is_error r)
    then
      let scp := set_processed (wrap (processed scp + r)) scp in
      (r, got, end_of_file SSH_SCP_READ_INITED scp)
    else (SSH_ERROR, [], set_state SSH_SCP_ERROR scp).

(** The three accessors of the pending request. *)
Definition ssh_scp_request_get_filename (scp : ssh_scp_struct) : option bytes :=
  request_name scp.

Definition ssh_scp_request_get_permissions (scp : ssh_scp_struct) : option bytes :=
  request_mode scp.

Definition ssh_scp_request_get_size (scp : ssh_scp_struct) : Z :=
  filelen scp.

(** ** The operations as one step function *)

(** The operations of the state machine with their arguments; [code0] is
    the indeterminate content of the local status byte. *)
Inductive operation : Type :=
| OpInit (code0 : ascii)
| OpPushDirectory (code0 : ascii) (dirname perms : bytes)
| OpLeaveDirectory (code0 : ascii)
| OpPushFile (code0 : ascii) (filename : bytes) (size : Z) (perms : bytes)
| OpWrite (buffer : bytes) (len : Z)
| OpPullRequest
| OpDenyRequest (reason : bytes)
| OpAcceptRequest
| OpRead (size : Z).

Definition run_op (op : operation) (scp : ssh_scp_struct) : Z * ssh_scp_struct :=
  match op with
  | OpInit c => ssh_scp_init c scp
  | OpPushDirectory c d p => ssh_scp_push_directory c scp d p
  | OpLeaveDirectory c => ssh_scp_leave_directory c scp
  | OpPushFile c f n p => ssh_scp_push_file c scp f n p
  | OpWrite b n => ssh_scp_write scp b n
  | OpPullRequest => ssh_scp_pull_request scp
  | OpDenyRequest r => ssh_scp_deny_request scp r
  | OpAcceptRequest => ssh_scp_accept_request scp
  | OpRead n => let '(r, _, scp') := ssh_scp_read scp n in (r, scp')
  end.

(** The state each operation requires (the Precondition column of the
    transition table; read chunk also runs from [ReadRequested] with a
    pending file request). *)
Definition precondition (op : operation) (scp : ssh_scp_struct) : bool :=
  match op with
  | OpInit _ => state_eqb (state scp) SSH_SCP_NEW
  | OpPushDirectory _ _ _ | OpLeaveDirectory _ | OpPushFile _ _ _ _ =>
      state_eqb (state scp) SSH_SCP_WRITE_INITED
  | OpWrite _ _ => state_eqb (state scp) SSH_SCP_WRITE_WRITING
  | OpPullRequest => state_eqb (state scp) SSH_SCP_READ_INITED
  | OpDenyRequest _ | OpAcceptRequest =>
      state_eqb (state scp) SSH_SCP_READ_REQUESTED
  | OpRead _ =>
      state_eqb (state scp) SSH_SCP_READ_READING
      || (state_eqb (state scp) SSH_SCP_READ_REQUESTED
          && (request_type scp =? SSH_SCP_REQUEST_NEWFILE))
  end.

(** The sessions a caller can hold between creation and close: created
    by [ssh_scp_new], then driven by any operations with any arguments
    over any channel behaviour. *)
Inductive reachable : ssh_scp_struct -> Prop :=
| reach_new : forall sess mode location sess' scp,
    ssh_scp_new sess mode location = (sess', Some scp) -> reachable scp
| reach_step : forall op scp,
    reachable scp -> reachable (snd (run_op op scp)).

(** The data of the write calls of a log, in order. *)
Fixpoint writes_of (log : list io_event) : list bytes :=
  match log with
  | [] => []
  | EvWrite _ d _ :: t => d :: writes_of t
  | _ :: t => writes_of t
  end.

Definition scp_log (scp : ssh_scp_struct) : list io_event :=
  match channel scp with Some ch => io_log ch | None => [] end.

(** ** The incoming stream seen one byte at a time *)

Inductive arrival : Type :=
| AByte (c : ascii)
| AEof
| AErr.

(** What successive one-byte reads meet on a channel with the given
    plan; past its end every read reports the end of the stream. *)
Fixpoint arrivals (p : list rd_outcome) : list arrival :=
  match p with
  | [] => []
  | RdError :: t => AErr :: arrivals t
  | RdData [] :: t => AEof :: arrivals t
  | RdData bs :: t => map AByte bs ++ arrivals t
  end.

(** The channel after [k] one-byte reads. *)
Fixpoint after_reads (k : nat) (ch : ssh_channel) : ssh_channel :=
  match k with
  | O => ch
  | S k' => after_reads k' (snd (channel_read ch 1))
  end.

(** The control line a decoder with room for [n] bytes receives: the
    bytes up to and including the first newline, at most [n] of them;
    [false] when the stream ended or failed before that. *)
Fixpoint recv_line (n : nat) (a : list arrival) : bytes * bool :=
  match n with
  | O => ([], true)
  | S n' =>
      match a with
      | AByte c :: t =>
          if Ascii.eqb c NL then ([c], true)
          else let '(l, ok) := recv_line n' t in (c :: l, ok)
      | _ => ([], false)
      end
  end.

(** ** Vocabulary of the statements *)


(** The operations whose failure sites all assign SSH_SCP_ERROR. *)
Definition sets_error_on_failure (op : operation) (scp : ssh_scp_struct) : bool :=
  match op with
  | OpInit _ | OpPushDirectory _ _ _ | OpLeaveDirectory _
  | OpPushFile _ _ _ _ | OpWrite _ _ => true
  | OpRead _ => state_eqb (state scp) SSH_SCP_READ_READING
  | OpPullRequest | OpDenyRequest _ | OpAcceptRequest => false
  end.

(** The three operations of the pull-side handshake. *)
Definition pull_handshake (op : operation) : bool :=
  match op with
  | OpPullRequest | OpDenyRequest _ | OpAcceptRequest => true
  | _ => false
  end.

(** The length [ssh_scp_write] passes to the channel. *)
Definition write_len (scp : ssh_scp_struct) (len : Z) : Z :=
  if wrap (processed scp + wrap len) >? filelen scp
  then wrap (filelen scp - processed scp) else wrap len.

(** The count [ssh_scp_read] passes to the channel. *)
Definition read_len (scp : ssh_scp_struct) (size : Z) : Z :=
  let size := if wrap (processed scp + wrap size) >? filelen scp
              then wrap (filelen scp - processed scp) else wrap size in
  if size >? 65536 then 65536 else size.

(** The stream has ended or failed: its next read is not a byte. *)
Definition stream_stops (a : list arrival) : bool :=
  match a with
  | AByte _ :: _ => false
  | _ => true
  end.

(** The fields that hold the pending request and the transfer. *)
Definition same_request (a b : ssh_scp_struct) : Prop :=
  state b = state a /\ request_type b = request_type a /\
  request_name b = request_name a /\ request_mode b = request_mode a /\
  filelen b = filelen a /\ processed b = processed a.

(** Past initialize, and short of the Error state, the object holds a
    channel. *)
Definition channel_inv (scp : ssh_scp_struct) : Prop :=
  state scp = SSH_SCP_NEW \/ state scp = SSH_SCP_ERROR \/
  channel scp <> None.

(** ** Concrete sessions used by the examples *)

(** A channel that opens and execs, with the given read and write
    plans. *)
Definition mk_channel (rd : list rd_outcome) (wr : list wr_outcome) : ssh_channel :=
  {| open_ok := true; exec_ok := true; eof_ok := true; close_ok := true;
     rd_plan := rd; wr_plan := wr; io_log := [] |}.

Definition mk_session (rd : list rd_outcome) (wr : list wr_outcome) : ssh_session :=
  {| alloc_plan := []; live_blocks := 0;
     chan_plan := [Some (mk_channel rd wr)] |}.

(** create(mode, location) over a transport whose channel follows the
    plans [rd] and [wr]. *)
Definition created (m : Z) (loc : string)
  (rd : list rd_outcome) (wr : list wr_outcome) : ssh_scp_struct :=
  match ssh_scp_new (mk_session rd wr) m (str loc) with
  | (_, Some scp) => scp
  | (sess, None) => zero_struct sess
  end.

(** Runs a list of operations, keeping the results. *)
Fixpoint run_ops (ops : list operation) (scp : ssh_scp_struct)
  : list Z * ssh_scp_struct :=
  match ops with
  | [] => ([], scp)
  | op :: t =>
      let '(r, scp) := run_op op scp in
      let '(rs, scp) := run_ops t scp in
      (r :: rs, scp)
  end.

Definition line (s : string) : bytes := str s ++ [NL].

(** An object in the Error state, over a channel that would answer. *)
Definition scp_in_error : ssh_scp_struct :=
  set_state SSH_SCP_ERROR
    (set_channel (Some (mk_channel [RdData [NUL]] []))
       (zero_struct (mk_session [] []))).

(** The scenario "deny pull request": create(Pull), initialize(), the
    peer announces a file of 10 bytes, deny. *)
Definition denied_session : ssh_scp_struct :=
  snd (run_ops [OpInit "001"%char; OpPullRequest;
                OpDenyRequest (str "not allowed")]
         (created SSH_SCP_READ "/tmp/src"
            [RdData [NUL]; RdData (line "C0644 10 x")] [])).

(** A pull session with a pending file request whose next channel write
    will fail. *)
Definition requested_write_fails : ssh_scp_struct :=
  snd (run_ops [OpInit "001"%char; OpPullRequest]
         (created SSH_SCP_READ "/tmp/src"
            [RdData [NUL]; RdData (line "C0644 10 x")] [WrError])).

(** The scenario "malformed control line": create(Pull), initialize(),
    the peer sends "Xgarbage" and a newline, and then a well-formed
    header. *)
Definition garbage_then_header : ssh_scp_struct :=
  snd (run_ops [OpInit "001"%char]
         (created SSH_SCP_READ "/tmp/src"
            [RdData [NUL]; RdData (line "Xgarbage");
             RdData (line "C0644 10 x")] [])).

(** The scenario "push file" stopped half way: a file of 10 bytes is
    announced and "hello" is written; the channel will take 6 bytes of
    the next write. *)
Definition half_written : ssh_scp_struct :=
  snd (run_ops [OpInit "001"%char;
                OpPushFile "001"%char (str "f.txt") 10 (str "0644");
                OpWrite (str "hello") 5]
         (created SSH_SCP_WRITE "/tmp/dst"
            [RdData [NUL]; RdData [NUL]] [WrAccept 14; WrAccept 5; WrAccept 6])).

(** A pull stopped half way: a file of 10 bytes is announced and
    accepted, 5 bytes are read; the peer has the other 5 bytes and the
    next header in flight. *)
Definition half_read : ssh_scp_struct :=
  snd (run_ops [OpInit "001"%char; OpPullRequest; OpAcceptRequest; OpRead 5]
         (created SSH_SCP_READ "/tmp/src"
            [RdData [NUL]; RdData (line "C0644 10 x"); RdData (str "hello");
             RdData (str "world" ++ line "C0644 3 y")] [])).

(** A push session that has announced a file of 5 bytes. *)
Definition file_of_5 : ssh_scp_struct :=
  snd (run_ops [OpInit "001"%char;
                OpPushFile "001"%char (str "f.txt") 5 (str "0644")]
         (created SSH_SCP_WRITE "/tmp/dst" [RdData [NUL]; RdData [NUL]] [])).

(** A pull session with a pending file request, and its channel. *)
Definition requested_file : ssh_scp_struct :=
  snd (run_ops [OpInit "001"%char; OpPullRequest]
         (created SSH_SCP_READ "/tmp/src"
            [RdData [NUL]; RdData (line "C0644 10 x"); RdData (str "hello")]
            [])).

Definition channel_of (scp : ssh_scp_struct) : ssh_channel :=
  match channel scp with Some ch => ch | None => mk_channel [] [] end.

(** A pull session whose peer sends six bytes without a newline. *)
Definition overlong_session : ssh_scp_struct :=
  snd (run_ops [OpInit "001"%char]
         (created SSH_SCP_READ "/tmp/src"
            [RdData [NUL]; RdData (str "abcdef")] [])).

(** A pull session whose peer sends a timestamp line. *)
Definition timestamp_session : ssh_scp_struct :=
  snd (run_ops [OpInit "001"%char]
         (created SSH_SCP_READ "/tmp/src"
            [RdData [NUL]; RdData (line "T1183828267 0 1183828267 0")] [])).

(** A pull session whose peer sends the header of the round-trip
    example. *)
Definition header_session : ssh_scp_struct :=
  snd (run_ops [OpInit "001"%char]
         (created SSH_SCP_READ "/tmp/src"
            [RdData [NUL]; RdData (line "C0644 1234 data.bin")] [])).

(** A push session after initialize(). *)
Definition push_ready : ssh_scp_struct :=
  snd (run_ops [OpInit "001"%char]
         (created SSH_SCP_WRITE "/tmp/dst" [RdData [NUL]; RdData [NUL]] [])).

(** A directory name of 1020 bytes. *)
Definition long_name : bytes := repeat "a"%char 1020.

(** The control lines of section 4.1, before the buffer limit applies. *)
Definition directory_line (perms dirname : bytes) : bytes :=
  str "D" ++ c_str perms ++ str " 0 " ++ ssh_basename (c_str dirname) ++ [NL].

Definition file_line (perms : bytes) (size : Z) (filename : bytes) : bytes :=
  str "C" ++ c_str perms ++ [SP] ++ fmt_size (wrap size) ++ [SP]
  ++ ssh_basename (c_str filename) ++ [NL].

Definition leave_line : bytes := str "E" ++ [NL].

(** A freshly created push session whose channel fails the read of the
    status byte. *)
Definition status_read_fails : ssh_scp_struct :=
  created SSH_SCP_WRITE "/tmp/dst" [RdError] [].




(** ** The whole life of a session *)

(** A call on the object: one of the operations, or [ssh_scp_close]. *)
Inductive call : Type :=
| CallOp (op : operation)
| CallClose.

Definition run_call (c : call) (scp : ssh_scp_struct) : Z * ssh_scp_struct :=
  match c with
  | CallOp op => run_op op scp
  | CallClose => ssh_scp_close scp
  end.

Fixpoint run_calls (cs : list call) (scp : ssh_scp_struct) : ssh_scp_struct :=
  match cs with
  | [] => scp
  | c :: t => run_calls t (snd (run_call c scp))
  end.

(** The blocks the object owns: itself and the strings its pointer
    fields hold. *)
Definition held {A : Type} (p : option A) : Z :=
  match p with Some _ => 1 | None => 0 end.

Definition owned_blocks (scp : ssh_scp_struct) : Z :=
  1 + held (location scp) + held (request_name scp)
  + held (request_mode scp).

(** The assignments to [scp->state] that scp.c contains, as pairs of the
    state before and the state after one operation. *)
Definition transition (a b : ssh_scp_states) : bool :=
  match a, b with
  | SSH_SCP_NEW, (SSH_SCP_WRITE_INITED | SSH_SCP_READ_INITED)
  | SSH_SCP_WRITE_INITED, SSH_SCP_WRITE_WRITING
  | SSH_SCP_WRITE_WRITING, SSH_SCP_WRITE_INITED
  | SSH_SCP_READ_INITED, SSH_SCP_READ_REQUESTED
  | SSH_SCP_READ_REQUESTED, (SSH_SCP_READ_INITED | SSH_SCP_READ_READING)
  | SSH_SCP_READ_READING, SSH_SCP_READ_INITED
  | _, SSH_SCP_ERROR => true
  | _, _ => state_eqb a b
  end.

(** The states of each mode. *)
Definition state_of_mode (m : Z) (s : ssh_scp_states) : bool :=
  match s with
  | SSH_SCP_NEW | SSH_SCP_ERROR => true
  | SSH_SCP_WRITE_INITED | SSH_SCP_WRITE_WRITING => m =? SSH_SCP_WRITE
  | SSH_SCP_READ_INITED | SSH_SCP_READ_REQUESTED | SSH_SCP_READ_READING =>
      m =? SSH_SCP_READ
  end.

(** The live blocks of the session that are not the object's. *)
Definition foreign_blocks (scp : ssh_scp_struct) : Z :=
  live_blocks (session scp) - owned_blocks scp.

(** The three operations that send a control line while pushing, and
    the state each leaves on success. *)
Definition push_control (op : operation) : bool :=
  match op with
  | OpPushDirectory _ _ _ | OpLeaveDirectory _ | OpPushFile _ _ _ _ => true
  | _ => false
  end.

Definition state_after_push (op : operation) : ssh_scp_states :=
  match op with
  | OpPushFile _ _ _ _ => SSH_SCP_WRITE_WRITING
  | _ => SSH_SCP_WRITE_INITED
  end.

(** The next write on the channel will fail. *)
Definition write_fails (ch : ssh_channel) : bool :=
  match wr_plan ch with
  | WrError :: _ => true
  | _ => false
  end.

(** The channel takes the next write and the peer's next answer is the
    status byte 0x00. *)
Definition peer_acknowledges (ch : ssh_channel) : Prop :=
  write_fails ch = false /\
  exists rest, arrivals (rd_plan ch) = AByte NUL :: rest.

(** A file body handed over in pieces: one write chunk per buffer, each
    with the length of its buffer. *)
Definition write_chunks (bufs : list bytes) : list operation :=
  map (fun b => OpWrite b (Z.of_nat (length b))) bufs.

(** A control line as the decoder splits it: the kind byte, the
    permissions, the size token and the name. *)
Definition control_line (k : ascii) (perms tok name : bytes) : bytes :=
  k :: perms ++ [SP] ++ tok ++ [SP] ++ name ++ [NL].

(** A field holds neither the terminator nor a newline; a token holds no
    space either. *)
Definition field_ok (l : bytes) : Prop := ~ In NUL l /\ ~ In NL l.

Definition token_ok (l : bytes) : Prop := field_ok l /\ ~ In SP l.


(** The object over a session whose allocator will answer as [p]. *)
Definition with_alloc_plan (p : list bool) (scp : ssh_scp_struct)
  : ssh_scp_struct :=
  set_session {| alloc_plan := p;
                 live_blocks := live_blocks (session scp);
                 chan_plan := chan_plan (session scp) |} scp.

(** The length of a read chunk when the size arithmetic does not wrap:
    the caller's size, what is left of the file, and 65536, whichever
    is least. *)
Definition chunk_len (scp : ssh_scp_struct) (size : Z) : Z :=
  Z.min (Z.min size (filelen scp - processed scp)) 65536.

(** A pull session whose peer announces a directory. *)
Definition directory_session : ssh_scp_struct :=
  snd (run_ops [OpInit "001"%char]
         (created SSH_SCP_READ "/tmp/src"
            [RdData [NUL]; RdData (line "D0755 0 sub")] [])).

(** A pull session whose peer sends a file header with a size field
    that is not a number. *)
Definition wordy_session : ssh_scp_struct :=
  snd (run_ops [OpInit "001"%char]
         (created SSH_SCP_READ "/tmp/src"
            [RdData [NUL]; RdData (line "C0644 many x")] [])).
(** ** Basic facts *)

Lemma state_eqb_eq : forall a b, state_eqb a b = true <-> a = b.
Proof.
  intros a b; split.
  - destruct a, b; simpl; intro H; try discriminate H; reflexivity.
  - intros ->; destruct b; reflexivity.
Qed.

Lemma state_eqb_refl : forall a, state_eqb a a = true.
Proof. intro a; apply state_eqb_eq; reflexivity. Qed.

Lemma state_eqb_neq : forall a b, state_eqb a b = false <-> a <> b.
Proof.
  intros a b; split.
  - intros H E; subst; rewrite state_eqb_refl in H; discriminate.
  - intro H; destruct (state_eqb a b) eqn:E; [|reflexivity].
    apply state_eqb_eq in E; contradiction.
Qed.

Lemma is_error_true : forall r, is_error r = true <-> r = SSH_ERROR.
Proof. intro r; unfold is_error; apply Z.eqb_eq. Qed.

Lemma is_error_false : forall r, is_error r = false <-> r <> SSH_ERROR.
Proof. intro r; unfold is_error; apply Z.eqb_neq. Qed.

Lemma wrap_range : forall z, 0 <= wrap z < SIZE_MODULUS.
Proof. intro z; unfold wrap; apply Z.mod_pos_bound; reflexivity. Qed.

Lemma wrap_small : forall z, 0 <= z < SIZE_MODULUS -> wrap z = z.
Proof. intros z H; unfold wrap; apply Z.mod_small; exact H. Qed.

(** ** State preconditions (C5) *)

Lemma precondition_error_state :
  forall op scp, state scp = SSH_SCP_ERROR -> precondition op scp = false.
Proof.
  intros op scp H; destruct op; simpl; rewrite H; reflexivity.
Qed.

Lemma run_op_outside_precondition :
  forall op scp, precondition op scp = false -> run_op op scp = (SSH_ERROR, scp).
Proof.
  intros op scp H; destruct op; simpl in *.
  - unfold ssh_scp_init; rewrite H; reflexivity.
  - unfold ssh_scp_push_directory; rewrite H; reflexivity.
  - unfold ssh_scp_leave_directory; rewrite H; reflexivity.
  - unfold ssh_scp_push_file; cbv zeta; rewrite H; reflexivity.
  - unfold ssh_scp_write; cbv zeta; rewrite H; reflexivity.
  - unfold ssh_scp_pull_request, pull_request_body; rewrite H; reflexivity.
  - unfold ssh_scp_deny_request; rewrite H; reflexivity.
  - unfold ssh_scp_accept_request; cbv zeta; rewrite H; reflexivity.
  - apply orb_false_iff in H; destruct H as [H1 H2].
    unfold ssh_scp_read; cbv zeta; rewrite H2; simpl.
    rewrite H1; reflexivity.
Qed.

(** C5: an operation invoked in a state other than its precondition
    state(s) returns the failure result and leaves the object, its
    channel and the channel's call log exactly as they were, so no
    channel I/O took place; this covers every operation in the Error
    state. *)
Theorem C5_state_precondition :
  forall op scp,
    (precondition op scp = false \/ state scp = SSH_SCP_ERROR) ->
    fst (run_op op scp) = SSH_ERROR /\
    snd (run_op op scp) = scp /\
    scp_log (snd (run_op op scp)) = scp_log scp.
Proof.
  intros op scp [H | H].
  - rewrite (run_op_outside_precondition op scp H); simpl; auto.
  - rewrite (run_op_outside_precondition op scp
               (precondition_error_state op scp H)); simpl; auto.
Qed.

Lemma C5_state_precondition_witness :
  fst (run_op OpPullRequest scp_in_error) = SSH_ERROR /\
  snd (run_op OpPullRequest scp_in_error) = scp_in_error /\
  scp_log (snd (run_op OpPullRequest scp_in_error)) = scp_log scp_in_error.
Proof.
  apply (C5_state_precondition OpPullRequest scp_in_error).
  right; reflexivity.
Defined.

(** ** What the channel calls leave alone *)

Lemma set_channel_same : forall scp, set_channel (channel scp) scp = scp.
Proof. intros []; reflexivity. Qed.

Lemma scp_channel_write_frame :
  forall scp b l w scp',
    scp_channel_write scp b l = (w, scp') ->
    exists c, scp' = set_channel c scp /\ (channel scp <> None -> c <> None).
Proof.
  intros scp b l w scp'; unfold scp_channel_write.
  destruct (channel scp) as [ch|] eqn:E.
  - destruct (channel_write ch b l) as [w' ch']; intro H; inversion H; subst.
    eexists; split; [reflexivity | discriminate].
  - intro H; inversion H; subst; exists None.
    split; [|intro N; exact N].
    rewrite <- E; symmetry; apply set_channel_same.
Qed.

Lemma scp_channel_read_frame :
  forall scp n r got scp',
    scp_channel_read scp n = (r, got, scp') ->
    exists c, scp' = set_channel c scp /\ (channel scp <> None -> c <> None).
Proof.
  intros scp n r got scp'; unfold scp_channel_read.
  destruct (channel scp) as [ch|] eqn:E.
  - destruct (channel_read ch n) as [[r' g'] ch']; intro H; inversion H; subst.
    eexists; split; [reflexivity | discriminate].
  - intro H; inversion H; subst; exists None.
    split; [|intro N; exact N].
    rewrite <- E; symmetry; apply set_channel_same.
Qed.

Lemma scp_channel_poll_frame :
  forall scp,
    exists c, scp_channel_poll scp = set_channel c scp /\
              (channel scp <> None -> c <> None).
Proof.
  intro scp; unfold scp_channel_poll.
  destruct (channel scp) as [ch|] eqn:E.
  - eexists; split; [reflexivity | discriminate].
  - exists None; split; [|intro N; exact N].
    rewrite <- E; symmetry; apply set_channel_same.
Qed.

Lemma read_code_frame :
  forall code0 scp code scp',
    read_code code0 scp = (code, scp') ->
    exists c, scp' = set_channel c scp /\ (channel scp <> None -> c <> None).
Proof.
  intros code0 scp code scp'; unfold read_code.
  destruct (scp_channel_read scp 1) as [[r got] s1] eqn:E.
  intro H; inversion H; subst.
  eapply scp_channel_read_frame; eassumption.
Qed.

Lemma read_string_loop_frame :
  forall n r err scp buffer r' err' scp' buffer',
    read_string_loop n r err scp buffer = (r', err', scp', buffer') ->
    exists c, scp' = set_channel c scp /\ (channel scp <> None -> c <> None).
Proof.
  induction n as [|n IH]; intros r err scp buffer r' err' scp' buffer'; simpl.
  - intro H; inversion H; subst; exists (channel scp').
    split; [symmetry; apply set_channel_same | intro N; exact N].
  - destruct (scp_channel_read scp 1) as [[e got] s1] eqn:E.
    apply scp_channel_read_frame in E; destruct E as [c [-> K]].
    destruct (is_error e); [intro H; inversion H; subst; eauto|].
    destruct (e =? 0); [intro H; inversion H; subst; eauto|].
    destruct (Ascii.eqb _ NL); [intro H; inversion H; subst; eauto|].
    intro H; apply IH in H; destruct H as [c' [-> K']].
    exists c'; split; [reflexivity|]. intro N; apply K', K, N.
Qed.

Lemma ssh_scp_read_string_frame :
  forall scp buffer len err scp' buffer',
    ssh_scp_read_string scp buffer len = (err, scp', buffer') ->
    exists c, scp' = set_channel c scp /\ (channel scp <> None -> c <> None).
Proof.
  intros scp buffer len err scp' buffer'; unfold ssh_scp_read_string; cbv zeta.
  destruct (read_string_loop _ 0 SSH_OK scp buffer) as [[[r e] s1] b1] eqn:E.
  intro H; inversion H; subst.
  eapply read_string_loop_frame; eassumption.
Qed.

(** Destructs the next case distinction of the goal, and replaces the
    object a channel call returned by the object it came from with
    another channel. *)
Ltac frame_hyp :=
  match goal with
  | H : scp_channel_write _ _ _ = (_, _) |- _ =>
      apply scp_channel_write_frame in H
      ; let c := fresh "c" in let K := fresh "K" in destruct H as [c [-> K]]
  | H : scp_channel_read _ _ = (_, _, _) |- _ =>
      apply scp_channel_read_frame in H
      ; let c := fresh "c" in let K := fresh "K" in destruct H as [c [-> K]]
  | H : read_code _ _ = (_, _) |- _ =>
      apply read_code_frame in H
      ; let c := fresh "c" in let K := fresh "K" in destruct H as [c [-> K]]
  | H : ssh_scp_read_string _ _ _ = (_, _, _) |- _ =>
      apply ssh_scp_read_string_frame in H
      ; let c := fresh "c" in let K := fresh "K" in destruct H as [c [-> K]]
  end.

Ltac break_step :=
  match goal with
  | |- context [scp_channel_poll ?s] =>
      let c := fresh "c" in let E := fresh "E" in let K := fresh "K" in
      destruct (scp_channel_poll_frame s) as [c [E K]]; rewrite E; clear E
  | |- context [match ?x with _ => _ end] =>
      lazymatch x with
      | context [match _ with _ => _ end] => fail
      | _ => let E := fresh "E" in destruct x eqn:E
      end
  end.

Ltac run_cases :=
  repeat (break_step; cbn beta iota zeta); repeat frame_hyp.

(** ** The mode of a live session (C10) *)

Lemma ssh_scp_new_some :
  forall sess mode location sess' scp,
    ssh_scp_new sess mode location = (sess', Some scp) ->
    (mode = SSH_SCP_WRITE \/ mode = SSH_SCP_READ) /\
    scp = {| session := sess'; mode := mode; channel := None;
             location := Some (c_str location); state := SSH_SCP_NEW;
             filelen := 0; processed := 0; request_type := 0;
             request_name := None; request_mode := None |}.
Proof.
  intros sess mode location sess' scp; unfold ssh_scp_new.
  destruct (malloc sess) as [ok s1].
  destruct ok; simpl; [|intro H; inversion H].
  destruct (mode =? SSH_SCP_WRITE) eqn:EW; simpl.
  - apply Z.eqb_eq in EW. unfold strdup.
    destruct (malloc s1) as [ok2 s2]; destruct ok2; intro H; inversion H; subst.
    split; [left; reflexivity | reflexivity].
  - destruct (mode =? SSH_SCP_READ) eqn:ER; simpl; [|intro H; inversion H].
    apply Z.eqb_eq in ER. unfold strdup.
    destruct (malloc s1) as [ok2 s2]; destruct ok2; intro H; inversion H; subst.
    split; [right; reflexivity | reflexivity].
Qed.

Lemma run_op_mode :
  forall op scp, mode (snd (run_op op scp)) = mode scp.
Proof.
  intros op scp; destruct op; simpl;
    [ unfold ssh_scp_init | unfold ssh_scp_push_directory
    | unfold ssh_scp_leave_directory | unfold ssh_scp_push_file
    | unfold ssh_scp_write | unfold ssh_scp_pull_request, pull_request_body
    | unfold ssh_scp_deny_request | unfold ssh_scp_accept_request
    | unfold ssh_scp_read, ssh_scp_accept_request ];
    unfold end_of_file; cbn beta iota zeta; run_cases; reflexivity.
Qed.

Lemma reachable_mode :
  forall scp, reachable scp -> mode scp = SSH_SCP_WRITE \/ mode scp = SSH_SCP_READ.
Proof.
  induction 1 as [sess mode location sess' scp H | op scp H IH].
  - apply ssh_scp_new_some in H; destruct H as [H ->]; exact H.
  - rewrite run_op_mode; exact IH.
Qed.

Lemma malloc_live :
  forall s ok s', malloc s = (ok, s') ->
    live_blocks s' = live_blocks s + (if ok then 1 else 0).
Proof.
  intros s ok s'; unfold malloc.
  destruct (alloc_plan s) as [|[] p]; intro H; inversion H; subst; simpl; lia.
Qed.

(** C10: with a mode other than SSH_SCP_WRITE and SSH_SCP_READ,
    [ssh_scp_new] returns NULL and frees the block it had allocated (the
    session holds as many live blocks as before); hence every session a
    caller holds has one of the two modes. *)
Theorem C10_new_rejects_other_modes :
  forall sess m location,
    m <> SSH_SCP_WRITE -> m <> SSH_SCP_READ ->
    snd (ssh_scp_new sess m location) = None /\
    live_blocks (fst (ssh_scp_new sess m location)) = live_blocks sess /\
    forall scp, reachable scp ->
      mode scp = SSH_SCP_WRITE \/ mode scp = SSH_SCP_READ.
Proof.
  intros sess m location HW HR.
  split; [|split; [|exact reachable_mode]].
  - unfold ssh_scp_new. destruct (malloc sess) as [[] s1]; simpl; [|reflexivity].
    apply Z.eqb_neq in HW, HR; rewrite HW, HR; reflexivity.
  - unfold ssh_scp_new. destruct (malloc sess) as [ok s1] eqn:E.
    apply malloc_live in E. destruct ok; simpl.
    + apply Z.eqb_neq in HW, HR; rewrite HW, HR; simpl. lia.
    + lia.
Qed.

Lemma C10_new_rejects_other_modes_witness :
  snd (ssh_scp_new (mk_session [] []) 7 (str "/tmp/dst")) = None /\
  live_blocks (fst (ssh_scp_new (mk_session [] []) 7 (str "/tmp/dst")))
  = live_blocks (mk_session [] []) /\
  forall scp, reachable scp ->
    mode scp = SSH_SCP_WRITE \/ mode scp = SSH_SCP_READ.
Proof.
  apply (C10_new_rejects_other_modes (mk_session [] []) 7 (str "/tmp/dst"));
    unfold SSH_SCP_WRITE, SSH_SCP_READ; lia.
Defined.

(** ** The counters between transfers (C4) *)

Ltac proj_simpl :=
  cbn [session mode channel location state filelen processed request_type
       request_name request_mode set_session set_channel set_location
       set_state set_filelen set_processed set_request zero_struct fst snd]
    in *.

Ltac state_facts :=
  repeat match goal with
  | H : negb (state_eqb _ _) = false |- _ =>
      apply negb_false_iff, state_eqb_eq in H
  | H : negb (state_eqb _ _) = true |- _ =>
      apply negb_true_iff, state_eqb_neq in H
  | H : state_eqb _ _ = true |- _ => apply state_eqb_eq in H
  | H : state_eqb _ _ = false |- _ => apply state_eqb_neq in H
  | H : _ && _ = true |- _ => apply andb_true_iff in H; destruct H
  end.

Ltac unfold_op :=
  unfold ssh_scp_init, ssh_scp_push_directory, ssh_scp_leave_directory,
    ssh_scp_push_file, ssh_scp_write, ssh_scp_pull_request,
    pull_request_body, ssh_scp_deny_request, ssh_scp_read,
    ssh_scp_accept_request, end_of_file;
  cbn beta iota zeta.














(** ** The channel of a live session *)

Lemma channel_inv_step :
  forall op scp, channel_inv scp -> channel_inv (snd (run_op op scp)).
Proof.
  intros op scp H; unfold channel_inv in *.
  destruct op; simpl; unfold_op; run_cases; state_facts; proj_simpl;
    try (left; reflexivity); try (right; left; reflexivity);
    try exact H;
    try (right; right; discriminate);
    try (right; right; match goal with K : _ -> ?c <> None |- _ =>
                         apply K; discriminate end);
    try (match goal with K : _ -> ?c <> None |- ?c <> None =>
           apply K; discriminate end);
    try (destruct H as [H | [H | H]]; [congruence | congruence |];
         right; right; auto).
Qed.

Lemma reachable_channel : forall scp, reachable scp -> channel_inv scp.
Proof.
  induction 1 as [sess m location sess' scp H | op scp H IH].
  - apply ssh_scp_new_some in H; destruct H as [_ ->]; left; reflexivity.
  - apply channel_inv_step; exact IH.
Qed.

(** ** Failures and the Error state (C1) *)

Lemma failure_enters_error :
  forall op scp,
    precondition op scp = true -> sets_error_on_failure op scp = true ->
    fst (run_op op scp) = SSH_ERROR ->
    state (snd (run_op op scp)) = SSH_SCP_ERROR.
Proof.
  intros op scp P Q; destruct op; simpl in P, Q; try discriminate Q;
    state_facts; simpl; unfold_op; try rewrite P; try rewrite Q;
    cbn [state_eqb negb andb orb];
    run_cases; state_facts; proj_simpl; intro F;
    try reflexivity; try discriminate F; try contradiction;
    try (exfalso; match goal with
                  | H : negb (is_error ?r) = true |- _ =>
                      apply negb_true_iff, is_error_false in H; contradiction
                  end).
Qed.

Lemma pull_request_failure_state :
  forall scp,
    fst (ssh_scp_pull_request scp) = SSH_ERROR ->
    state (snd (ssh_scp_pull_request scp)) = state scp.
Proof.
  intro scp; unfold_op; run_cases; state_facts; proj_simpl; intro F;
    try reflexivity; discriminate F.
Qed.

Lemma deny_request_failure_state :
  forall scp reason,
    fst (ssh_scp_deny_request scp reason) = SSH_ERROR ->
    state (snd (ssh_scp_deny_request scp reason)) = state scp.
Proof.
  intros scp reason; unfold_op; run_cases; state_facts; proj_simpl; intro F;
    try reflexivity; discriminate F.
Qed.

Lemma accept_request_failure_state :
  forall scp,
    fst (ssh_scp_accept_request scp) = SSH_ERROR ->
    state (snd (ssh_scp_accept_request scp)) = state scp.
Proof.
  intro scp; unfold_op; run_cases; state_facts; proj_simpl; intro F;
    try reflexivity; discriminate F.
Qed.

(** C1 is not what scp.c does for the three pull-side handshake
    operations: when pull next request, deny or accept is invoked in its
    precondition state and fails, the state field is the precondition
    state it had, not Error. *)
Theorem C1_pull_side_failure_keeps_state :
  forall op scp,
    pull_handshake op = true ->
    precondition op scp = true ->
    fst (run_op op scp) = SSH_ERROR ->
    state (snd (run_op op scp)) = state scp /\
    state (snd (run_op op scp)) <> SSH_SCP_ERROR.
Proof.
  intros op scp Q P F.
  assert (S : state (snd (run_op op scp)) = state scp).
  { destruct op; simpl in Q; try discriminate Q; simpl in *.
    - apply pull_request_failure_state; exact F.
    - apply deny_request_failure_state; exact F.
    - apply accept_request_failure_state; exact F. }
  split; [exact S|].
  rewrite S; intro E.
  rewrite (precondition_error_state op scp E) in P; discriminate P.
Qed.

Lemma C1_pull_side_failure_keeps_state_witness :
  state (snd (run_op (OpDenyRequest (str "no")) requested_write_fails))
  = state requested_write_fails /\
  state (snd (run_op (OpDenyRequest (str "no")) requested_write_fails))
  <> SSH_SCP_ERROR.
Proof.
  apply (C1_pull_side_failure_keeps_state
           (OpDenyRequest (str "no")) requested_write_fails);
    vm_compute; reflexivity.
Defined.

(** The scenario "malformed control line" on scp.c: the call fails, the
    session stays in ReadInited, and the next pull request reads the
    following line from the channel and succeeds. *)
Lemma malformed_line_scenario :
  state garbage_then_header = SSH_SCP_READ_INITED /\
  fst (run_ops [OpPullRequest; OpPullRequest] garbage_then_header)
  = [SSH_ERROR; SSH_SCP_REQUEST_NEWFILE] /\
  state (snd (run_ops [OpPullRequest] garbage_then_header))
  = SSH_SCP_READ_INITED /\
  state (snd (run_ops [OpPullRequest; OpPullRequest] garbage_then_header))
  = SSH_SCP_READ_REQUESTED.
Proof. vm_compute; repeat split; reflexivity. Qed.

(** The status byte is used without looking at what its read returned:
    when that read fails, the outcome of initialize follows whatever the
    uninitialised local held. *)
Lemma status_read_result_unchecked :
  (fst (ssh_scp_init NUL status_read_fails) = SSH_OK /\
   state (snd (ssh_scp_init NUL status_read_fails)) = SSH_SCP_WRITE_INITED) /\
  (fst (ssh_scp_init "001"%char status_read_fails) = SSH_ERROR /\
   state (snd (ssh_scp_init "001"%char status_read_fails)) = SSH_SCP_ERROR).
Proof. vm_compute; repeat split; reflexivity. Qed.

(** ** The calls an operation makes on the channel *)

Lemma channel_write_log :
  forall ch b l w ch',
    channel_write ch b l = (w, ch') ->
    io_log ch' = io_log ch ++ [EvWrite l (take_z l b) w] /\
    (w = SSH_ERROR \/ 0 <= w /\ w <= Z.max 0 l).
Proof.
  intros ch b l w ch'; unfold channel_write.
  destruct (wr_plan ch) as [|[|n] p]; intro H; inversion H; subst; simpl;
    (split; [reflexivity|]); [right | left | right]; try reflexivity; lia.
Qed.

Lemma take_z_length :
  forall (A : Type) (l : list A) n,
    Z.of_nat (length (take_z n l)) <= Z.max 0 n.
Proof.
  induction l as [|x t IH]; intro n; simpl; [lia|].
  destruct (n <=? 0) eqn:E; simpl; [lia|].
  apply Z.leb_gt in E. specialize (IH (n - 1)). lia.
Qed.

Lemma channel_read_log :
  forall ch n r got ch',
    channel_read ch n = (r, got, ch') ->
    io_log ch' = io_log ch ++ [EvRead n r] /\
    (r = SSH_ERROR /\ got = [] \/
     r = Z.of_nat (length got) /\ r <= Z.max 0 n).
Proof.
  intros ch n r got ch'; unfold channel_read.
  destruct (rd_plan ch) as [|[|bs] p]; intro H; inversion H; subst; simpl;
    (split; [reflexivity|]).
  - right; split; [reflexivity | lia].
  - left; split; reflexivity.
  - right; split; [reflexivity | apply take_z_length].
Qed.

(** One write chunk in WriteWriting, call by call. *)
Lemma ssh_scp_write_steps :
  forall scp ch buffer len,
    state scp = SSH_SCP_WRITE_WRITING -> channel scp = Some ch ->
    exists w ch',
      channel_write (channel_poll ch) buffer (write_len scp len) = (w, ch') /\
      io_log ch' = io_log ch ++
        [EvPoll;
         EvWrite (write_len scp len) (take_z (write_len scp len) buffer) w] /\
      ssh_scp_write scp buffer len =
        if is_error w
        then (SSH_ERROR, set_state SSH_SCP_ERROR (set_channel (Some ch') scp))
        else (SSH_OK,
              end_of_file SSH_SCP_WRITE_INITED
                (set_processed (wrap (processed scp + w))
                   (set_channel (Some ch') scp))).
Proof.
  intros scp ch buffer len S C.
  destruct (channel_write (channel_poll ch) buffer (write_len scp len))
    as [w ch'] eqn:E.
  exists w, ch'; split; [reflexivity|].
  pose proof (channel_write_log _ _ _ _ _ E) as [L _].
  split.
  - rewrite L; unfold channel_poll, log_event; simpl.
    rewrite <- app_assoc; reflexivity.
  - unfold ssh_scp_write; cbv zeta; rewrite S; cbn [state_eqb negb].
    unfold scp_channel_poll; rewrite C.
    unfold scp_channel_write; cbn [channel set_channel processed filelen].
    fold (write_len scp len); rewrite E.
    destruct (is_error w); reflexivity.
Qed.

(** One read chunk in ReadReading, call by call. *)
Lemma ssh_scp_read_steps :
  forall scp ch size,
    state scp = SSH_SCP_READ_READING -> channel scp = Some ch ->
    exists r got ch',
      channel_read ch (read_len scp size) = (r, got, ch') /\
      io_log ch' = io_log ch ++ [EvRead (read_len scp size) r] /\
      ssh_scp_read scp size =
        if is_error r
        then (SSH_ERROR, [], set_state SSH_SCP_ERROR (set_channel (Some ch') scp))
        else (r, got,
              end_of_file SSH_SCP_READ_INITED
                (set_processed (wrap (processed scp + r))
                   (set_channel (Some ch') scp))).
Proof.
  intros scp ch size S C.
  destruct (channel_read ch (read_len scp size)) as [[r got] ch'] eqn:E.
  exists r, got, ch'; split; [reflexivity|].
  pose proof (channel_read_log _ _ _ _ _ E) as [L _].
  split; [exact L|].
  unfold ssh_scp_read; cbv zeta; rewrite S; cbn [state_eqb negb andb].
  change (is_error SSH_OK) with false; cbv iota.
  rewrite S; cbn [state_eqb negb].
  unfold scp_channel_read; rewrite C.
  unfold read_len in E; cbv zeta in E; rewrite E.
  cbn [processed set_channel].
  destruct (is_error r); reflexivity.
Qed.

(** ** Chunk clamping (C3) *)

Lemma write_len_no_wrap :
  forall scp len,
    0 <= len -> 0 <= processed scp <= filelen scp ->
    processed scp + len < SIZE_MODULUS ->
    write_len scp len = Z.min len (filelen scp - processed scp).
Proof.
  intros scp len L P W; unfold write_len.
  assert (M : SIZE_MODULUS = 2 ^ 64) by reflexivity.
  rewrite (wrap_small len) by lia.
  rewrite (wrap_small (processed scp + len)) by lia.
  destruct (processed scp + len >? filelen scp) eqn:E.
  - apply Z.gtb_lt in E. rewrite wrap_small by lia. lia.
  - rewrite Z.gtb_ltb in E; apply Z.ltb_ge in E. lia.
Qed.

Lemma read_len_no_wrap :
  forall scp size,
    0 <= size -> 0 <= processed scp <= filelen scp ->
    processed scp + size < SIZE_MODULUS ->
    read_len scp size
    = Z.min (Z.min size (filelen scp - processed scp)) 65536.
Proof.
  intros scp size L P W; unfold read_len; cbv zeta.
  fold (write_len scp size); rewrite write_len_no_wrap by assumption.
  destruct (Z.min size (filelen scp - processed scp) >? 65536) eqn:E.
  - apply Z.gtb_lt in E. lia.
  - rewrite Z.gtb_ltb in E; apply Z.ltb_ge in E. lia.
Qed.

Lemma end_of_file_channel :
  forall st scp, channel (end_of_file st scp) = channel scp.
Proof.
  intros st scp; unfold end_of_file; destruct (_ =? _); reflexivity.
Qed.

(** While the size arithmetic does not wrap, a write chunk hands the
    channel min(len, S - processed) bytes, after a poll and with no
    other message. *)
Lemma write_chunk_clamped :
  forall scp ch buffer len,
    state scp = SSH_SCP_WRITE_WRITING -> channel scp = Some ch ->
    0 <= len -> 0 <= processed scp <= filelen scp ->
    processed scp + len < SIZE_MODULUS ->
    exists w,
      scp_log (snd (ssh_scp_write scp buffer len)) =
      io_log ch ++
        [EvPoll;
         EvWrite (Z.min len (filelen scp - processed scp))
           (take_z (Z.min len (filelen scp - processed scp)) buffer) w].
Proof.
  intros scp ch buffer len S C L P W.
  destruct (ssh_scp_write_steps scp ch buffer len S C) as (w & ch' & _ & G & R).
  exists w. rewrite R. rewrite write_len_no_wrap in G by assumption.
  unfold scp_log.
  destruct (is_error w); cbn [snd]; try rewrite end_of_file_channel;
    cbn [channel set_state set_processed set_channel]; exact G.
Qed.

(** While the size arithmetic does not wrap, a read chunk asks the
    channel for min(size, S - processed, 65536) bytes and for nothing
    else. *)
Lemma read_chunk_clamped :
  forall scp ch size,
    state scp = SSH_SCP_READ_READING -> channel scp = Some ch ->
    0 <= size -> 0 <= processed scp <= filelen scp ->
    processed scp + size < SIZE_MODULUS ->
    exists r,
      scp_log (snd (ssh_scp_read scp size)) =
      io_log ch ++
        [EvRead (Z.min (Z.min size (filelen scp - processed scp)) 65536) r].
Proof.
  intros scp ch size S C L P W.
  destruct (ssh_scp_read_steps scp ch size S C) as (r & got & ch' & _ & G & R).
  exists r. rewrite R. rewrite read_len_no_wrap in G by assumption.
  unfold scp_log.
  destruct (is_error r); cbn [snd]; try rewrite end_of_file_channel;
    cbn [channel set_state set_processed set_channel]; exact G.
Qed.

(** A successful chunk that brings processed to the declared size
    resets the counters and returns to the Inited state of the mode. *)
Lemma end_of_file_resets :
  forall st scp,
    processed scp = filelen scp ->
    state (end_of_file st scp) = st /\
    filelen (end_of_file st scp) = 0 /\
    processed (end_of_file st scp) = 0.
Proof.
  intros st scp H; unfold end_of_file.
  rewrite H, Z.eqb_refl; simpl; auto.
Qed.

Lemma write_len_wraps :
  forall scp len,
    0 <= processed scp <= filelen scp -> filelen scp < SIZE_MODULUS ->
    0 <= len < SIZE_MODULUS -> SIZE_MODULUS <= processed scp + len ->
    write_len scp len = len /\ filelen scp - processed scp < len.
Proof.
  intros scp len P F L W; unfold write_len.
  assert (M : SIZE_MODULUS = 2 ^ 64) by reflexivity.
  rewrite (wrap_small len) by lia.
  assert (X : wrap (processed scp + len) = processed scp + len - SIZE_MODULUS).
  { unfold wrap. symmetry.
    apply (Z.mod_unique_pos _ _ 1); lia. }
  rewrite X.
  destruct (processed scp + len - SIZE_MODULUS >? filelen scp) eqn:E.
  - apply Z.gtb_lt in E. lia.
  - split; [reflexivity | lia].
Qed.

(** C3 fails on scp.c when processed + len exceeds the 64-bit size
    type: the sum wraps below the declared size, the test against it
    fails and the length is not clamped.  A write chunk then hands the
    channel the whole len, more than the S - processed bytes that
    remain; a read chunk asks for min(size, 65536) bytes, more than
    remain whenever fewer than 65536 do. *)
Theorem C3_clamp_wraps_around :
  forall scp ch buffer len,
    channel scp = Some ch ->
    0 <= processed scp <= filelen scp -> filelen scp < SIZE_MODULUS ->
    0 <= len < SIZE_MODULUS -> SIZE_MODULUS <= processed scp + len ->
    (state scp = SSH_SCP_WRITE_WRITING ->
     filelen scp - processed scp < len /\
     exists w,
       scp_log (snd (ssh_scp_write scp buffer len)) =
       io_log ch ++ [EvPoll; EvWrite len (take_z len buffer) w]) /\
    (state scp = SSH_SCP_READ_READING ->
     filelen scp - processed scp < 65536 ->
     filelen scp - processed scp < Z.min len 65536 /\
     exists r,
       scp_log (snd (ssh_scp_read scp len)) =
       io_log ch ++ [EvRead (Z.min len 65536) r]).
Proof.
  intros scp ch buffer len C P F L W.
  destruct (write_len_wraps scp len P F L W) as [WL R].
  split.
  - intro S; split; [exact R|].
    destruct (ssh_scp_write_steps scp ch buffer len S C)
      as (w & ch' & _ & G & Q).
    exists w. rewrite Q, WL in *. unfold scp_log.
    destruct (is_error w); cbn [snd]; try rewrite end_of_file_channel;
      cbn [channel set_state set_processed set_channel]; exact G.
  - intros S Small; split; [lia|].
    destruct (ssh_scp_read_steps scp ch len S C) as (r & got & ch' & _ & G & Q).
    exists r. rewrite Q.
    assert (RL : read_len scp len = Z.min len 65536).
    { unfold read_len; cbv zeta. fold (write_len scp len); rewrite WL.
      destruct (len >? 65536) eqn:E.
      - apply Z.gtb_lt in E; lia.
      - rewrite Z.gtb_ltb in E; apply Z.ltb_ge in E; lia. }
    rewrite RL in G. unfold scp_log.
    destruct (is_error r); cbn [snd]; try rewrite end_of_file_channel;
      cbn [channel set_state set_processed set_channel]; exact G.
Qed.

Lemma C3_clamp_wraps_around_witness :
  (state half_written = SSH_SCP_WRITE_WRITING ->
   filelen half_written - processed half_written < SIZE_MODULUS - 1 /\
   exists w,
     scp_log (snd (ssh_scp_write half_written (str "world!") (SIZE_MODULUS - 1)))
     = io_log (channel_of half_written)
       ++ [EvPoll;
           EvWrite (SIZE_MODULUS - 1)
             (take_z (SIZE_MODULUS - 1) (str "world!")) w]) /\
  (state half_written = SSH_SCP_READ_READING ->
   filelen half_written - processed half_written < 65536 ->
   filelen half_written - processed half_written
   < Z.min (SIZE_MODULUS - 1) 65536 /\
   exists r,
     scp_log (snd (ssh_scp_read half_written (SIZE_MODULUS - 1)))
     = io_log (channel_of half_written)
       ++ [EvRead (Z.min (SIZE_MODULUS - 1) 65536) r]).
Proof.
  apply (C3_clamp_wraps_around half_written (channel_of half_written)
           (str "world!") (SIZE_MODULUS - 1)).
  - vm_compute; reflexivity.
  - vm_compute; split; discriminate.
  - vm_compute; reflexivity.
  - vm_compute; split; [discriminate | reflexivity].
  - vm_compute; discriminate.
Defined.

(** The wrap-around on the two concrete transfers.  With 10 bytes
    declared and 5 written, a write chunk called with len = 2^64-1 hands
    the whole len to the channel, which takes 6 bytes where 5 remained;
    processed is then 11 and the transfer does not end.  With 5 of 10
    bytes read, a read chunk of size 2^64-1 asks for 65536 bytes and is
    served 15, the rest of the file and the next header. *)
Lemma clamp_wraps_on_transfers :
  (state half_written = SSH_SCP_WRITE_WRITING /\
   filelen half_written = 10 /\ processed half_written = 5) /\
  write_len half_written (SIZE_MODULUS - 1) = SIZE_MODULUS - 1 /\
  scp_log (snd (ssh_scp_write half_written (str "world!") (SIZE_MODULUS - 1)))
  = scp_log half_written ++
      [EvPoll; EvWrite (SIZE_MODULUS - 1) (str "world!") 6] /\
  processed (snd (ssh_scp_write half_written (str "world!") (SIZE_MODULUS - 1)))
  = 11 /\
  (state half_read = SSH_SCP_READ_READING /\
   filelen half_read = 10 /\ processed half_read = 5) /\
  read_len half_read (SIZE_MODULUS - 1) = 65536 /\
  ssh_scp_read half_read (SIZE_MODULUS - 1)
  = (15, str "world" ++ line "C0644 3 y",
     snd (ssh_scp_read half_read (SIZE_MODULUS - 1))) /\
  processed (snd (ssh_scp_read half_read (SIZE_MODULUS - 1))) = 20.
Proof. vm_compute; repeat split; reflexivity. Qed.

(** ** The value a write chunk returns (C9) *)

(** C9, as the code has it: a successful write chunk returns SSH_OK,
    whatever the number of bytes the channel took.  That number [w], at
    most the length handed over, is added to the processed counter and
    the declared size is kept; or, when it brings processed to the
    declared size, both counters are reset to 0 and the state is
    WriteInited. *)
Theorem C9_write_returns_ok :
  forall scp ch buffer len,
    state scp = SSH_SCP_WRITE_WRITING -> channel scp = Some ch ->
    fst (ssh_scp_write scp buffer len) <> SSH_ERROR ->
    fst (ssh_scp_write scp buffer len) = SSH_OK /\
    exists w,
      0 <= w <= Z.max 0 (write_len scp len) /\
      scp_log (snd (ssh_scp_write scp buffer len)) =
        io_log ch ++
          [EvPoll;
           EvWrite (write_len scp len) (take_z (write_len scp len) buffer) w] /\
      (state (snd (ssh_scp_write scp buffer len)) = SSH_SCP_WRITE_WRITING /\
       processed (snd (ssh_scp_write scp buffer len))
       = wrap (processed scp + w) /\
       wrap (processed scp + w) <> filelen scp /\
       filelen (snd (ssh_scp_write scp buffer len)) = filelen scp
       \/
       state (snd (ssh_scp_write scp buffer len)) = SSH_SCP_WRITE_INITED /\
       wrap (processed scp + w) = filelen scp /\
       processed (snd (ssh_scp_write scp buffer len)) = 0 /\
       filelen (snd (ssh_scp_write scp buffer len)) = 0).
Proof.
  intros scp ch buffer len S C.
  destruct (ssh_scp_write_steps scp ch buffer len S C) as (w & ch' & E & G & R).
  rewrite R; clear R.
  destruct (channel_write_log _ _ _ _ _ E) as [_ B].
  destruct (is_error w) eqn:W; cbn [fst snd]; intro F;
    [exfalso; apply F; reflexivity|].
  apply is_error_false in W.
  split; [reflexivity|].
  exists w. destruct B as [B | B]; [contradiction|].
  split; [exact B|]. split.
  - unfold scp_log; rewrite end_of_file_channel; exact G.
  - unfold end_of_file; cbn [processed filelen set_processed set_channel].
    destruct (wrap (processed scp + w) =? filelen scp) eqn:Q.
    + right; apply Z.eqb_eq in Q; simpl; auto.
    + left; apply Z.eqb_neq in Q; simpl; auto.
Qed.

Lemma C9_write_returns_ok_witness :
  fst (ssh_scp_write file_of_5 (str "hel") 3) = SSH_OK /\
  exists w,
    0 <= w <= Z.max 0 (write_len file_of_5 3) /\
    scp_log (snd (ssh_scp_write file_of_5 (str "hel") 3)) =
      io_log (channel_of file_of_5) ++
        [EvPoll;
         EvWrite (write_len file_of_5 3)
           (take_z (write_len file_of_5 3) (str "hel")) w] /\
    (state (snd (ssh_scp_write file_of_5 (str "hel") 3))
     = SSH_SCP_WRITE_WRITING /\
     processed (snd (ssh_scp_write file_of_5 (str "hel") 3))
     = wrap (processed file_of_5 + w) /\
     wrap (processed file_of_5 + w) <> filelen file_of_5 /\
     filelen (snd (ssh_scp_write file_of_5 (str "hel") 3))
     = filelen file_of_5
     \/
     state (snd (ssh_scp_write file_of_5 (str "hel") 3))
     = SSH_SCP_WRITE_INITED /\
     wrap (processed file_of_5 + w) = filelen file_of_5 /\
     processed (snd (ssh_scp_write file_of_5 (str "hel") 3)) = 0 /\
     filelen (snd (ssh_scp_write file_of_5 (str "hel") 3)) = 0).
Proof.
  apply (C9_write_returns_ok file_of_5 (channel_of file_of_5) (str "hel") 3).
  - vm_compute; reflexivity.
  - vm_compute; reflexivity.
  - vm_compute; discriminate.
Defined.

(** C9 fails as stated: with 5 bytes declared, writing the 3 bytes
    "hel" succeeds, the channel takes all 3 of them, and the call
    returns 0. *)
Lemma C9_write_returns_zero_for_three_bytes :
  state file_of_5 = SSH_SCP_WRITE_WRITING /\
  fst (ssh_scp_write file_of_5 (str "hel") 3) = 0 /\
  scp_log (snd (ssh_scp_write file_of_5 (str "hel") 3))
  = scp_log file_of_5 ++ [EvPoll; EvWrite 3 (str "hel") 3] /\
  processed (snd (ssh_scp_write file_of_5 (str "hel") 3)) = 3.
Proof. vm_compute; repeat split; reflexivity. Qed.

(** ** Read chunk on a pending request (C6) *)

(** C6: read chunk in ReadRequested with a pending file request first
    makes the accept step, one write of the single byte 0x00; if that
    write fails the call fails.  Otherwise the state is ReadReading and
    the call goes on as the read chunk of that state: it asks the
    channel, once, for the clamped count; a failed read gives SSH_ERROR
    and the Error state; a successful one returns the number of bytes
    read with the bytes, adds it to processed, and leaves the state at
    ReadReading, or at ReadInited with the counters reset when the file
    is complete.  With a pending directory request nothing is written,
    the call fails on the state check and the object is unchanged. *)
Theorem C6_read_accepts_pending_file :
  forall scp ch size,
    state scp = SSH_SCP_READ_REQUESTED -> channel scp = Some ch ->
    (request_type scp = SSH_SCP_REQUEST_NEWFILE ->
     exists err ch',
       channel_write ch [NUL] 1 = (err, ch') /\
       io_log ch' = io_log ch ++ [EvWrite 1 [NUL] err] /\
       ssh_scp_read scp size =
         (if is_error err
          then (SSH_ERROR, [], set_channel (Some ch') scp)
          else ssh_scp_read
                 (set_state SSH_SCP_READ_READING
                    (set_channel (Some ch') scp)) size) /\
       (is_error err = false ->
        exists r got ch2,
          channel_read ch' (read_len scp size) = (r, got, ch2) /\
          io_log ch2 =
            io_log ch
            ++ [EvWrite 1 [NUL] err; EvRead (read_len scp size) r] /\
          ssh_scp_read scp size =
            (if is_error r
             then (SSH_ERROR, [],
                   set_state SSH_SCP_ERROR (set_channel (Some ch2) scp))
             else (r, got,
                   end_of_file SSH_SCP_READ_INITED
                     (set_processed (wrap (processed scp + r))
                        (set_state SSH_SCP_READ_READING
                           (set_channel (Some ch2) scp))))))) /\
    (request_type scp = SSH_SCP_REQUEST_NEWDIR ->
     ssh_scp_read scp size = (SSH_ERROR, [], scp)).
Proof.
  intros scp ch size S C; split; intro T.
  - destruct (channel_write ch [NUL] 1) as [err ch'] eqn:E.
    exists err, ch'; split; [reflexivity|].
    destruct (channel_write_log _ _ _ _ _ E) as [L _].
    split; [exact L|].
    assert (A : ssh_scp_read scp size =
                if is_error err
                then (SSH_ERROR, [], set_channel (Some ch') scp)
                else ssh_scp_read
                       (set_state SSH_SCP_READ_READING
                          (set_channel (Some ch') scp)) size).
    { unfold ssh_scp_read at 1, ssh_scp_accept_request; cbv zeta.
      rewrite S, T; cbn [state_eqb negb andb].
      change (SSH_SCP_REQUEST_NEWFILE =? SSH_SCP_REQUEST_NEWFILE) with true.
      cbv iota. unfold scp_channel_write; rewrite C, E.
      destruct (is_error err) eqn:W.
      + change (is_error SSH_ERROR) with true; reflexivity.
      + cbn [request_type set_channel]; rewrite T.
        change (SSH_SCP_REQUEST_NEWFILE =? SSH_SCP_REQUEST_NEWFILE) with true.
        cbv iota. change (is_error SSH_OK) with false; cbv iota.
        unfold ssh_scp_read; cbv zeta.
        cbn [state set_state set_channel state_eqb negb andb].
        change (is_error SSH_OK) with false; reflexivity. }
    split; [exact A|].
    intro W; rewrite W in A.
    destruct (ssh_scp_read_steps
                (set_state SSH_SCP_READ_READING (set_channel (Some ch') scp))
                ch' size eq_refl eq_refl) as (r & got & ch2 & R & G & Q).
    exists r, got, ch2.
    split; [exact R|].
    split; [rewrite G, L, <- app_assoc; reflexivity|].
    rewrite A, Q. destruct (is_error r); reflexivity.
  - unfold ssh_scp_read; cbv zeta. rewrite S, T; cbn [state_eqb negb andb].
    change (SSH_SCP_REQUEST_NEWDIR =? SSH_SCP_REQUEST_NEWFILE) with false.
    cbv iota. change (is_error SSH_OK) with false; cbv iota.
    rewrite S; reflexivity.
Qed.

Lemma C6_read_accepts_pending_file_witness :
  (request_type requested_file = SSH_SCP_REQUEST_NEWFILE ->
   exists err ch',
     channel_write (channel_of requested_file) [NUL] 1 = (err, ch') /\
     io_log ch' = io_log (channel_of requested_file) ++ [EvWrite 1 [NUL] err] /\
     ssh_scp_read requested_file 5 =
       (if is_error err
        then (SSH_ERROR, [], set_channel (Some ch') requested_file)
        else ssh_scp_read
               (set_state SSH_SCP_READ_READING
                  (set_channel (Some ch') requested_file)) 5) /\
     (is_error err = false ->
      exists r got ch2,
        channel_read ch' (read_len requested_file 5) = (r, got, ch2) /\
        io_log ch2 =
          io_log (channel_of requested_file)
          ++ [EvWrite 1 [NUL] err; EvRead (read_len requested_file 5) r] /\
        ssh_scp_read requested_file 5 =
          (if is_error r
           then (SSH_ERROR, [],
                 set_state SSH_SCP_ERROR
                   (set_channel (Some ch2) requested_file))
           else (r, got,
                 end_of_file SSH_SCP_READ_INITED
                   (set_processed (wrap (processed requested_file + r))
                      (set_state SSH_SCP_READ_READING
                         (set_channel (Some ch2) requested_file))))))) /\
  (request_type requested_file = SSH_SCP_REQUEST_NEWDIR ->
   ssh_scp_read requested_file 5 = (SSH_ERROR, [], requested_file)).
Proof.
  apply (C6_read_accepts_pending_file
           requested_file (channel_of requested_file) 5).
  - vm_compute; reflexivity.
  - vm_compute; reflexivity.
Defined.

(** The auto-accept on the concrete session: 0x00 is written, then five
    bytes are read. *)
Lemma read_auto_accept_example :
  request_type requested_file = SSH_SCP_REQUEST_NEWFILE /\
  fst (ssh_scp_read requested_file 5) = (5, str "hello") /\
  scp_log (snd (ssh_scp_read requested_file 5))
  = scp_log requested_file ++ [EvWrite 1 [NUL] 1; EvRead 5 5] /\
  state (snd (ssh_scp_read requested_file 5)) = SSH_SCP_READ_READING.
Proof. vm_compute; repeat split; reflexivity. Qed.

(** ** Reading one control line (C2) *)

Lemma channel_read_one :
  forall ch,
    exists ch',
      channel_read ch 1 =
        match arrivals (rd_plan ch) with
        | AByte c :: _ => (1, [c], ch')
        | AErr :: _ => (SSH_ERROR, [], ch')
        | _ => (0, [], ch')
        end /\
      arrivals (rd_plan ch') = tl (arrivals (rd_plan ch)).
Proof.
  intro ch; unfold channel_read.
  destruct (rd_plan ch) as [|[|[|c bs]] p] eqn:E.
  - eexists; split; [reflexivity|]. simpl; rewrite E; reflexivity.
  - eexists; split; reflexivity.
  - eexists; split; reflexivity.
  - eexists; split.
    + simpl. destruct bs; reflexivity.
    + simpl. destruct bs; reflexivity.
Qed.

Lemma buf_set_length : forall i v b, length (buf_set i v b) = length b.
Proof.
  induction i as [|i IH]; intros v [|c b]; simpl; auto.
Qed.

Lemma buf_set_nth :
  forall i v b, (i < length b)%nat -> nth i (buf_set i v b) NUL = v.
Proof.
  induction i as [|i IH]; intros v [|c b] H; simpl in *; try lia; auto.
  apply IH; lia.
Qed.

Lemma buf_set_app :
  forall pre v x rest,
    buf_set (length pre) v (pre ++ x :: rest) = pre ++ v :: rest.
Proof.
  induction pre as [|c pre IH]; intros v x rest; simpl; [reflexivity|].
  rewrite IH; reflexivity.
Qed.

Lemma buf_store_app :
  forall l pre rest,
    (length l <= length rest)%nat ->
    buf_store (length pre) l (pre ++ rest) = pre ++ l ++ skipn (length l) rest.
Proof.
  induction l as [|c l IH]; intros pre rest H; simpl.
  - reflexivity.
  - destruct rest as [|x rest]; simpl in H; [lia|].
    rewrite buf_set_app.
    replace (pre ++ c :: rest) with ((pre ++ [c]) ++ rest)
      by (rewrite <- app_assoc; reflexivity).
    replace (S (length pre)) with (length (pre ++ [c]))
      by (rewrite length_app; simpl; lia).
    rewrite IH by lia. rewrite <- app_assoc; reflexivity.
Qed.

Lemma terminated_line :
  forall l buffer,
    (length l < length buffer)%nat ->
    buf_set (length l) NUL (buf_store 0 l buffer)
    = l ++ NUL :: skipn (S (length l)) buffer.
Proof.
  intros l buffer H.
  pose proof (buf_store_app l [] buffer) as A; simpl in A.
  rewrite A by lia; clear A.
  destruct (skipn (length l) buffer) as [|x rest] eqn:E.
  - apply (f_equal (@length ascii)) in E; rewrite length_skipn in E.
    simpl in E; lia.
  - rewrite buf_set_app.
    replace (skipn (S (length l)) buffer) with rest; [reflexivity|].
    replace (S (length l)) with (1 + length l)%nat by lia.
    rewrite <- skipn_skipn, E; reflexivity.
Qed.

Lemma recv_line_length :
  forall n a, (length (fst (recv_line n a)) <= n)%nat.
Proof.
  induction n as [|n IH]; intro a; simpl; [lia|].
  destruct a as [|[c| |] a]; simpl; try lia.
  destruct (Ascii.eqb c NL); simpl; [lia|].
  specialize (IH a); destruct (recv_line n a); simpl in *; lia.
Qed.

(** The reads the loop makes for a control line: one per byte, and
    one more when the stream ended or failed. *)
Lemma read_string_loop_recv :
  forall n r err scp ch buffer,
    channel scp = Some ch -> (r + n < length buffer)%nat ->
    read_string_loop n r err scp buffer =
      ((r + length (fst (recv_line n (arrivals (rd_plan ch)))))%nat,
       (if snd (recv_line n (arrivals (rd_plan ch)))
        then match n with O => err | S _ => 1 end
        else SSH_ERROR),
       set_channel
         (Some (after_reads
                  (length (fst (recv_line n (arrivals (rd_plan ch))))
                   + (if snd (recv_line n (arrivals (rd_plan ch)))
                      then 0 else 1))
                  ch)) scp,
       buf_store r (fst (recv_line n (arrivals (rd_plan ch)))) buffer).
Proof.
  induction n as [|n IH]; intros r err scp ch buffer C B.
  - simpl. rewrite Nat.add_0_r, <- C, set_channel_same; reflexivity.
  - cbn [read_string_loop]. unfold scp_channel_read; rewrite C.
    destruct (channel_read_one ch) as (ch1 & R & A).
    assert (N1 : snd (channel_read ch 1) = ch1)
      by (rewrite R; destruct (arrivals (rd_plan ch)) as [|[c| |] a];
          reflexivity).
    rewrite R; clear R. cbn [recv_line].
    destruct (arrivals (rd_plan ch)) as [|[c| |] a] eqn:E; simpl in A.
    + simpl. rewrite Nat.add_0_r, N1; reflexivity.
    + cbn [buf_store]. change (is_error 1) with false.
      change (1 =? 0) with false. cbv iota.
      rewrite buf_set_nth by lia.
      destruct (Ascii.eqb c NL) eqn:N.
      * cbn [fst snd length Nat.add after_reads].
        replace (r + 1)%nat with (S r) by lia. rewrite N1; reflexivity.
      * rewrite (IH (S r) 1 (set_channel (Some ch1) scp) ch1
                   (buf_set r c buffer) eq_refl)
          by (rewrite buf_set_length; lia).
        rewrite A.
        destruct (recv_line n a) as [l ok]; cbn [fst snd length].
        replace (S r + length l)%nat with (r + S (length l))%nat by lia.
        cbn [Nat.add after_reads]. rewrite N1.
        destruct ok; [destruct n|]; reflexivity.
    + simpl. rewrite Nat.add_0_r, N1; reflexivity.
    + simpl. rewrite Nat.add_0_r, N1; reflexivity.
Qed.

(** [ssh_scp_read_string] in terms of the control line of the stream:
    failure when the stream ended or failed first, otherwise the count
    of the last one-byte read; the line is stored with its terminator
    and the rest of the buffer is untouched. *)
Lemma ssh_scp_read_string_recv :
  forall scp ch buffer len,
    channel scp = Some ch ->
    2 <= len < SIZE_MODULUS -> len <= Z.of_nat (length buffer) ->
    ssh_scp_read_string scp buffer len =
      ((if snd (recv_line (Z.to_nat (len - 1)) (arrivals (rd_plan ch)))
        then 1 else SSH_ERROR),
       set_channel
         (Some (after_reads
                  (length (fst (recv_line (Z.to_nat (len - 1))
                                  (arrivals (rd_plan ch))))
                   + (if snd (recv_line (Z.to_nat (len - 1))
                                (arrivals (rd_plan ch)))
                      then 0 else 1))
                  ch)) scp,
       fst (recv_line (Z.to_nat (len - 1)) (arrivals (rd_plan ch)))
       ++ NUL :: skipn (S (length (fst (recv_line (Z.to_nat (len - 1))
                                          (arrivals (rd_plan ch))))))
                   buffer).
Proof.
  intros scp ch buffer len C L B.
  unfold ssh_scp_read_string; cbv zeta.
  rewrite (wrap_small len) by lia. rewrite (wrap_small (len - 1)) by lia.
  rewrite (read_string_loop_recv (Z.to_nat (len - 1)) 0 SSH_OK scp ch buffer C)
    by lia.
  pose proof (recv_line_length (Z.to_nat (len - 1)) (arrivals (rd_plan ch))) as N.
  destruct (recv_line (Z.to_nat (len - 1)) (arrivals (rd_plan ch))) as [l ok].
  cbn [fst snd] in *. rewrite Nat.add_0_l.
  rewrite terminated_line by lia.
  destruct (Z.to_nat (len - 1)) eqn:Z; [lia|]. reflexivity.
Qed.

Lemma recv_line_overlong :
  forall pre rest,
    ~ In NL pre ->
    recv_line (length pre) (map AByte pre ++ rest) = (pre, true).
Proof.
  induction pre as [|c pre IH]; intros rest H; simpl; [reflexivity|].
  destruct (Ascii.eqb c NL) eqn:E.
  - apply Ascii.eqb_eq in E; subst; exfalso; apply H; left; reflexivity.
  - rewrite IH; [reflexivity|]. intro I; apply H; right; exact I.
Qed.

Lemma recv_line_stops :
  forall pre rest n,
    ~ In NL pre -> (length pre < n)%nat -> stream_stops rest = true ->
    recv_line n (map AByte pre ++ rest) = (pre, false).
Proof.
  induction pre as [|c pre IH]; intros rest n H L S; simpl.
  - destruct n; [lia|]. simpl.
    destruct rest as [|[| |] rest]; try discriminate S; reflexivity.
  - destruct n; [simpl in L; lia|]. simpl.
    destruct (Ascii.eqb c NL) eqn:E.
    + apply Ascii.eqb_eq in E; subst; exfalso; apply H; left; reflexivity.
    + rewrite IH; [reflexivity| |simpl in L; lia|exact S].
      intro I; apply H; right; exact I.
Qed.

Lemma recv_line_complete :
  forall pre rest n,
    ~ In NL pre -> (length pre < n)%nat ->
    recv_line n (map AByte pre ++ AByte NL :: rest) = (pre ++ [NL], true).
Proof.
  induction pre as [|c pre IH]; intros rest n H L; simpl.
  - destruct n; [lia|]. reflexivity.
  - destruct n; [simpl in L; lia|]. simpl.
    destruct (Ascii.eqb c NL) eqn:E.
    + apply Ascii.eqb_eq in E; subst; exfalso; apply H; left; reflexivity.
    + rewrite IH; [reflexivity| |simpl in L; lia].
      intro I; apply H; right; exact I.
Qed.

(** C2, as the code has it: for a limit len >= 2 and a buffer of at
    least len bytes, [ssh_scp_read_string] fails when the stream ends or
    a read fails before a newline and before len-1 bytes; when len-1
    bytes arrive without a newline they are stored, null-terminated, and
    the call returns 1, the value it also returns for a complete line:
    an overlong line is truncated, not reported. *)
Theorem C2_read_string_outcomes :
  forall scp ch buffer len pre rest,
    2 <= len < SIZE_MODULUS -> len <= Z.of_nat (length buffer) ->
    channel scp = Some ch ->
    arrivals (rd_plan ch) = map AByte pre ++ rest ->
    ~ In NL pre ->
    (Z.of_nat (length pre) < len - 1 -> stream_stops rest = true ->
     fst (fst (ssh_scp_read_string scp buffer len)) = SSH_ERROR) /\
    (Z.of_nat (length pre) = len - 1 ->
     fst (fst (ssh_scp_read_string scp buffer len)) = 1 /\
     snd (ssh_scp_read_string scp buffer len)
     = pre ++ NUL :: skipn (S (length pre)) buffer) /\
    (Z.of_nat (length pre) < len - 1 ->
     forall a, rest = AByte NL :: a ->
     fst (fst (ssh_scp_read_string scp buffer len)) = 1 /\
     snd (ssh_scp_read_string scp buffer len)
     = (pre ++ [NL]) ++ NUL :: skipn (S (length (pre ++ [NL]))) buffer).
Proof.
  intros scp ch buffer len pre rest L B C A N.
  rewrite (ssh_scp_read_string_recv scp ch buffer len C L B), A.
  cbn [fst snd].
  split; [|split].
  - intros P S. rewrite (recv_line_stops pre rest) by (auto; lia).
    reflexivity.
  - intro P. replace (Z.to_nat (len - 1)) with (length pre) by lia.
    rewrite recv_line_overlong by exact N. split; reflexivity.
  - intros P a ->. rewrite recv_line_complete by (auto; lia).
    split; reflexivity.
Qed.

Lemma C2_read_string_outcomes_witness :
  (Z.of_nat (length (str "abc")) < 4 - 1 ->
   stream_stops (map AByte (str "def")) = true ->
   fst (fst (ssh_scp_read_string overlong_session (repeat NUL 4) 4))
   = SSH_ERROR) /\
  (Z.of_nat (length (str "abc")) = 4 - 1 ->
   fst (fst (ssh_scp_read_string overlong_session (repeat NUL 4) 4)) = 1 /\
   snd (ssh_scp_read_string overlong_session (repeat NUL 4) 4)
   = str "abc" ++ NUL :: skipn (S (length (str "abc"))) (repeat NUL 4)) /\
  (Z.of_nat (length (str "abc")) < 4 - 1 ->
   forall a, map AByte (str "def") = AByte NL :: a ->
   fst (fst (ssh_scp_read_string overlong_session (repeat NUL 4) 4)) = 1 /\
   snd (ssh_scp_read_string overlong_session (repeat NUL 4) 4)
   = (str "abc" ++ [NL])
     ++ NUL :: skipn (S (length (str "abc" ++ [NL]))) (repeat NUL 4)).
Proof.
  apply (C2_read_string_outcomes overlong_session (channel_of overlong_session)
           (repeat NUL 4) 4 (str "abc") (map AByte (str "def"))).
  - vm_compute; split; [discriminate | reflexivity].
  - vm_compute; discriminate.
  - vm_compute; reflexivity.
  - vm_compute; reflexivity.
  - vm_compute. intros [H | [H | [H | []]]]; discriminate H.
Defined.

(** C2 fails as stated: with len = 4 and the peer sending "abcdef", the
    three bytes "abc" are consumed without a newline and stored with
    their terminator, and the call returns 1, which is not the failure
    result. *)
Lemma C2_overlong_line_is_not_an_error :
  firstn 3 (arrivals (rd_plan (channel_of overlong_session)))
  = map AByte (str "abc") /\
  fst (fst (ssh_scp_read_string overlong_session (repeat NUL 4) 4)) = 1 /\
  snd (ssh_scp_read_string overlong_session (repeat NUL 4) 4)
  = str "abc" ++ [NUL] /\
  fst (fst (ssh_scp_read_string overlong_session (repeat NUL 4) 4))
  <> SSH_ERROR.
Proof.
  vm_compute; repeat split; try reflexivity; discriminate.
Qed.

(** ** Decoding a control line (C8) *)

Lemma strchr_app_nul :
  forall l t c,
    strchr (l ++ NUL :: t) c =
    match strchr l c with
    | Some (u, v) => Some (u, v ++ NUL :: t)
    | None => None
    end.
Proof.
  induction l as [|x l IH]; intros t c; simpl.
  - reflexivity.
  - destruct (Ascii.eqb x NUL); [reflexivity|].
    destruct (Ascii.eqb x c); [reflexivity|].
    rewrite IH. destruct (strchr l c) as [[u v]|]; reflexivity.
Qed.

Lemma strchr_split :
  forall l c u v, strchr l c = Some (u, v) -> l = u ++ c :: v.
Proof.
  induction l as [|x l IH]; intros c u v; simpl; [discriminate|].
  destruct (Ascii.eqb x NUL); [discriminate|].
  destruct (Ascii.eqb x c) eqn:E.
  - apply Ascii.eqb_eq in E; subst. intro H; inversion H; reflexivity.
  - destruct (strchr l c) as [[u' v']|] eqn:S; [|discriminate].
    intro H; inversion H; subst. rewrite (IH c u' v S) at 1; reflexivity.
Qed.

Lemma strchr_in :
  forall l c u v, strchr l c = Some (u, v) -> In c l.
Proof.
  intros l c u v H; rewrite (strchr_split _ _ _ _ H).
  apply in_or_app; right; left; reflexivity.
Qed.

Lemma strchr_tail_in :
  forall l c u v d, strchr l c = Some (u, v) -> In d v -> In d l.
Proof.
  intros l c u v d H I; rewrite (strchr_split _ _ _ _ H).
  apply in_or_app; right; right; exact I.
Qed.

Lemma strchr_count :
  forall l c u v,
    strchr l c = Some (u, v) ->
    (count_occ ascii_dec v c < count_occ ascii_dec l c)%nat.
Proof.
  intros l c u v H; rewrite (strchr_split _ _ _ _ H).
  rewrite count_occ_app, count_occ_cons_eq by reflexivity. lia.
Qed.

Lemma nth_0_terminated :
  forall l t, nth 0 (l ++ NUL :: t) NUL = hd NUL l.
Proof. intros [|x l] t; reflexivity. Qed.

(** The decoder does not depend on what its local array held on
    entry. *)
Lemma pull_request_stack_irrelevant :
  forall stack scp ch,
    channel scp = Some ch -> length stack = 4096%nat ->
    pull_request_body stack scp = ssh_scp_pull_request scp.
Proof.
  intros stack scp ch C L.
  unfold ssh_scp_pull_request, pull_request_body.
  destruct (negb (state_eqb (state scp) SSH_SCP_READ_INITED)); [reflexivity|].
  set (buf0 := repeat NUL 4096).
  pose proof (ssh_scp_read_string_recv scp ch buf0 4096 C) as R0.
  pose proof (ssh_scp_read_string_recv scp ch stack 4096 C) as R1.
  change (Z.to_nat (4096 - 1)) with 4095%nat in R0, R1.
  rewrite R0, R1; clear R0 R1;
    try (split; [lia | reflexivity]);
    try (rewrite L; reflexivity);
    try (unfold buf0; rewrite repeat_length; reflexivity).
  destruct (recv_line 4095 (arrivals (rd_plan ch))) as [l ok].
  cbn [fst snd].
  destruct (is_error (if ok then 1 else SSH_ERROR)); [reflexivity|].
  rewrite !nth_0_terminated.
  destruct (Ascii.eqb (hd NUL l) "C" || Ascii.eqb (hd NUL l) "D");
    [|reflexivity].
  rewrite !strchr_app_nul.
  destruct (strchr l SP) as [[f0 p]|]; [|reflexivity].
  destruct (strdup _ (tl f0)) as [md sess].
  rewrite !strchr_app_nul.
  destruct (strchr p SP) as [[tmp p2]|]; [|reflexivity].
  rewrite !strchr_app_nul.
  destruct (strchr p2 NL) as [[nm p3]|]; reflexivity.
Qed.

(** C8: whatever control line pull next request receives, if its first
    byte is neither 'C' nor 'D', or it has no space, or fewer than two
    spaces, or no newline, the call returns the failure result and the
    state and the pending-request fields are as they were. *)
Theorem C8_pull_request_rejects_malformed :
  forall scp ch,
    state scp = SSH_SCP_READ_INITED -> channel scp = Some ch ->
    (hd NUL (fst (recv_line 4095 (arrivals (rd_plan ch)))) <> "C"%char /\
     hd NUL (fst (recv_line 4095 (arrivals (rd_plan ch)))) <> "D"%char) \/
    ~ In SP (fst (recv_line 4095 (arrivals (rd_plan ch)))) \/
    (count_occ ascii_dec (fst (recv_line 4095 (arrivals (rd_plan ch)))) SP
     < 2)%nat \/
    ~ In NL (fst (recv_line 4095 (arrivals (rd_plan ch)))) ->
    fst (ssh_scp_pull_request scp) = SSH_ERROR /\
    same_request scp (snd (ssh_scp_pull_request scp)).
Proof.
  intros scp ch S C Bad.
  unfold ssh_scp_pull_request, pull_request_body.
  rewrite S; cbn [state_eqb negb].
  set (buf0 := repeat NUL 4096).
  pose proof (ssh_scp_read_string_recv scp ch buf0 4096 C) as R.
  change (Z.to_nat (4096 - 1)) with 4095%nat in R.
  rewrite R; clear R;
    [| split; [lia | reflexivity]
     | unfold buf0; rewrite repeat_length; reflexivity].
  destruct (recv_line 4095 (arrivals (rd_plan ch))) as [l ok].
  cbn [fst snd] in *.
  set (ch' := after_reads _ ch).
  destruct ok.
  2:{ change (is_error SSH_ERROR) with true; cbv iota.
      split; [reflexivity | repeat split]. }
  change (is_error 1) with false; cbv iota.
  rewrite nth_0_terminated.
  destruct (Ascii.eqb (hd NUL l) "C" || Ascii.eqb (hd NUL l) "D") eqn:K.
  2:{ split; [reflexivity | repeat split]. }
  rewrite strchr_app_nul.
  destruct (strchr l SP) as [[f0 p]|] eqn:E1.
  2:{ split; [reflexivity | repeat split]. }
  destruct (strdup (session (set_channel (Some ch') scp)) (tl f0))
    as [md sess].
  rewrite strchr_app_nul.
  destruct (strchr p SP) as [[tmp p2]|] eqn:E2.
  2:{ split; [reflexivity | repeat split]. }
  rewrite strchr_app_nul.
  destruct (strchr p2 NL) as [[nm p3]|] eqn:E3.
  2:{ split; [reflexivity | repeat split]. }
  exfalso.
  destruct Bad as [[B1 B2] | [B | [B | B]]].
  - apply orb_true_iff in K; destruct K as [K | K];
      apply Ascii.eqb_eq in K; contradiction.
  - apply B; eapply strchr_in; eassumption.
  - pose proof (strchr_count _ _ _ _ E1). pose proof (strchr_count _ _ _ _ E2).
    lia.
  - apply B. eapply strchr_tail_in; [exact E1|].
    eapply strchr_tail_in; [exact E2|]. eapply strchr_in; exact E3.
Qed.

Lemma C8_pull_request_rejects_malformed_witness :
  fst (ssh_scp_pull_request timestamp_session) = SSH_ERROR /\
  same_request timestamp_session (snd (ssh_scp_pull_request timestamp_session)).
Proof.
  apply (C8_pull_request_rejects_malformed
           timestamp_session (channel_of timestamp_session)).
  - vm_compute; reflexivity.
  - vm_compute; reflexivity.
  - left. vm_compute. split; discriminate.
Defined.

(** A well-formed header is decoded: the round trip of the file header
    with perms "0644", size 1234 and name "data.bin". *)
Lemma header_round_trip :
  fst (ssh_scp_pull_request header_session) = SSH_SCP_REQUEST_NEWFILE /\
  ssh_scp_request_get_permissions (snd (ssh_scp_pull_request header_session))
  = Some (str "0644") /\
  ssh_scp_request_get_size (snd (ssh_scp_pull_request header_session)) = 1234 /\
  ssh_scp_request_get_filename (snd (ssh_scp_pull_request header_session))
  = Some (str "data.bin") /\
  state (snd (ssh_scp_pull_request header_session)) = SSH_SCP_READ_REQUESTED.
Proof. vm_compute; repeat split; reflexivity. Qed.

(** ** The control lines written by the push operations (C7) *)

Lemma c_str_clean : forall l, ~ In NUL (c_str l).
Proof.
  induction l as [|c l IH]; simpl; [tauto|].
  destruct (Ascii.eqb c NUL) eqn:E; simpl; [tauto|].
  intros [H | H]; [|exact (IH H)].
  subst; rewrite Ascii.eqb_refl in E; discriminate.
Qed.

Lemma c_str_id : forall l, ~ In NUL l -> c_str l = l.
Proof.
  induction l as [|c l IH]; intro H; simpl; [reflexivity|].
  destruct (Ascii.eqb c NUL) eqn:E.
  - apply Ascii.eqb_eq in E; subst; exfalso; apply H; left; reflexivity.
  - rewrite IH; [reflexivity|]. intro I; apply H; right; exact I.
Qed.

Lemma ssh_basename_suffix :
  forall p, exists dir, p = dir ++ ssh_basename p.
Proof.
  induction p as [|c p [dir IH]]; simpl.
  - exists []; reflexivity.
  - destruct (existsb (Ascii.eqb "/") p).
    + exists (c :: dir); simpl; rewrite <- IH; reflexivity.
    + destruct (Ascii.eqb c "/"); [exists [c] | exists []]; reflexivity.
Qed.

Lemma ssh_basename_in : forall p x, In x (ssh_basename p) -> In x p.
Proof.
  intros p x H; destruct (ssh_basename_suffix p) as [dir E].
  rewrite E; apply in_or_app; right; exact H.
Qed.

Lemma ssh_basename_no_separator :
  forall p, ~ In "/"%char (ssh_basename p).
Proof.
  induction p as [|c p IH]; simpl; [tauto|].
  destruct (existsb (Ascii.eqb "/") p) eqn:E; [exact IH|].
  assert (N : ~ In "/"%char p).
  { intro I. assert (X : existsb (Ascii.eqb "/") p = true).
    { apply existsb_exists; exists "/"%char; split;
        [exact I | apply Ascii.eqb_refl]. }
    rewrite X in E; discriminate. }
  destruct (Ascii.eqb c "/") eqn:C; [exact N|].
  intros [H | H]; [|exact (N H)].
  subst; rewrite Ascii.eqb_refl in C; discriminate.
Qed.

Lemma string_of_uint_clean :
  forall u, ~ In NUL (list_ascii_of_string (NilEmpty.string_of_uint u)).
Proof.
  induction u; simpl; try tauto;
    intros [H | H]; try discriminate H; exact (IHu H).
Qed.

Lemma fmt_size_clean : forall z, ~ In NUL (fmt_size z).
Proof.
  intro z; unfold fmt_size, str, NilZero.string_of_uint.
  destruct (N.to_uint (Z.to_N z)) eqn:E;
    try (rewrite <- E; apply string_of_uint_clean).
  simpl; intros [H | []]; discriminate H.
Qed.

Lemma not_in_app :
  forall (x : ascii) a b, ~ In x a -> ~ In x b -> ~ In x (a ++ b).
Proof.
  intros x a b A B I; apply in_app_or in I; tauto.
Qed.

Lemma firstn_clean :
  forall n (l : bytes), ~ In NUL l -> ~ In NUL (firstn n l).
Proof.
  intros n l H I; apply H. rewrite <- (firstn_skipn n l).
  apply in_or_app; left; exact I.
Qed.

Lemma take_z_all :
  forall (A : Type) (l : list A), take_z (Z.of_nat (length l)) l = l.
Proof.
  induction l as [|x l IH]; [reflexivity|].
  cbn [take_z length].
  destruct (Z.of_nat (S (length l)) <=? 0) eqn:E;
    [apply Z.leb_le in E; lia|].
  replace (Z.of_nat (S (length l)) - 1) with (Z.of_nat (length l)) by lia.
  rewrite IH; reflexivity.
Qed.

Lemma writes_of_app :
  forall a b, writes_of (a ++ b) = writes_of a ++ writes_of b.
Proof.
  induction a as [|e a IH]; intro b; simpl; [reflexivity|].
  destruct e; simpl; rewrite IH; reflexivity.
Qed.

Lemma directory_line_clean :
  forall perms dirname, ~ In NUL (directory_line perms dirname).
Proof.
  intros perms dirname; unfold directory_line.
  repeat apply not_in_app; try apply c_str_clean.
  - simpl; intros [H | []]; discriminate H.
  - simpl; intros [H | [H | [H | []]]]; discriminate H.
  - intro I; apply ssh_basename_in in I; exact (c_str_clean _ I).
  - simpl; intros [H | []]; discriminate H.
Qed.

Lemma file_line_clean :
  forall perms size filename, ~ In NUL (file_line perms size filename).
Proof.
  intros perms size filename; unfold file_line.
  repeat apply not_in_app; try apply c_str_clean; try apply fmt_size_clean;
    try (simpl; intros [H | []]; discriminate H).
  intro I; apply ssh_basename_in in I; exact (c_str_clean _ I).
Qed.

(** What a push control-line operation does with a buffer that holds no
    NUL: one write of the whole buffer, then at most the read of the
    status byte. *)
Lemma push_line_written :
  forall scp ch buffer,
    channel scp = Some ch -> ~ In NUL buffer ->
    exists w scp1,
      scp_channel_write scp buffer (strlen buffer) = (w, scp1) /\
      writes_of (scp_log scp1) = writes_of (io_log ch) ++ [buffer] /\
      forall code0,
        writes_of (scp_log (snd (read_code code0 scp1)))
        = writes_of (io_log ch) ++ [buffer].
Proof.
  intros scp ch buffer C N.
  unfold scp_channel_write; rewrite C.
  destruct (channel_write ch buffer (strlen buffer)) as [w ch1] eqn:E.
  exists w, (set_channel (Some ch1) scp); split; [reflexivity|].
  destruct (channel_write_log _ _ _ _ _ E) as [L _].
  unfold strlen in L; rewrite (c_str_id _ N), take_z_all in L.
  assert (W : writes_of (io_log ch1) = writes_of (io_log ch) ++ [buffer]).
  { rewrite L, writes_of_app; reflexivity. }
  split; [exact W|].
  intro code0; unfold read_code, scp_channel_read.
  cbn [channel set_channel].
  destruct (channel_read ch1 1) as [[r got] ch2] eqn:R.
  destruct (channel_read_log _ _ _ _ _ R) as [L2 _].
  unfold scp_log; cbn [snd channel set_channel].
  rewrite L2, writes_of_app, W; simpl; rewrite app_nil_r; reflexivity.
Qed.

Lemma push_tail_written :
  forall code0 scp ch buffer (done : ssh_scp_struct -> ssh_scp_struct),
    channel scp = Some ch -> ~ In NUL buffer ->
    (forall s, scp_log (done s) = scp_log s) ->
    writes_of
      (scp_log
         (snd (let '(r, scp) := scp_channel_write scp buffer (strlen buffer) in
               if is_error r then (SSH_ERROR, set_state SSH_SCP_ERROR scp)
               else
                 let '(code, scp) := read_code code0 scp in
                 if negb (Ascii.eqb code NUL)
                 then (SSH_ERROR, set_state SSH_SCP_ERROR scp)
                 else (SSH_OK, done scp))))
    = writes_of (io_log ch) ++ [buffer].
Proof.
  intros code0 scp ch buffer done C N D.
  destruct (push_line_written scp ch buffer C N) as (w & scp1 & E & W1 & W2).
  rewrite E. destruct (is_error w); [exact W1|].
  specialize (W2 code0).
  destruct (read_code code0 scp1) as [code scp2]; cbn [snd] in W2.
  destruct (negb (Ascii.eqb code NUL)); cbn [snd]; [exact W2|].
  rewrite D; exact W2.
Qed.

Lemma channel_write_succeeds :
  forall ch b l,
    write_fails ch = false ->
    exists w ch1,
      channel_write ch b l = (w, ch1) /\ is_error w = false /\
      rd_plan ch1 = rd_plan ch.
Proof.
  intros ch b l F; unfold channel_write, write_fails in *.
  destruct (wr_plan ch) as [|[|n] p]; try discriminate F;
    eexists; eexists; (split; [reflexivity|]); (split; [|reflexivity]);
    apply Z.eqb_neq; unfold SSH_ERROR; lia.
Qed.

Lemma push_tail_status :
  forall code0 scp ch buffer (done : ssh_scp_struct -> ssh_scp_struct) c rest,
    channel scp = Some ch -> write_fails ch = false ->
    arrivals (rd_plan ch) = AByte c :: rest ->
    exists ch2,
      (let '(r, scp) := scp_channel_write scp buffer (strlen buffer) in
       if is_error r then (SSH_ERROR, set_state SSH_SCP_ERROR scp)
       else
         let '(code, scp) := read_code code0 scp in
         if negb (Ascii.eqb code NUL)
         then (SSH_ERROR, set_state SSH_SCP_ERROR scp)
         else (SSH_OK, done scp))
      = if Ascii.eqb c NUL
        then (SSH_OK, done (set_channel (Some ch2) scp))
        else (SSH_ERROR, set_state SSH_SCP_ERROR (set_channel (Some ch2) scp)).
Proof.
  intros code0 scp ch buffer done c rest C F A.
  destruct (channel_write_succeeds ch buffer (strlen buffer) F)
    as (w & ch1 & W & E & P).
  unfold scp_channel_write; rewrite C, W, E.
  unfold read_code, scp_channel_read; cbn [channel set_channel].
  destruct (channel_read_one ch1) as (ch2 & R & _).
  rewrite P, A in R. rewrite R.
  exists ch2. destruct (Ascii.eqb c NUL); reflexivity.
Qed.

Lemma ssh_basename_final_component :
  forall p,
    exists dir,
      p = dir ++ ssh_basename p /\
      (dir = [] \/ exists d, dir = d ++ ["/"%char]).
Proof.
  induction p as [|c p (dir & E & D)]; cbn [ssh_basename].
  - exists []; split; [reflexivity | left; reflexivity].
  - destruct (existsb (Ascii.eqb "/") p) eqn:X.
    + exists (c :: dir); split; [cbn [app]; rewrite <- E; reflexivity|].
      right. destruct D as [-> | (d & ->)]; [|exists (c :: d); reflexivity].
      exfalso. apply existsb_exists in X; destruct X as (x & I & Q).
      apply Ascii.eqb_eq in Q; subst x.
      cbn [app] in E; rewrite E in I.
      exact (ssh_basename_no_separator p I).
    + destruct (Ascii.eqb c "/") eqn:Q.
      * apply Ascii.eqb_eq in Q; subst c.
        exists ["/"%char]; split; [reflexivity | right; exists []; reflexivity].
      * exists []; split; [reflexivity | left; reflexivity].
Qed.

Lemma last_app_end :
  forall (a b : bytes) d, b <> [] -> last (a ++ b) d = last b d.
Proof.
  induction a as [|x a IH]; intros b d N; [reflexivity|].
  cbn [app]. specialize (IH b d N).
  destruct (a ++ b) eqn:E; [|cbn [last]; exact IH].
  apply app_eq_nil in E; destruct E as [_ E]; contradiction.
Qed.

Lemma last_skipn :
  forall n (l : bytes) d,
    (n < length l)%nat -> last (skipn n l) d = last l d.
Proof.
  induction n as [|n IH]; intros l d L; [reflexivity|].
  destruct l as [|x l]; [reflexivity|].
  cbn [skipn]. cbn [length] in L. rewrite IH by lia.
  destruct l; [cbn [length] in L; lia | reflexivity].
Qed.

Ltac ends_in_newline :=
  repeat (rewrite last_app_end;
          [| let E := fresh "E" in
             intro E;
             repeat (apply app_eq_nil in E; destruct E as [_ E]);
             discriminate E]);
  reflexivity.

Lemma directory_line_end :
  forall perms dirname, last (directory_line perms dirname) NUL = NL.
Proof. intros; unfold directory_line; ends_in_newline. Qed.

Lemma file_line_end :
  forall perms size filename, last (file_line perms size filename) NUL = NL.
Proof. intros; unfold file_line; ends_in_newline. Qed.

(** A line longer than the buffer: 1023 bytes are kept, and what is
    dropped ends in the line's last byte. *)
Lemma firstn_cut :
  forall l : bytes,
    (1023 < length l)%nat ->
    length (firstn 1023 l) = 1023%nat /\
    firstn 1023 l <> l /\
    last (skipn 1023 l) NUL = last l NUL.
Proof.
  intros l L.
  assert (N : length (firstn 1023 l) = 1023%nat)
    by (rewrite length_firstn; lia).
  split; [exact N|]. split; [|apply last_skipn; exact L].
  intro E; rewrite E in N; lia.
Qed.

(** C7 is not what scp.c does for long names.  In WriteInited, enter
    directory, begin file push and leave directory each make one
    channel write, of the control line "D<perms> 0 <basename>\n",
    "C<perms> <decimal-size> <basename>\n" or "E\n", where <perms> is
    the caller's string as it is and <basename> is what follows the
    last separator of the caller's name; but the line is formatted into
    a 1024-byte buffer and only its first 1023 bytes are written.  A
    line of at most 1023 bytes is written whole.  Of a longer line
    exactly 1023 bytes are written; the rest, which ends in the
    newline, is not sent, and the call still returns SSH_OK when the
    peer answers 0x00. *)
Theorem C7_control_lines_written :
  forall code0 scp ch,
    state scp = SSH_SCP_WRITE_INITED -> channel scp = Some ch ->
    (forall dirname perms,
       writes_of
         (scp_log
            (snd (ssh_scp_push_directory code0 scp
                    dirname perms)))
       = writes_of (io_log ch)
         ++ [firstn 1023 (directory_line perms dirname)] /\
       ((length (directory_line perms dirname) <= 1023)%nat ->
        firstn 1023 (directory_line perms dirname)
        = directory_line perms dirname) /\
       ((1023 < length (directory_line perms dirname))%nat ->
        length (firstn 1023 (directory_line perms dirname)) = 1023%nat /\
        firstn 1023 (directory_line perms dirname)
        <> directory_line perms dirname /\
        last (skipn 1023 (directory_line perms dirname)) NUL = NL) /\
       (peer_acknowledges ch ->
        fst (ssh_scp_push_directory code0 scp
               dirname perms)
        = SSH_OK)) /\
    (forall filename size perms,
       writes_of
         (scp_log
            (snd (ssh_scp_push_file code0 scp
                    filename size perms)))
       = writes_of (io_log ch)
         ++ [firstn 1023 (file_line perms size filename)] /\
       ((length (file_line perms size filename) <= 1023)%nat ->
        firstn 1023 (file_line perms size filename)
        = file_line perms size filename) /\
       ((1023 < length (file_line perms size filename))%nat ->
        length (firstn 1023 (file_line perms size filename)) = 1023%nat /\
        firstn 1023 (file_line perms size filename)
        <> file_line perms size filename /\
        last (skipn 1023 (file_line perms size filename)) NUL = NL) /\
       (peer_acknowledges ch ->
        fst (ssh_scp_push_file code0 scp
               filename size perms)
        = SSH_OK)) /\
    writes_of (scp_log (snd (ssh_scp_leave_directory code0 scp)))
    = writes_of (io_log ch) ++ [leave_line] /\
    (forall name,
       exists dir,
         c_str name = dir ++ ssh_basename (c_str name) /\
         ~ In "/"%char (ssh_basename (c_str name)) /\
         (dir = [] \/ exists d, dir = d ++ ["/"%char])).
Proof.
  intros code0 scp ch S C.
  split; [|split; [|split]].
  - intros dirname perms.
    split; [|split; [apply firstn_all2|split]].
    + unfold ssh_scp_push_directory; rewrite S; cbn [state_eqb negb]; cbv zeta.
      unfold snprintf, fmt_s.
      rewrite (c_str_id (ssh_basename (c_str dirname)))
        by (intro I; apply ssh_basename_in in I; exact (c_str_clean _ I)).
      change (1024 - 1)%nat with 1023%nat.
      fold (directory_line perms dirname).
      apply (push_tail_written code0 scp ch _ (fun s => s) C);
        [apply firstn_clean, directory_line_clean | reflexivity].
    + intro L. rewrite <- (directory_line_end perms dirname).
      apply firstn_cut; exact L.
    + intros [F (rest & A)].
      unfold ssh_scp_push_directory; rewrite S; cbn [state_eqb negb]; cbv zeta.
      destruct (push_tail_status code0 scp ch
                  (snprintf 1024
                     (str "D" ++ fmt_s perms ++ str " 0 "
                      ++ fmt_s (ssh_basename (c_str dirname)) ++ [NL]))
                  (fun s => s) NUL rest C F A) as (ch2 & R).
      rewrite R; reflexivity.
  - intros filename size perms.
    split; [|split; [apply firstn_all2|split]].
    + unfold ssh_scp_push_file; cbv zeta; rewrite S; cbn [state_eqb negb].
      unfold snprintf, fmt_s.
      rewrite (c_str_id (ssh_basename (c_str filename)))
        by (intro I; apply ssh_basename_in in I; exact (c_str_clean _ I)).
      change (1024 - 1)%nat with 1023%nat.
      fold (file_line perms size filename).
      apply (push_tail_written code0 scp ch _
               (fun s => set_state SSH_SCP_WRITE_WRITING
                           (set_processed 0 (set_filelen (wrap size) s))) C);
        [apply firstn_clean, file_line_clean | reflexivity].
    + intro L. rewrite <- (file_line_end perms size filename).
      apply firstn_cut; exact L.
    + intros [F (rest & A)].
      unfold ssh_scp_push_file; cbv zeta; rewrite S; cbn [state_eqb negb].
      destruct (push_tail_status code0 scp ch
                  (snprintf 1024
                     (str "C" ++ fmt_s perms ++ [SP] ++ fmt_size (wrap size)
                      ++ [SP] ++ fmt_s (ssh_basename (c_str filename))
                      ++ [NL]))
                  (fun s => set_state SSH_SCP_WRITE_WRITING
                              (set_processed 0 (set_filelen (wrap size) s)))
                  NUL rest C F A) as (ch2 & R).
      rewrite R; reflexivity.
  - unfold ssh_scp_leave_directory; rewrite S; cbn [state_eqb negb]; cbv zeta.
    fold leave_line.
    apply (push_tail_written code0 scp ch _ (fun s => s) C);
      [|reflexivity].
    vm_compute; intros [H | [H | []]]; discriminate H.
  - intro name.
    destruct (ssh_basename_final_component (c_str name)) as (dir & E & D).
    exists dir. split; [exact E|].
    split; [apply ssh_basename_no_separator | exact D].
Qed.

Lemma C7_control_lines_written_witness :
  (forall dirname perms,
     writes_of
       (scp_log
          (snd (ssh_scp_push_directory "001"%char push_ready
                  dirname perms)))
     = writes_of (io_log (channel_of push_ready))
       ++ [firstn 1023 (directory_line perms dirname)] /\
     ((length (directory_line perms dirname) <= 1023)%nat ->
      firstn 1023 (directory_line perms dirname)
      = directory_line perms dirname) /\
     ((1023 < length (directory_line perms dirname))%nat ->
      length (firstn 1023 (directory_line perms dirname)) = 1023%nat /\
      firstn 1023 (directory_line perms dirname)
      <> directory_line perms dirname /\
      last (skipn 1023 (directory_line perms dirname)) NUL = NL) /\
     (peer_acknowledges (channel_of push_ready) ->
      fst (ssh_scp_push_directory "001"%char push_ready
             dirname perms)
      = SSH_OK)) /\
  (forall filename size perms,
     writes_of
       (scp_log
          (snd (ssh_scp_push_file "001"%char push_ready
                  filename size perms)))
     = writes_of (io_log (channel_of push_ready))
       ++ [firstn 1023 (file_line perms size filename)] /\
     ((length (file_line perms size filename) <= 1023)%nat ->
      firstn 1023 (file_line perms size filename)
      = file_line perms size filename) /\
     ((1023 < length (file_line perms size filename))%nat ->
      length (firstn 1023 (file_line perms size filename)) = 1023%nat /\
      firstn 1023 (file_line perms size filename)
      <> file_line perms size filename /\
      last (skipn 1023 (file_line perms size filename)) NUL = NL) /\
     (peer_acknowledges (channel_of push_ready) ->
      fst (ssh_scp_push_file "001"%char push_ready
             filename size perms)
      = SSH_OK)) /\
  writes_of (scp_log (snd (ssh_scp_leave_directory "001"%char push_ready)))
  = writes_of (io_log (channel_of push_ready)) ++ [leave_line] /\
  (forall name,
     exists dir,
       c_str name = dir ++ ssh_basename (c_str name) /\
       ~ In "/"%char (ssh_basename (c_str name)) /\
       (dir = [] \/ exists d, dir = d ++ ["/"%char])).
Proof.
  apply (C7_control_lines_written
           "001"%char push_ready (channel_of push_ready)).
  - vm_compute; reflexivity.
  - vm_compute; reflexivity.
Defined.

(** The basename-stripping and file-header examples of the spec. *)
Lemma control_line_examples :
  directory_line (str "0755") (str "a/b/c.txt") = line "D0755 0 c.txt" /\
  file_line (str "0644") 1234 (str "a/b/data.bin") = line "C0644 1234 data.bin" /\
  writes_of (scp_log (snd (ssh_scp_push_file "001"%char push_ready
                             (str "a/b/data.bin") 1234 (str "0644"))))
  = [line "C0644 1234 data.bin"].
Proof. vm_compute; repeat split; reflexivity. Qed.

(** The divergence on a concrete call: for the permissions "0755" and
    a name of 1020 bytes the line "D0755 0 <name>\n" has 1029 bytes;
    the one write carries its first 1023 bytes, which end in 'a', not
    in the newline, and the call returns SSH_OK. *)
Lemma C7_long_name_is_truncated :
  state push_ready = SSH_SCP_WRITE_INITED /\
  ssh_basename (c_str long_name) = long_name /\
  writes_of
    (scp_log (snd (ssh_scp_push_directory "001"%char push_ready
                     long_name (str "0755"))))
  = [firstn 1023 (str "D0755 0 " ++ long_name ++ [NL])] /\
  length (str "D0755 0 " ++ long_name ++ [NL]) = 1029%nat /\
  length (firstn 1023 (str "D0755 0 " ++ long_name ++ [NL])) = 1023%nat /\
  last (firstn 1023 (str "D0755 0 " ++ long_name ++ [NL])) NUL = "a"%char /\
  fst (ssh_scp_push_directory "001"%char push_ready long_name (str "0755"))
  = SSH_OK.
Proof. vm_compute; repeat split; reflexivity. Qed.

(** ** The scenarios of the spec on scp.c *)

(** Push file: create(Push, "/tmp/dst"), initialize, begin_file("f.txt",
    5, "0644"), write("hello"): every call succeeds, the state is back
    to WriteInited and the counters are (0,0). *)
Lemma push_file_scenario :
  fst (run_ops [OpWrite (str "hello") 5] file_of_5) = [SSH_OK] /\
  state (snd (run_ops [OpWrite (str "hello") 5] file_of_5))
  = SSH_SCP_WRITE_INITED /\
  processed (snd (run_ops [OpWrite (str "hello") 5] file_of_5)) = 0 /\
  filelen (snd (run_ops [OpWrite (str "hello") 5] file_of_5)) = 0 /\
  writes_of (scp_log (snd (run_ops [OpWrite (str "hello") 5] file_of_5)))
  = [line "C0644 5 f.txt"; str "hello"].
Proof. vm_compute; repeat split; reflexivity. Qed.

(** Deny pull request: after the denial the state is ReadInited and a
    read fails on the state check, with no channel call. *)
Lemma deny_pull_request_scenario :
  state denied_session = SSH_SCP_READ_INITED /\
  writes_of (scp_log denied_session)
  = ["002"%char :: str "not allowed" ++ [NL]] /\
  fst (ssh_scp_read denied_session 10) = (SSH_ERROR, []) /\
  snd (ssh_scp_read denied_session 10) = denied_session.
Proof. vm_compute; repeat split; reflexivity. Qed.

(** ** Creation, close and free *)

Lemma ssh_scp_new_live :
  forall sess m loc sess' scp,
    ssh_scp_new sess m loc = (sess', Some scp) ->
    live_blocks sess' = live_blocks sess + 2.
Proof.
  intros sess m loc sess' scp; unfold ssh_scp_new.
  destruct (malloc sess) as [ok s1] eqn:E1.
  apply malloc_live in E1.
  destruct ok; cbn [negb]; [|discriminate].
  destruct (negb (m =? SSH_SCP_WRITE) && negb (m =? SSH_SCP_READ));
    [discriminate|].
  unfold strdup. destruct (malloc s1) as [ok2 s2] eqn:E2.
  apply malloc_live in E2.
  destruct ok2; [|discriminate].
  intro H; inversion H; subst. lia.
Qed.

(** X1: [ssh_scp_new] either returns NULL and leaves the number of live
    blocks as it was (whichever of the allocations or the mode check
    failed), or returns an object in state New with a legal mode, no
    channel, a copy of the location, zero counters and no pending
    request, two blocks having been allocated. *)
Theorem X1_new_outcomes :
  forall sess m loc,
    (snd (ssh_scp_new sess m loc) = None /\
     live_blocks (fst (ssh_scp_new sess m loc)) = live_blocks sess) \/
    (exists scp,
       snd (ssh_scp_new sess m loc) = Some scp /\
       session scp = fst (ssh_scp_new sess m loc) /\
       live_blocks (session scp) = live_blocks sess + 2 /\
       (m = SSH_SCP_WRITE \/ m = SSH_SCP_READ) /\ mode scp = m /\
       state scp = SSH_SCP_NEW /\ channel scp = None /\
       location scp = Some (c_str loc) /\
       filelen scp = 0 /\ processed scp = 0 /\
       request_name scp = None /\ request_mode scp = None).
Proof.
  intros sess m loc.
  destruct (ssh_scp_new sess m loc) as [sess' [scp|]] eqn:E.
  - right.
    pose proof (ssh_scp_new_live _ _ _ _ _ E) as L.
    pose proof (ssh_scp_new_some _ _ _ _ _ E) as [M ->].
    eexists; split; [reflexivity|].
    cbn [fst session mode state channel location filelen processed
         request_name request_mode].
    repeat split; assumption.
  - left; split; [reflexivity|]. cbn [fst].
    revert E; unfold ssh_scp_new.
    destruct (malloc sess) as [ok s1] eqn:E1.
    apply malloc_live in E1.
    destruct ok; cbn [negb].
    2:{ intro H; inversion H; subst; lia. }
    destruct (negb (m =? SSH_SCP_WRITE) && negb (m =? SSH_SCP_READ)).
    { intro H; inversion H; subst; simpl; lia. }
    unfold strdup. destruct (malloc s1) as [ok2 s2] eqn:E2.
    apply malloc_live in E2.
    destruct ok2; [discriminate|].
    intro H; inversion H; subst; simpl; lia.
Qed.

Lemma strdup_live :
  forall s b o s', strdup s b = (o, s') ->
    live_blocks s' = live_blocks s + held o.
Proof.
  intros s b o s'; unfold strdup.
  destruct (malloc s) as [ok s1] eqn:E; apply malloc_live in E.
  intro H; inversion H; subst; destruct ok; simpl; lia.
Qed.

Lemma SAFE_FREE_live :
  forall (A : Type) (p : option A) s,
    live_blocks (SAFE_FREE p s) = live_blocks s - held p.
Proof. intros A [x|] s; simpl; lia. Qed.

Lemma channel_new_live :
  forall s o s', channel_new s = (o, s') -> live_blocks s' = live_blocks s.
Proof.
  intros s o s'; unfold channel_new.
  destruct (chan_plan s); intro H; inversion H; subst; reflexivity.
Qed.

Ltac live_facts :=
  repeat match goal with
  | H : strdup _ _ = (_, _) |- _ => apply strdup_live in H
  | H : channel_new _ = (_, _) |- _ => apply channel_new_live in H
  end.

Lemma run_op_foreign :
  forall op scp, foreign_blocks (snd (run_op op scp)) = foreign_blocks scp.
Proof.
  intros op scp.
  destruct op; cbn [run_op]; unfold_op; run_cases; live_facts;
    unfold foreign_blocks, owned_blocks; proj_simpl;
    rewrite ?SAFE_FREE_live; proj_simpl; try reflexivity; try lia.
Qed.

Lemma close_foreign :
  forall scp, foreign_blocks (snd (ssh_scp_close scp)) = foreign_blocks scp.
Proof.
  intro scp; unfold ssh_scp_close.
  run_cases; reflexivity.
Qed.

Lemma run_calls_foreign :
  forall cs scp, foreign_blocks (run_calls cs scp) = foreign_blocks scp.
Proof.
  induction cs as [|c cs IH]; intro scp; simpl; [reflexivity|].
  rewrite IH. destruct c; simpl; [apply run_op_foreign | apply close_foreign].
Qed.

Lemma free_foreign :
  forall scp, live_blocks (ssh_scp_free scp) = foreign_blocks scp.
Proof.
  intro scp; unfold ssh_scp_free; cbv zeta.
  rewrite !SAFE_FREE_live.
  destruct (negb (state_eqb (state scp) SSH_SCP_NEW)).
  - rewrite <- (close_foreign scp).
    unfold foreign_blocks, owned_blocks, held; lia.
  - unfold foreign_blocks, owned_blocks, held; lia.
Qed.

(** X2: whatever calls were made on an object that [ssh_scp_new]
    returned, close included, and whatever the channel and the allocator
    answered, [ssh_scp_free] releases every block the object holds: the
    session is left with as many live blocks as before the creation. *)
Theorem X2_free_releases_all_blocks :
  forall sess m loc sess' scp cs,
    ssh_scp_new sess m loc = (sess', Some scp) ->
    live_blocks (ssh_scp_free (run_calls cs scp)) = live_blocks sess.
Proof.
  intros sess m loc sess' scp cs H.
  rewrite free_foreign, run_calls_foreign.
  pose proof (ssh_scp_new_live _ _ _ _ _ H) as L.
  apply ssh_scp_new_some in H; destruct H as [_ ->].
  unfold foreign_blocks, owned_blocks; cbn in *; lia.
Qed.

Lemma X2_free_releases_all_blocks_witness :
  live_blocks
    (ssh_scp_free
       (run_calls [CallOp (OpInit "001"%char); CallOp OpPullRequest; CallClose]
          (created SSH_SCP_READ "/tmp/src"
             [RdData [NUL]; RdData (line "C0644 10 x")] [])))
  = live_blocks (mk_session [RdData [NUL]; RdData (line "C0644 10 x")] []).
Proof.
  refine (X2_free_releases_all_blocks
            (mk_session [RdData [NUL]; RdData (line "C0644 10 x")] [])
            SSH_SCP_READ (str "/tmp/src") _ _ _ _).
  unfold created, ssh_scp_new; simpl; reflexivity.
Defined.

(** X3: [ssh_scp_close] either succeeds, and then the state is New, the
    channel pointer is NULL and a second close succeeds again without
    changing anything, or fails, and then the state is Error and the
    object still holds its channel.  In both cases the mode, the
    counters and the pending request are what they were. *)
Theorem X3_close_outcomes :
  forall scp,
    ((fst (ssh_scp_close scp) = SSH_OK /\
      state (snd (ssh_scp_close scp)) = SSH_SCP_NEW /\
      channel (snd (ssh_scp_close scp)) = None /\
      ssh_scp_close (snd (ssh_scp_close scp))
      = (SSH_OK, snd (ssh_scp_close scp)))
     \/
     (fst (ssh_scp_close scp) = SSH_ERROR /\
      state (snd (ssh_scp_close scp)) = SSH_SCP_ERROR /\
      channel scp <> None /\ channel (snd (ssh_scp_close scp)) <> None)) /\
    mode (snd (ssh_scp_close scp)) = mode scp /\
    filelen (snd (ssh_scp_close scp)) = filelen scp /\
    processed (snd (ssh_scp_close scp)) = processed scp /\
    request_type (snd (ssh_scp_close scp)) = request_type scp /\
    request_name (snd (ssh_scp_close scp)) = request_name scp /\
    request_mode (snd (ssh_scp_close scp)) = request_mode scp.
Proof.
  intro scp.
  assert (N : forall s, channel s = None ->
                ssh_scp_close s = (SSH_OK, set_state SSH_SCP_NEW s))
    by (intros s H; unfold ssh_scp_close; rewrite H; reflexivity).
  destruct (channel scp) as [ch|] eqn:C.
  - assert (R : ssh_scp_close scp =
                if eof_ok ch
                then if close_ok ch
                     then (SSH_OK, set_state SSH_SCP_NEW (set_channel None scp))
                     else (SSH_ERROR,
                           set_state SSH_SCP_ERROR
                             (set_channel
                                (Some (log_event EvClose (log_event EvEof ch)))
                                scp))
                else (SSH_ERROR,
                      set_state SSH_SCP_ERROR
                        (set_channel (Some (log_event EvEof ch)) scp))).
    { unfold ssh_scp_close, channel_send_eof, channel_close; rewrite C.
      cbn [eof_ok close_ok log_event].
      destruct (eof_ok ch); [destruct (close_ok ch)|]; reflexivity. }
    rewrite R; clear R.
    destruct (eof_ok ch); [destruct (close_ok ch)|]; cbn [fst snd].
    + split; [left | repeat split].
      repeat split.
    + split; [right | repeat split]. repeat split; discriminate.
    + split; [right | repeat split]. repeat split; discriminate.
  - rewrite (N scp C); cbn [fst snd].
    split; [left | repeat split].
    repeat split; try assumption.
    rewrite N by assumption. destruct scp; reflexivity.
Qed.

(** ** Initialize and the state discipline *)

(** X4: [ssh_scp_init] called in state New either fails, and the state
    is Error, or succeeds; then the state is WriteInited when the mode
    is SSH_SCP_WRITE and ReadInited otherwise, and the calls made on the
    channel that [channel_new] returned are, in order, the open of the
    session, the exec of "scp -t <location>" (mode SSH_SCP_WRITE) or
    "scp -f <location>" (otherwise), cut to 1023 bytes, and the read of
    one status byte. *)
Theorem X4_init_outcomes :
  forall code0 scp,
    state scp = SSH_SCP_NEW ->
    (fst (ssh_scp_init code0 scp) = SSH_ERROR /\
     state (snd (ssh_scp_init code0 scp)) = SSH_SCP_ERROR)
    \/
    (fst (ssh_scp_init code0 scp) = SSH_OK /\
     state (snd (ssh_scp_init code0 scp))
     = (if mode scp =? SSH_SCP_WRITE
        then SSH_SCP_WRITE_INITED else SSH_SCP_READ_INITED) /\
     exists ch0 r,
       fst (channel_new (session scp)) = Some ch0 /\
       scp_log (snd (ssh_scp_init code0 scp)) =
       io_log ch0 ++
         [EvOpen;
          EvExec (firstn 1023
                    ((if mode scp =? SSH_SCP_WRITE
                      then str "scp -t " else str "scp -f ")
                     ++ location_text scp));
          EvRead 1 r]).
Proof.
  intros code0 scp S. unfold ssh_scp_init. rewrite S; cbn [state_eqb negb].
  destruct (channel_new (session scp)) as [[ch0|] sess] eqn:N; cbv zeta.
  2:{ left; split; reflexivity. }
  unfold channel_open_session, channel_request_exec, read_code,
    scp_channel_read.
  cbn [mode channel set_channel set_session].
  destruct (open_ok ch0) eqn:O; cbn [is_error SSH_OK SSH_ERROR Z.eqb];
    [|left; split; reflexivity].
  cbn [exec_ok log_event].
  destruct (exec_ok ch0) eqn:X; cbn [is_error SSH_OK SSH_ERROR Z.eqb];
    [|left; destruct (mode scp =? SSH_SCP_WRITE); split; reflexivity].
  assert (LT : forall c s,
             location_text (set_channel c (set_channel (Some ch0)
                                            (set_session s scp)))
             = location_text scp) by reflexivity.
  rewrite LT.
  destruct (mode scp =? SSH_SCP_WRITE) eqn:M.
  - destruct (channel_read _ 1) as [[r got] ch3] eqn:R.
    destruct (channel_read_log _ _ _ _ _ R) as [L _].
    cbn [mode set_channel set_session]; rewrite M.
    destruct (negb _); [left; split; reflexivity|].
    right. split; [reflexivity|]. split; [reflexivity|].
    exists ch0, r. split; [reflexivity|].
    unfold scp_log; cbn [snd channel set_state set_channel].
    rewrite L; unfold log_event; cbn [io_log]. unfold snprintf.
    change (1024 - 1)%nat with 1023%nat.
    rewrite <- !app_assoc; reflexivity.
  - destruct (channel_read _ 1) as [[r got] ch3] eqn:R.
    destruct (channel_read_log _ _ _ _ _ R) as [L _].
    cbn [mode set_channel set_session]; rewrite M.
    destruct (negb _); [left; split; reflexivity|].
    right. split; [reflexivity|]. split; [reflexivity|].
    exists ch0, r. split; [reflexivity|].
    unfold scp_log; cbn [snd channel set_state set_channel].
    rewrite L; unfold log_event; cbn [io_log]. unfold snprintf.
    change (1024 - 1)%nat with 1023%nat.
    rewrite <- !app_assoc; reflexivity.
Qed.

Lemma X4_init_outcomes_witness :
  (fst (ssh_scp_init "001"%char
          (created SSH_SCP_WRITE "/tmp/dst" [RdData [NUL]] [])) = SSH_ERROR /\
   state (snd (ssh_scp_init "001"%char
                 (created SSH_SCP_WRITE "/tmp/dst" [RdData [NUL]] [])))
   = SSH_SCP_ERROR)
  \/
  (fst (ssh_scp_init "001"%char
          (created SSH_SCP_WRITE "/tmp/dst" [RdData [NUL]] [])) = SSH_OK /\
   state (snd (ssh_scp_init "001"%char
                 (created SSH_SCP_WRITE "/tmp/dst" [RdData [NUL]] [])))
   = (if mode (created SSH_SCP_WRITE "/tmp/dst" [RdData [NUL]] [])
         =? SSH_SCP_WRITE
      then SSH_SCP_WRITE_INITED else SSH_SCP_READ_INITED) /\
   exists ch0 r,
     fst (channel_new
            (session (created SSH_SCP_WRITE "/tmp/dst" [RdData [NUL]] [])))
     = Some ch0 /\
     scp_log (snd (ssh_scp_init "001"%char
                     (created SSH_SCP_WRITE "/tmp/dst" [RdData [NUL]] []))) =
     io_log ch0 ++
       [EvOpen;
        EvExec (firstn 1023
                  ((if mode (created SSH_SCP_WRITE "/tmp/dst" [RdData [NUL]] [])
                       =? SSH_SCP_WRITE
                    then str "scp -t " else str "scp -f ")
                   ++ location_text
                        (created SSH_SCP_WRITE "/tmp/dst" [RdData [NUL]] [])));
        EvRead 1 r]).
Proof.
  apply (X4_init_outcomes "001"%char
           (created SSH_SCP_WRITE "/tmp/dst" [RdData [NUL]] [])).
  vm_compute; reflexivity.
Defined.

Lemma transition_refl : forall s, transition s s = true.
Proof. intros []; reflexivity. Qed.

Lemma transition_error : forall s, transition s SSH_SCP_ERROR = true.
Proof. intros []; reflexivity. Qed.

(** X5: one operation changes the state only along the transitions
    New to WriteInited or ReadInited, WriteInited to WriteWriting and
    back, ReadInited to ReadRequested, ReadRequested to ReadInited or
    ReadReading, ReadReading to ReadInited, and any state to Error; no
    operation ever leaves the Error state or moves between a push state
    and a pull state. *)
Theorem X5_operations_follow_transitions :
  forall op scp,
    transition (state scp) (state (snd (run_op op scp))) = true.
Proof.
  intros op scp.
  destruct op; cbn [run_op]; unfold_op; run_cases; state_facts; proj_simpl;
    try apply transition_refl; try apply transition_error;
    repeat match goal with H : state scp = _ |- _ => rewrite H end;
    try reflexivity.
Qed.

Lemma close_mode : forall scp, mode (snd (ssh_scp_close scp)) = mode scp.
Proof. intro scp; unfold ssh_scp_close; run_cases; reflexivity. Qed.

Lemma close_state :
  forall scp,
    state (snd (ssh_scp_close scp)) = SSH_SCP_NEW \/
    state (snd (ssh_scp_close scp)) = SSH_SCP_ERROR.
Proof.
  intro scp; unfold ssh_scp_close; run_cases; cbn [snd state set_state]; auto.
Qed.

Lemma run_op_state_of_mode :
  forall op scp,
    mode scp = SSH_SCP_WRITE \/ mode scp = SSH_SCP_READ ->
    state_of_mode (mode scp) (state scp) = true ->
    state_of_mode (mode scp) (state (snd (run_op op scp))) = true.
Proof.
  intros op scp M H.
  destruct op; cbn [run_op]; unfold_op; run_cases; state_facts; proj_simpl;
    try exact H; try reflexivity;
    repeat match goal with
           | E : state scp = _ |- _ => rewrite E in H; cbn [state_of_mode] in H
           end;
    cbn [state_of_mode]; try exact H;
    try (destruct M as [M | M]; rewrite M in *; try reflexivity;
         discriminate).
Qed.

Lemma run_calls_state_of_mode :
  forall cs scp,
    mode scp = SSH_SCP_WRITE \/ mode scp = SSH_SCP_READ ->
    state_of_mode (mode scp) (state scp) = true ->
    mode (run_calls cs scp) = mode scp /\
    state_of_mode (mode scp) (state (run_calls cs scp)) = true.
Proof.
  induction cs as [|c cs IH]; intros scp M S; cbn [run_calls];
    [split; [reflexivity | exact S]|].
  assert (E : mode (snd (run_call c scp)) = mode scp)
    by (destruct c; cbn [run_call]; [apply run_op_mode | apply close_mode]).
  rewrite <- E. apply IH; rewrite E; [exact M|].
  destruct c as [op|]; cbn [run_call].
  - apply run_op_state_of_mode; assumption.
  - destruct (close_state scp) as [Q | Q]; rewrite Q; reflexivity.
Qed.

(** X6: an object that [ssh_scp_new] returned for the mode [m] keeps
    that mode, one of the two legal values, through every sequence of
    operations and closes, and its state always belongs to the mode:
    created for writing it is never in ReadInited, ReadRequested or
    ReadReading, created for reading it is never in WriteInited or
    WriteWriting. *)
Theorem X6_state_belongs_to_mode :
  forall sess m loc sess' scp cs,
    ssh_scp_new sess m loc = (sess', Some scp) ->
    (m = SSH_SCP_WRITE \/ m = SSH_SCP_READ) /\
    mode (run_calls cs scp) = m /\
    state_of_mode m (state (run_calls cs scp)) = true /\
    (m = SSH_SCP_WRITE ->
     state (run_calls cs scp) <> SSH_SCP_READ_INITED /\
     state (run_calls cs scp) <> SSH_SCP_READ_REQUESTED /\
     state (run_calls cs scp) <> SSH_SCP_READ_READING) /\
    (m = SSH_SCP_READ ->
     state (run_calls cs scp) <> SSH_SCP_WRITE_INITED /\
     state (run_calls cs scp) <> SSH_SCP_WRITE_WRITING).
Proof.
  intros sess m loc sess' scp cs H.
  apply ssh_scp_new_some in H; destruct H as [M ->].
  match goal with
  | |- context [run_calls cs ?s] =>
      destruct (run_calls_state_of_mode cs s) as [K1 K2];
        [exact M | reflexivity|]
  end.
  cbn [mode] in K1, K2.
  split; [exact M|]. split; [exact K1|]. split; [exact K2|].
  split; intro W; subst m; repeat split; intro Q; rewrite Q in K2;
    discriminate K2.
Qed.

Lemma X6_state_belongs_to_mode_witness :
  (SSH_SCP_READ = SSH_SCP_WRITE \/ SSH_SCP_READ = SSH_SCP_READ) /\
  mode
    (run_calls
         [CallOp (OpInit "001"%char); CallOp OpPullRequest;
          CallClose; CallOp (OpInit "001"%char)]
         (created SSH_SCP_READ "/tmp/src"
            [RdData [NUL]; RdData (line "C0644 10 x")] []))
  = SSH_SCP_READ /\
  state_of_mode SSH_SCP_READ
    (state
      (run_calls
           [CallOp (OpInit "001"%char); CallOp OpPullRequest;
            CallClose; CallOp (OpInit "001"%char)]
           (created SSH_SCP_READ "/tmp/src"
              [RdData [NUL]; RdData (line "C0644 10 x")] [])))
  = true.
Proof.
  refine (let W :=
            X6_state_belongs_to_mode
              (mk_session [RdData [NUL]; RdData (line "C0644 10 x")] [])
              SSH_SCP_READ (str "/tmp/src")
              (fst (ssh_scp_new
                      (mk_session [RdData [NUL]; RdData (line "C0644 10 x")] [])
                      SSH_SCP_READ (str "/tmp/src")))
              (created SSH_SCP_READ "/tmp/src"
                 [RdData [NUL]; RdData (line "C0644 10 x")] [])
              [CallOp (OpInit "001"%char); CallOp OpPullRequest;
               CallClose; CallOp (OpInit "001"%char)] _ in
          conj (proj1 W) (conj (proj1 (proj2 W)) (proj1 (proj2 (proj2 W))))).
  vm_compute; reflexivity.
Defined.

(** ** The status byte of the push handshake *)

(** X7: when enter directory, leave directory or begin file push is
    called in WriteInited, the write of the control line succeeds and
    the peer answers with a status byte, that byte alone decides the
    outcome: with 0x00 the call returns SSH_OK, directories leave the
    state at WriteInited, and a file header moves it to WriteWriting
    with declared size = the announced size and processed = 0; with any
    other byte the call returns SSH_ERROR and the state is Error. *)
Theorem X7_status_byte_decides :
  forall op scp ch c rest,
    push_control op = true ->
    state scp = SSH_SCP_WRITE_INITED -> channel scp = Some ch ->
    write_fails ch = false ->
    arrivals (rd_plan ch) = AByte c :: rest ->
    fst (run_op op scp) = (if Ascii.eqb c NUL then SSH_OK else SSH_ERROR) /\
    state (snd (run_op op scp))
    = (if Ascii.eqb c NUL then state_after_push op else SSH_SCP_ERROR) /\
    (filelen (snd (run_op op scp)), processed (snd (run_op op scp)))
    = (if Ascii.eqb c NUL
       then match op with
            | OpPushFile _ _ size _ => (wrap size, 0)
            | _ => (filelen scp, processed scp)
            end
       else (filelen scp, processed scp)).
Proof.
  intros op scp ch c rest P S C F A.
  destruct op; try discriminate P; cbn [run_op state_after_push].
  - unfold ssh_scp_push_directory; rewrite S; cbn [state_eqb negb]; cbv zeta.
    destruct (push_tail_status code0 scp ch
                (snprintf 1024
                   (str "D" ++ fmt_s perms ++ str " 0 "
                    ++ fmt_s (ssh_basename (c_str dirname)) ++ [NL]))
                (fun s => s) c rest C F A) as (ch2 & R).
    rewrite R. destruct (Ascii.eqb c NUL); repeat split; exact S.
  - unfold ssh_scp_leave_directory; rewrite S; cbn [state_eqb negb]; cbv zeta.
    destruct (push_tail_status code0 scp ch (str "E" ++ [NL])
                (fun s => s) c rest C F A) as (ch2 & R).
    rewrite R. destruct (Ascii.eqb c NUL); repeat split; exact S.
  - unfold ssh_scp_push_file; cbv zeta; rewrite S; cbn [state_eqb negb].
    destruct (push_tail_status code0 scp ch
                (snprintf 1024
                   (str "C" ++ fmt_s perms ++ [SP] ++ fmt_size (wrap size)
                    ++ [SP] ++ fmt_s (ssh_basename (c_str filename)) ++ [NL]))
                (fun s => set_state SSH_SCP_WRITE_WRITING
                            (set_processed 0 (set_filelen (wrap size) s)))
                c rest C F A) as (ch2 & R).
    rewrite R. destruct (Ascii.eqb c NUL); repeat split; exact S.
Qed.

Lemma X7_status_byte_decides_witness :
  fst (run_op (OpPushFile "001"%char (str "f.txt") 5 (str "0644")) push_ready)
  = (if Ascii.eqb NUL NUL then SSH_OK else SSH_ERROR) /\
  state (snd (run_op (OpPushFile "001"%char (str "f.txt") 5 (str "0644"))
                push_ready))
  = (if Ascii.eqb NUL NUL
     then state_after_push (OpPushFile "001"%char (str "f.txt") 5 (str "0644"))
     else SSH_SCP_ERROR) /\
  (filelen (snd (run_op (OpPushFile "001"%char (str "f.txt") 5 (str "0644"))
                   push_ready)),
   processed (snd (run_op (OpPushFile "001"%char (str "f.txt") 5 (str "0644"))
                     push_ready)))
  = (if Ascii.eqb NUL NUL
     then (wrap 5, 0)
     else (filelen push_ready, processed push_ready)).
Proof.
  apply (X7_status_byte_decides
           (OpPushFile "001"%char (str "f.txt") 5 (str "0644"))
           push_ready (channel_of push_ready) NUL []);
    vm_compute; reflexivity.
Defined.

(** ** A file written in chunks *)

Lemma take_z_firstn :
  forall (A : Type) (l : list A) n,
    0 <= n -> take_z n l = firstn (Z.to_nat n) l.
Proof.
  induction l as [|x l IH]; intros n H; simpl.
  - destruct (Z.to_nat n); reflexivity.
  - destruct (n <=? 0) eqn:E.
    + apply Z.leb_le in E. replace n with 0 by lia. reflexivity.
    + apply Z.leb_gt in E.
      replace (Z.to_nat n) with (S (Z.to_nat (n - 1))) by lia.
      simpl. rewrite IH by lia. reflexivity.
Qed.






(** The chunks of the example put "hello" on the channel and nothing of
    what follows it. *)
Lemma chunks_example :
  concat (skipn 1 (writes_of
                     (scp_log (snd (run_ops
                                      (write_chunks [str "hel"; str "lo, world"])
                                      file_of_5)))))
  = str "hello".
Proof. vm_compute; reflexivity. Qed.

(** ** What a pull request leaves behind *)

(** X9: [ssh_scp_pull_request] has three outcomes.  It fails, and then
    the state, the counters and the pending request are untouched; or it
    returns SSH_SCP_REQUEST_NEWFILE or SSH_SCP_REQUEST_NEWDIR, and then
    it was called in ReadInited, the state is ReadRequested, processed
    is 0 and the recorded request type is the value returned.  After a
    directory request the size field holds 48, the character '0',
    whatever the line announced. *)
Theorem X9_pull_request_outcomes :
  forall scp,
    (fst (ssh_scp_pull_request scp) = SSH_ERROR /\
     same_request scp (snd (ssh_scp_pull_request scp)))
    \/
    ((fst (ssh_scp_pull_request scp) = SSH_SCP_REQUEST_NEWFILE \/
      fst (ssh_scp_pull_request scp) = SSH_SCP_REQUEST_NEWDIR /\
      ssh_scp_request_get_size (snd (ssh_scp_pull_request scp)) = 48) /\
     state scp = SSH_SCP_READ_INITED /\
     state (snd (ssh_scp_pull_request scp)) = SSH_SCP_READ_REQUESTED /\
     processed (snd (ssh_scp_pull_request scp)) = 0 /\
     request_type (snd (ssh_scp_pull_request scp))
     = fst (ssh_scp_pull_request scp)).
Proof.
  intro scp; unfold ssh_scp_request_get_size, same_request.
  unfold_op; run_cases; state_facts; proj_simpl;
    try (left; repeat split; try reflexivity;
         match goal with H : is_error _ = true |- _ =>
           apply is_error_true in H; exact H end);
    try (right; repeat split; try assumption; try reflexivity;
         first [left; reflexivity | right; split; reflexivity]).
Qed.

(** ** Decoding what the encoder writes *)

Lemma digit_chars :
  forall u c,
    In c (list_ascii_of_string (NilEmpty.string_of_uint u)) ->
    exists d, digit_val c = Some d /\ 0 <= d <= 9.
Proof.
  induction u; simpl; intros c H; try contradiction;
    destruct H as [<- | H]; try (apply IHu; exact H);
    eexists; (split; [vm_compute; reflexivity | lia]).
Qed.

Lemma of_uint_acc_grows :
  forall u a, (a <= Pos.of_uint_acc u a)%positive.
Proof.
  induction u; intro a; cbn [Pos.of_uint_acc]; try lia;
    match goal with
    | |- (_ <= Pos.of_uint_acc _ ?b)%positive => specialize (IHu b); lia
    end.
Qed.

Lemma strtoull_digits_acc :
  forall u a ovf,
    Z.pos (Pos.of_uint_acc u a) < SIZE_MODULUS ->
    strtoull_digits (Z.pos a) ovf
      (list_ascii_of_string (NilEmpty.string_of_uint u))
    = (Z.pos (Pos.of_uint_acc u a), ovf).
Proof.
  induction u; intros a ovf H;
    cbn [Pos.of_uint_acc NilEmpty.string_of_uint list_ascii_of_string
         strtoull_digits] in *; [reflexivity| ..];
    match goal with
    | |- context [digit_val ?c] =>
        let v := eval vm_compute in (digit_val c) in
        change (digit_val c) with v; cbv iota beta
    end;
    match goal with
    | H : Z.pos (Pos.of_uint_acc _ ?b) < _ |- _ =>
        pose proof (of_uint_acc_grows u b) as G;
        match goal with
        | |- context [SIZE_MODULUS <=? ?x] =>
            replace (SIZE_MODULUS <=? x) with false
              by (symmetry; apply Z.leb_gt; lia);
            replace x with (Z.pos b) by lia
        end;
        apply IHu; exact H
    end.
Qed.

Lemma strtoull_digits_uint :
  forall u,
    Z.of_N (Pos.of_uint u) < SIZE_MODULUS ->
    strtoull_digits 0 false
      (list_ascii_of_string (NilEmpty.string_of_uint u))
    = (Z.of_N (Pos.of_uint u), false).
Proof.
  induction u; intro H;
    cbn [Pos.of_uint NilEmpty.string_of_uint list_ascii_of_string
         strtoull_digits] in *; [reflexivity| ..];
    match goal with
    | |- context [digit_val ?c] =>
        let v := eval vm_compute in (digit_val c) in
        change (digit_val c) with v; cbv iota beta
    end;
    cbn [Z.mul Z.add Z.of_N] in *;
    change (SIZE_MODULUS <=? _) with false; cbv iota;
    first [ apply IHu; exact H
          | match goal with
            | H : Z.pos (Pos.of_uint_acc _ ?b) < _ |- _ =>
                apply (strtoull_digits_acc u b false H)
            end ].
Qed.

Lemma strtoull_of_digits :
  forall cs,
    (forall c, In c cs -> exists d, digit_val c = Some d /\ 0 <= d <= 9) ->
    strtoull cs =
    (if snd (strtoull_digits 0 false cs) then SIZE_MODULUS - 1
     else fst (strtoull_digits 0 false cs)).
Proof.
  intros cs D. unfold strtoull.
  assert (C : c_str cs = cs).
  { apply c_str_id. intro I. destruct (D _ I) as (d & E & _).
    vm_compute in E; discriminate E. }
  rewrite C. destruct cs as [|c t]; [reflexivity|].
  destruct (D c (or_introl eq_refl)) as (d & E & _).
  destruct c as [[] [] [] [] [] [] [] []];
    try (vm_compute in E; discriminate E);
    cbn [skip_spaces isspace];
    destruct (strtoull_digits 0 false (_ :: t)) as [v []]; reflexivity.
Qed.

(** The decimal text of a size is read back as that size. *)
Lemma strtoull_fmt_size :
  forall z, 0 <= z < SIZE_MODULUS -> strtoull (fmt_size z) = z.
Proof.
  intros z H. unfold fmt_size, str.
  pose proof (DecimalN.Unsigned.of_to (Z.to_N z)) as R.
  unfold N.of_uint in R.
  set (u := N.to_uint (Z.to_N z)) in *.
  assert (U : u <> Decimal.Nil).
  { unfold u, N.to_uint. destruct (Z.to_N z); [discriminate|].
    apply DecimalPos.Unsigned.to_uint_nonnil. }
  assert (T : NilZero.string_of_uint u = NilEmpty.string_of_uint u)
    by (destruct u; [contradiction U; reflexivity | reflexivity ..]).
  rewrite T, strtoull_of_digits by apply digit_chars.
  rewrite strtoull_digits_uint by (rewrite R, Z2N.id; lia).
  cbn [fst snd]. rewrite R, Z2N.id by lia. reflexivity.
Qed.

Lemma strchr_found :
  forall u c v,
    ~ In c u -> ~ In NUL u -> c <> NUL ->
    strchr (u ++ c :: v) c = Some (u, v).
Proof.
  induction u as [|x u IH]; intros c v Hc Hn N; simpl.
  - destruct (Ascii.eqb c NUL) eqn:E;
      [apply Ascii.eqb_eq in E; contradiction|].
    rewrite Ascii.eqb_refl; reflexivity.
  - destruct (Ascii.eqb x NUL) eqn:E.
    { apply Ascii.eqb_eq in E; subst; exfalso; apply Hn; left; reflexivity. }
    destruct (Ascii.eqb x c) eqn:E2.
    { apply Ascii.eqb_eq in E2; subst; exfalso; apply Hc; left; reflexivity. }
    rewrite IH; [reflexivity| | |exact N].
    + intro I; apply Hc; right; exact I.
    + intro I; apply Hn; right; exact I.
Qed.

Lemma malloc_empty :
  forall s,
    alloc_plan s = [] ->
    fst (malloc s) = true /\ alloc_plan (snd (malloc s)) = [].
Proof. intros s H; unfold malloc; rewrite H; split; reflexivity. Qed.

(** The decoder receives a control line whole when it fits its array. *)
Lemma recv_control_line :
  forall k perms tok name rest,
    k <> NL -> ~ In NL perms -> ~ In NL tok -> ~ In NL name ->
    (length (control_line k perms tok name) <= 4095)%nat ->
    recv_line 4095 (map AByte (control_line k perms tok name) ++ rest)
    = (control_line k perms tok name, true).
Proof.
  intros k perms tok name rest K P T N L.
  assert (E : control_line k perms tok name
              = (k :: perms ++ [SP] ++ tok ++ [SP] ++ name) ++ [NL]).
  { unfold control_line. cbn [app]. f_equal.
    repeat (rewrite <- app_assoc; cbn [app]). reflexivity. }
  rewrite E in *. rewrite map_app, <- app_assoc.
  apply (recv_line_complete
           (k :: perms ++ [SP] ++ tok ++ [SP] ++ name) rest 4095%nat).
  - intros [H | H]; [apply K; exact H|].
    repeat (apply in_app_or in H; destruct H as [H | H]); try tauto;
      destruct H as [H | []]; discriminate H.
  - rewrite length_app in L.
    change (Datatypes.length [NL]) with 1%nat in L. lia.
Qed.

(** What the decoder makes of a control line it has received whole;
    the two copies are stored whether or not they were obtained. *)
Lemma pull_request_on_line :
  forall scp ch k perms tok name,
    state scp = SSH_SCP_READ_INITED -> channel scp = Some ch ->
    recv_line 4095 (arrivals (rd_plan ch))
    = (control_line k perms tok name, true) ->
    k = "C"%char \/ k = "D"%char ->
    token_ok perms -> token_ok tok -> field_ok name ->
    fst (ssh_scp_pull_request scp)
    = (if Ascii.eqb k "C" then SSH_SCP_REQUEST_NEWFILE
       else SSH_SCP_REQUEST_NEWDIR) /\
    state (snd (ssh_scp_pull_request scp)) = SSH_SCP_READ_REQUESTED /\
    request_mode (snd (ssh_scp_pull_request scp))
    = (if fst (malloc (session scp)) then Some perms else None) /\
    request_name (snd (ssh_scp_pull_request scp))
    = (if fst (malloc (snd (malloc (session scp)))) then Some name
       else None) /\
    filelen (snd (ssh_scp_pull_request scp))
    = (if Ascii.eqb k "C" then strtoull tok else 48).
Proof.
  intros scp ch k perms tok name S C R K [[Pn Pl] Ps] [[Tn Tl] Ts] [Nn Nl].
  unfold ssh_scp_pull_request, pull_request_body.
  rewrite S; cbn [state_eqb negb].
  set (buf0 := repeat NUL 4096).
  pose proof (ssh_scp_read_string_recv scp ch buf0 4096 C) as Q.
  change (Z.to_nat (4096 - 1)) with 4095%nat in Q.
  rewrite Q; clear Q;
    [| split; [lia | reflexivity]
     | unfold buf0; rewrite repeat_length; reflexivity].
  rewrite R; cbn [fst snd].
  set (ch' := after_reads _ ch).
  change (is_error 1) with false; cbv iota.
  rewrite nth_0_terminated. cbn [hd control_line].
  assert (KC : Ascii.eqb k "C" || Ascii.eqb k "D" = true)
    by (destruct K; subst; reflexivity).
  rewrite KC.
  assert (K1 : k <> SP) by (destruct K; subst; discriminate).
  assert (K2 : k <> NUL) by (destruct K; subst; discriminate).
  rewrite strchr_app_nul. unfold control_line.
  change (k :: perms ++ [SP] ++ tok ++ [SP] ++ name ++ [NL])
    with ((k :: perms) ++ SP :: tok ++ [SP] ++ name ++ [NL]).
  rewrite strchr_found;
    [| intros [H | H]; [exact (K1 H) | exact (Ps H)]
     | intros [H | H]; [exact (K2 H) | exact (Pn H)]
     | discriminate].
  cbn [tl session set_channel]. unfold strdup.
  destruct (malloc (session scp)) as [ok1 s1].
  rewrite (c_str_id perms Pn).
  rewrite strchr_app_nul.
  change (tok ++ [SP] ++ name ++ [NL]) with (tok ++ SP :: name ++ [NL]).
  rewrite strchr_found by (assumption || discriminate).
  rewrite strchr_app_nul.
  rewrite strchr_found by (assumption || discriminate).
  cbn [fst snd].
  destruct (malloc s1) as [ok2 s2].
  rewrite (c_str_id name Nn).
  destruct (Ascii.eqb k "C"); cbn; repeat split.
Qed.

Lemma fmt_size_digits :
  forall z c, In c (fmt_size z) -> exists d, digit_val c = Some d.
Proof.
  intros z c; unfold fmt_size, str, NilZero.string_of_uint.
  destruct (N.to_uint (Z.to_N z)) eqn:E;
    try (intro H; destruct (digit_chars _ _ H) as (d & D & _);
         exists d; exact D).
  cbn [list_ascii_of_string]; intros [<- | []].
  eexists; vm_compute; reflexivity.
Qed.

Lemma fmt_size_token : forall z, token_ok (fmt_size z).
Proof.
  intro z; repeat split; intro H;
    destruct (fmt_size_digits _ _ H) as (d & D); vm_compute in D;
    discriminate D.
Qed.

(** X10: a pull session waiting for a request decodes a well-formed
    header.  When the peer sends "C" or "D", a permission field, a
    space, a size field, a space, a name and a newline (the two fields
    without space, newline or NUL, the name without newline or NUL, the
    whole within 4095 bytes) and memory is available, the request is a
    new file for "C" and a new directory for "D", the permission field
    and the name are stored as sent, the size is the number [strtoull]
    reads in the size field for a file and the constant 48 for a
    directory, and the session waits for accept or deny. *)
Theorem X10_pull_request_decodes_header :
  forall scp ch k perms tok name rest,
    state scp = SSH_SCP_READ_INITED ->
    channel scp = Some ch ->
    alloc_plan (session scp) = [] ->
    arrivals (rd_plan ch) = map AByte (control_line k perms tok name) ++ rest ->
    k = "C"%char \/ k = "D"%char ->
    token_ok perms -> token_ok tok -> field_ok name ->
    (length (control_line k perms tok name) <= 4095)%nat ->
    fst (ssh_scp_pull_request scp)
    = (if Ascii.eqb k "C" then SSH_SCP_REQUEST_NEWFILE
       else SSH_SCP_REQUEST_NEWDIR) /\
    state (snd (ssh_scp_pull_request scp)) = SSH_SCP_READ_REQUESTED /\
    request_mode (snd (ssh_scp_pull_request scp)) = Some perms /\
    request_name (snd (ssh_scp_pull_request scp)) = Some name /\
    filelen (snd (ssh_scp_pull_request scp))
    = (if Ascii.eqb k "C" then strtoull tok else 48).
Proof.
  intros scp ch k perms tok name rest S C A R K P T N L.
  destruct (malloc_empty _ A) as [M1 A1].
  destruct (malloc_empty _ A1) as [M2 _].
  replace (Some perms)
    with (if fst (malloc (session scp)) then Some perms else None)
    by (rewrite M1; reflexivity).
  replace (Some name)
    with (if fst (malloc (snd (malloc (session scp)))) then Some name
          else None)
    by (rewrite M2; reflexivity).
  apply (pull_request_on_line scp ch k perms tok name); try assumption.
  rewrite R. apply recv_control_line; try assumption.
  - destruct K; subst; discriminate.
  - destruct P as [[_ P] _]; exact P.
  - destruct T as [[_ T] _]; exact T.
  - destruct N as [_ N]; exact N.
Qed.

Ltac absent :=
  repeat split;
  let H := fresh "H" in
  intro H; vm_compute in H;
  repeat (destruct H as [H | H]; [discriminate H|]); contradiction.

Lemma X10_pull_request_decodes_header_witness :
  fst (ssh_scp_pull_request header_session)
  = (if Ascii.eqb "C" "C" then SSH_SCP_REQUEST_NEWFILE
     else SSH_SCP_REQUEST_NEWDIR) /\
  state (snd (ssh_scp_pull_request header_session)) = SSH_SCP_READ_REQUESTED /\
  request_mode (snd (ssh_scp_pull_request header_session))
  = Some (str "0644") /\
  request_name (snd (ssh_scp_pull_request header_session))
  = Some (str "data.bin") /\
  filelen (snd (ssh_scp_pull_request header_session))
  = (if Ascii.eqb "C" "C" then strtoull (str "1234") else 48).
Proof.
  refine (X10_pull_request_decodes_header
            header_session (channel_of header_session) "C"%char
            (str "0644") (str "1234") (str "data.bin") []
            _ _ _ _ _ _ _ _ _);
    try (vm_compute; reflexivity);
    try (left; reflexivity); try absent.
  apply Nat.leb_le; vm_compute; reflexivity.
Defined.

(** X11: what [ssh_scp_push_file] announces, [ssh_scp_pull_request]
    understands.  When a pull session waiting for a request receives
    the header line of a file (of at most 1023 bytes, so that the
    sender's buffer holds it whole; permissions without space or
    newline, path without newline) and memory is available, it reports
    a new file, and the three accessors of the request return the
    announced size modulo 2^64, the announced permissions and the last
    component of the sender's path. *)
Theorem X11_pushed_header_is_understood :
  forall scp ch perms size filename rest,
    state scp = SSH_SCP_READ_INITED ->
    channel scp = Some ch ->
    alloc_plan (session scp) = [] ->
    arrivals (rd_plan ch) = map AByte (file_line perms size filename) ++ rest ->
    token_ok (c_str perms) ->
    ~ In NL (c_str filename) ->
    (length (file_line perms size filename) <= 1023)%nat ->
    fst (ssh_scp_pull_request scp) = SSH_SCP_REQUEST_NEWFILE /\
    state (snd (ssh_scp_pull_request scp)) = SSH_SCP_READ_REQUESTED /\
    ssh_scp_request_get_permissions (snd (ssh_scp_pull_request scp))
    = Some (c_str perms) /\
    ssh_scp_request_get_filename (snd (ssh_scp_pull_request scp))
    = Some (ssh_basename (c_str filename)) /\
    ssh_scp_request_get_size (snd (ssh_scp_pull_request scp)) = wrap size.
Proof.
  intros scp ch perms size filename rest S C A R P F L.
  unfold ssh_scp_request_get_permissions, ssh_scp_request_get_filename,
    ssh_scp_request_get_size.
  assert (E : file_line perms size filename
              = control_line "C" (c_str perms) (fmt_size (wrap size))
                  (ssh_basename (c_str filename))) by reflexivity.
  rewrite E in R, L.
  assert (W : 0 <= wrap size < SIZE_MODULUS)
    by (unfold wrap; apply Z.mod_pos_bound; reflexivity).
  rewrite <- (strtoull_fmt_size (wrap size) W).
  destruct (malloc_empty _ A) as [M1 A1].
  destruct (malloc_empty _ A1) as [M2 _].
  replace (Some (c_str perms))
    with (if fst (malloc (session scp)) then Some (c_str perms) else None)
    by (rewrite M1; reflexivity).
  replace (Some (ssh_basename (c_str filename)))
    with (if fst (malloc (snd (malloc (session scp))))
          then Some (ssh_basename (c_str filename)) else None)
    by (rewrite M2; reflexivity).
  apply (pull_request_on_line scp ch "C"%char (c_str perms)
           (fmt_size (wrap size)) (ssh_basename (c_str filename)));
    try assumption.
  - rewrite R. apply recv_control_line.
    + discriminate.
    + destruct P as [[_ P] _]; exact P.
    + destruct (fmt_size_token (wrap size)) as [[_ T] _]; exact T.
    + intro H; apply F, ssh_basename_in; exact H.
    + lia.
  - left; reflexivity.
  - apply fmt_size_token.
  - split; intro H; apply ssh_basename_in in H;
      [exact (c_str_clean _ H) | exact (F H)].
Qed.

Lemma X11_pushed_header_is_understood_witness :
  fst (ssh_scp_pull_request header_session) = SSH_SCP_REQUEST_NEWFILE /\
  state (snd (ssh_scp_pull_request header_session)) = SSH_SCP_READ_REQUESTED /\
  ssh_scp_request_get_permissions (snd (ssh_scp_pull_request header_session))
  = Some (c_str (str "0644")) /\
  ssh_scp_request_get_filename (snd (ssh_scp_pull_request header_session))
  = Some (ssh_basename (c_str (str "a/b/data.bin"))) /\
  ssh_scp_request_get_size (snd (ssh_scp_pull_request header_session))
  = wrap 1234.
Proof.
  refine (X11_pushed_header_is_understood
            header_session (channel_of header_session)
            (str "0644") 1234 (str "a/b/data.bin") [] _ _ _ _ _ _ _);
    try (vm_compute; reflexivity); try absent.
  apply Nat.leb_le; vm_compute; reflexivity.
Defined.

Lemma malloc_planned :
  forall s ok plan,
    alloc_plan s = ok :: plan ->
    fst (malloc s) = ok /\ alloc_plan (snd (malloc s)) = plan.
Proof.
  intros s ok plan H; unfold malloc; rewrite H.
  destruct ok; split; reflexivity.
Qed.

(** X12: [ssh_scp_pull_request] does not look at what [strdup]
    returned.  On a well-formed header it reports the request and moves
    to ReadRequested whatever the two allocations answer; a copy that
    was refused leaves NULL behind, and the accessor of the permissions
    or of the name returns NULL for a request that was announced as
    valid. *)
Theorem X12_failed_copies_go_unnoticed :
  forall scp ch k perms tok name rest ok1 ok2 plan,
    state scp = SSH_SCP_READ_INITED ->
    channel scp = Some ch ->
    alloc_plan (session scp) = ok1 :: ok2 :: plan ->
    arrivals (rd_plan ch) = map AByte (control_line k perms tok name) ++ rest ->
    k = "C"%char \/ k = "D"%char ->
    token_ok perms -> token_ok tok -> field_ok name ->
    (length (control_line k perms tok name) <= 4095)%nat ->
    fst (ssh_scp_pull_request scp)
    = (if Ascii.eqb k "C" then SSH_SCP_REQUEST_NEWFILE
       else SSH_SCP_REQUEST_NEWDIR) /\
    state (snd (ssh_scp_pull_request scp)) = SSH_SCP_READ_REQUESTED /\
    ssh_scp_request_get_permissions (snd (ssh_scp_pull_request scp))
    = (if ok1 then Some perms else None) /\
    ssh_scp_request_get_filename (snd (ssh_scp_pull_request scp))
    = (if ok2 then Some name else None).
Proof.
  intros scp ch k perms tok name rest ok1 ok2 plan S C A R K P T N L.
  unfold ssh_scp_request_get_permissions, ssh_scp_request_get_filename.
  destruct (malloc_planned _ _ _ A) as [M1 A1].
  destruct (malloc_planned _ _ _ A1) as [M2 _].
  rewrite <- M1, <- M2.
  destruct (pull_request_on_line scp ch k perms tok name)
    as (R1 & R2 & R3 & R4 & _); try assumption;
    [|repeat split; assumption].
  rewrite R. apply recv_control_line; try assumption.
  - destruct K; subst; discriminate.
  - destruct P as [[_ P] _]; exact P.
  - destruct T as [[_ T] _]; exact T.
  - destruct N as [_ N]; exact N.
Qed.

Lemma X12_failed_copies_go_unnoticed_witness :
  fst (ssh_scp_pull_request (with_alloc_plan [false; true] header_session))
  = (if Ascii.eqb "C" "C" then SSH_SCP_REQUEST_NEWFILE
     else SSH_SCP_REQUEST_NEWDIR) /\
  state (snd (ssh_scp_pull_request
                (with_alloc_plan [false; true] header_session)))
  = SSH_SCP_READ_REQUESTED /\
  ssh_scp_request_get_permissions
    (snd (ssh_scp_pull_request (with_alloc_plan [false; true] header_session)))
  = (if false then Some (str "0644") else None) /\
  ssh_scp_request_get_filename
    (snd (ssh_scp_pull_request (with_alloc_plan [false; true] header_session)))
  = (if true then Some (str "data.bin") else None).
Proof.
  refine (X12_failed_copies_go_unnoticed
            (with_alloc_plan [false; true] header_session)
            (channel_of header_session) "C"%char
            (str "0644") (str "1234") (str "data.bin") [] false true []
            _ _ _ _ _ _ _ _ _);
    try (vm_compute; reflexivity);
    try (left; reflexivity); try absent.
  apply Nat.leb_le; vm_compute; reflexivity.
Defined.

(** X13: what [ssh_scp_push_directory] announces, the decoder
    understands, except for the size.  On the header line of a
    directory (of at most 1023 bytes; permissions without space or
    newline, path without newline) a waiting pull session with memory
    available reports a new directory with the announced permissions
    and the last component of the sender's path; the size accessor
    returns 48, the code of the character '0', where the line says 0. *)
Theorem X13_pushed_directory_is_understood :
  forall scp ch perms dirname rest,
    state scp = SSH_SCP_READ_INITED ->
    channel scp = Some ch ->
    alloc_plan (session scp) = [] ->
    arrivals (rd_plan ch) = map AByte (directory_line perms dirname) ++ rest ->
    token_ok (c_str perms) ->
    ~ In NL (c_str dirname) ->
    (length (directory_line perms dirname) <= 1023)%nat ->
    fst (ssh_scp_pull_request scp) = SSH_SCP_REQUEST_NEWDIR /\
    state (snd (ssh_scp_pull_request scp)) = SSH_SCP_READ_REQUESTED /\
    ssh_scp_request_get_permissions (snd (ssh_scp_pull_request scp))
    = Some (c_str perms) /\
    ssh_scp_request_get_filename (snd (ssh_scp_pull_request scp))
    = Some (ssh_basename (c_str dirname)) /\
    ssh_scp_request_get_size (snd (ssh_scp_pull_request scp)) = 48.
Proof.
  intros scp ch perms dirname rest S C A R P F L.
  unfold ssh_scp_request_get_permissions, ssh_scp_request_get_filename,
    ssh_scp_request_get_size.
  assert (E : directory_line perms dirname
              = control_line "D" (c_str perms) (str "0")
                  (ssh_basename (c_str dirname))).
  { unfold directory_line, control_line. cbn [str list_ascii_of_string app].
    reflexivity. }
  rewrite E in R, L.
  assert (Z0 : token_ok (str "0")) by absent.
  destruct (malloc_empty _ A) as [M1 A1].
  destruct (malloc_empty _ A1) as [M2 _].
  replace (Some (c_str perms))
    with (if fst (malloc (session scp)) then Some (c_str perms) else None)
    by (rewrite M1; reflexivity).
  replace (Some (ssh_basename (c_str dirname)))
    with (if fst (malloc (snd (malloc (session scp))))
          then Some (ssh_basename (c_str dirname)) else None)
    by (rewrite M2; reflexivity).
  apply (pull_request_on_line scp ch "D"%char (c_str perms)
           (str "0") (ssh_basename (c_str dirname)));
    try assumption.
  - rewrite R. apply recv_control_line.
    + discriminate.
    + destruct P as [[_ P] _]; exact P.
    + destruct Z0 as [[_ T] _]; exact T.
    + intro H; apply F, ssh_basename_in; exact H.
    + lia.
  - right; reflexivity.
  - split; intro H; apply ssh_basename_in in H;
      [exact (c_str_clean _ H) | exact (F H)].
Qed.

Lemma X13_pushed_directory_is_understood_witness :
  fst (ssh_scp_pull_request directory_session) = SSH_SCP_REQUEST_NEWDIR /\
  state (snd (ssh_scp_pull_request directory_session))
  = SSH_SCP_READ_REQUESTED /\
  ssh_scp_request_get_permissions (snd (ssh_scp_pull_request directory_session))
  = Some (c_str (str "0755")) /\
  ssh_scp_request_get_filename (snd (ssh_scp_pull_request directory_session))
  = Some (ssh_basename (c_str (str "a/sub"))) /\
  ssh_scp_request_get_size (snd (ssh_scp_pull_request directory_session)) = 48.
Proof.
  refine (X13_pushed_directory_is_understood
            directory_session (channel_of directory_session)
            (str "0755") (str "a/sub") [] _ _ _ _ _ _ _);
    try (vm_compute; reflexivity); try absent.
  apply Nat.leb_le; vm_compute; reflexivity.
Defined.

(** A text that starts with neither white space, a sign nor a digit is
    read as 0. *)
Lemma strtoull_no_number :
  forall c t,
    c <> NUL -> isspace c = false -> digit_val c = None ->
    c <> "-"%char -> c <> "+"%char ->
    strtoull (c :: t) = 0.
Proof.
  intros c t N W D M P. unfold strtoull. cbn [c_str].
  destruct (Ascii.eqb c NUL) eqn:E;
    [apply Ascii.eqb_eq in E; contradiction|].
  cbn [skip_spaces]. rewrite W.
  destruct c as [[] [] [] [] [] [] [] []];
    try (exfalso; apply M; reflexivity);
    try (exfalso; apply P; reflexivity);
    cbn [strtoull_digits]; rewrite D; reflexivity.
Qed.

(** X14: the size field of a file header is not validated.  When it
    starts with a character that is neither a digit, a sign nor white
    space, the header is accepted all the same: the call returns
    SSH_SCP_REQUEST_NEWFILE, the state is ReadRequested and the size
    accessor returns 0. *)
Theorem X14_size_field_is_not_validated :
  forall scp ch perms c t name rest,
    state scp = SSH_SCP_READ_INITED ->
    channel scp = Some ch ->
    arrivals (rd_plan ch)
    = map AByte (control_line "C" perms (c :: t) name) ++ rest ->
    token_ok perms -> token_ok (c :: t) -> field_ok name ->
    (length (control_line "C" perms (c :: t) name) <= 4095)%nat ->
    isspace c = false -> digit_val c = None ->
    c <> "-"%char -> c <> "+"%char ->
    fst (ssh_scp_pull_request scp) = SSH_SCP_REQUEST_NEWFILE /\
    state (snd (ssh_scp_pull_request scp)) = SSH_SCP_READ_REQUESTED /\
    ssh_scp_request_get_size (snd (ssh_scp_pull_request scp)) = 0.
Proof.
  intros scp ch perms c t name rest S C R P T N L W D M Q.
  unfold ssh_scp_request_get_size.
  assert (Z0 : strtoull (c :: t) = 0).
  { apply strtoull_no_number; try assumption.
    intro E; destruct T as [[T _] _]; apply T; left; exact E. }
  destruct (pull_request_on_line scp ch "C"%char perms (c :: t) name)
    as (R1 & R2 & _ & _ & R5); try assumption.
  - rewrite R. apply recv_control_line; try assumption.
    + discriminate.
    + destruct P as [[_ P] _]; exact P.
    + destruct T as [[_ T] _]; exact T.
    + destruct N as [_ N]; exact N.
  - left; reflexivity.
  - repeat split; try assumption.
    rewrite R5. exact Z0.
Qed.

Lemma X14_size_field_is_not_validated_witness :
  fst (ssh_scp_pull_request wordy_session) = SSH_SCP_REQUEST_NEWFILE /\
  state (snd (ssh_scp_pull_request wordy_session)) = SSH_SCP_READ_REQUESTED /\
  ssh_scp_request_get_size (snd (ssh_scp_pull_request wordy_session)) = 0.
Proof.
  refine (X14_size_field_is_not_validated
            wordy_session (channel_of wordy_session)
            (str "0644") "m"%char (str "any") (str "x") []
            _ _ _ _ _ _ _ _ _ _ _);
    try (vm_compute; reflexivity); try absent;
    try discriminate.
  apply Nat.leb_le; vm_compute; reflexivity.
Defined.

(** ** Answering a request *)

(** One write of a buffer up to its terminator: what is logged and
    whether it fails. *)
Lemma answer_written :
  forall scp ch buffer len,
    channel scp = Some ch ->
    exists w ch1,
      scp_channel_write scp buffer len = (w, set_channel (Some ch1) scp) /\
      is_error w = write_fails ch /\
      writes_of (io_log ch1) = writes_of (io_log ch) ++ [take_z len buffer].
Proof.
  intros scp ch buffer len C.
  unfold scp_channel_write; rewrite C.
  destruct (channel_write ch buffer len) as [w ch1] eqn:E.
  exists w, ch1; split; [reflexivity|].
  destruct (channel_write_log _ _ _ _ _ E) as [L _].
  split; [|rewrite L, writes_of_app; reflexivity].
  unfold channel_write, write_fails in *.
  destruct (wr_plan ch) as [|[|n] p]; inversion E; subst;
    try reflexivity; apply Z.eqb_neq; unfold SSH_ERROR; lia.
Qed.

(** X15: [ssh_scp_deny_request] in ReadRequested makes one channel
    write, of the byte 2, the reason and a newline, cut to the 4095
    bytes its buffer holds.  It returns SSH_ERROR exactly when that
    write fails, and then the state is still ReadRequested; otherwise
    it returns SSH_OK and the state is ReadInited.  Either way the
    recorded request and the counters are left as they were. *)
Theorem X15_deny_request_outcomes :
  forall scp ch reason,
    state scp = SSH_SCP_READ_REQUESTED -> channel scp = Some ch ->
    writes_of (scp_log (snd (ssh_scp_deny_request scp reason)))
    = writes_of (io_log ch)
      ++ [firstn 4095 ("002"%char :: c_str reason ++ [NL])] /\
    fst (ssh_scp_deny_request scp reason)
    = (if write_fails ch then SSH_ERROR else SSH_OK) /\
    state (snd (ssh_scp_deny_request scp reason))
    = (if write_fails ch then SSH_SCP_READ_REQUESTED
       else SSH_SCP_READ_INITED) /\
    request_type (snd (ssh_scp_deny_request scp reason)) = request_type scp /\
    request_name (snd (ssh_scp_deny_request scp reason)) = request_name scp /\
    request_mode (snd (ssh_scp_deny_request scp reason)) = request_mode scp /\
    filelen (snd (ssh_scp_deny_request scp reason)) = filelen scp /\
    processed (snd (ssh_scp_deny_request scp reason)) = processed scp.
Proof.
  intros scp ch reason S C.
  unfold ssh_scp_deny_request; rewrite S; cbn [state_eqb negb]; cbv zeta.
  unfold snprintf, fmt_s. change (4096 - 1)%nat with 4095%nat.
  set (buffer := firstn 4095 ("002"%char :: c_str reason ++ [NL])).
  assert (N : ~ In NUL buffer).
  { apply firstn_clean. intros [H | H]; [discriminate H|].
    apply in_app_or in H; destruct H as [H | [H | []]];
      [exact (c_str_clean _ H) | discriminate H]. }
  destruct (answer_written scp ch buffer (strlen buffer) C)
    as (w & ch1 & E & F & L).
  unfold strlen in L; rewrite (c_str_id _ N), take_z_all in L.
  rewrite E, F.
  destruct (write_fails ch); unfold scp_log; cbn; repeat split;
    try exact L; exact S.
Qed.

Lemma X15_deny_request_outcomes_witness :
  writes_of (scp_log (snd (ssh_scp_deny_request requested_file (str "no"))))
  = writes_of (io_log (channel_of requested_file))
    ++ [firstn 4095 ("002"%char :: c_str (str "no") ++ [NL])] /\
  fst (ssh_scp_deny_request requested_file (str "no"))
  = (if write_fails (channel_of requested_file) then SSH_ERROR else SSH_OK) /\
  state (snd (ssh_scp_deny_request requested_file (str "no")))
  = (if write_fails (channel_of requested_file) then SSH_SCP_READ_REQUESTED
     else SSH_SCP_READ_INITED) /\
  request_type (snd (ssh_scp_deny_request requested_file (str "no")))
  = request_type requested_file /\
  request_name (snd (ssh_scp_deny_request requested_file (str "no")))
  = request_name requested_file /\
  request_mode (snd (ssh_scp_deny_request requested_file (str "no")))
  = request_mode requested_file /\
  filelen (snd (ssh_scp_deny_request requested_file (str "no")))
  = filelen requested_file /\
  processed (snd (ssh_scp_deny_request requested_file (str "no")))
  = processed requested_file.
Proof.
  apply (X15_deny_request_outcomes
           requested_file (channel_of requested_file) (str "no"));
    vm_compute; reflexivity.
Defined.

(** X16: [ssh_scp_accept_request] in ReadRequested makes one channel
    write, of the single byte 0.  It returns SSH_ERROR exactly when
    that write fails, and then the state is still ReadRequested;
    otherwise it returns SSH_OK and the state is ReadReading when the
    pending request is a file and ReadInited when it is anything else.
    The recorded request and the counters are left as they were. *)
Theorem X16_accept_request_outcomes :
  forall scp ch,
    state scp = SSH_SCP_READ_REQUESTED -> channel scp = Some ch ->
    writes_of (scp_log (snd (ssh_scp_accept_request scp)))
    = writes_of (io_log ch) ++ [[NUL]] /\
    fst (ssh_scp_accept_request scp)
    = (if write_fails ch then SSH_ERROR else SSH_OK) /\
    state (snd (ssh_scp_accept_request scp))
    = (if write_fails ch then SSH_SCP_READ_REQUESTED
       else if request_type scp =? SSH_SCP_REQUEST_NEWFILE
            then SSH_SCP_READ_READING else SSH_SCP_READ_INITED) /\
    request_type (snd (ssh_scp_accept_request scp)) = request_type scp /\
    request_name (snd (ssh_scp_accept_request scp)) = request_name scp /\
    request_mode (snd (ssh_scp_accept_request scp)) = request_mode scp /\
    filelen (snd (ssh_scp_accept_request scp)) = filelen scp /\
    processed (snd (ssh_scp_accept_request scp)) = processed scp.
Proof.
  intros scp ch S C.
  unfold ssh_scp_accept_request; rewrite S; cbn [state_eqb negb]; cbv zeta.
  destruct (answer_written scp ch [NUL] 1 C) as (w & ch1 & E & F & L).
  change (take_z 1 [NUL]) with [NUL] in L.
  rewrite E, F. cbn [request_type set_channel].
  destruct (write_fails ch);
    [|destruct (request_type scp =? SSH_SCP_REQUEST_NEWFILE)];
    unfold scp_log; cbn; repeat split; try exact L; exact S.
Qed.

Lemma X16_accept_request_outcomes_witness :
  writes_of (scp_log (snd (ssh_scp_accept_request requested_file)))
  = writes_of (io_log (channel_of requested_file)) ++ [[NUL]] /\
  fst (ssh_scp_accept_request requested_file)
  = (if write_fails (channel_of requested_file) then SSH_ERROR else SSH_OK) /\
  state (snd (ssh_scp_accept_request requested_file))
  = (if write_fails (channel_of requested_file) then SSH_SCP_READ_REQUESTED
     else if request_type requested_file =? SSH_SCP_REQUEST_NEWFILE
          then SSH_SCP_READ_READING else SSH_SCP_READ_INITED) /\
  request_type (snd (ssh_scp_accept_request requested_file))
  = request_type requested_file /\
  request_name (snd (ssh_scp_accept_request requested_file))
  = request_name requested_file /\
  request_mode (snd (ssh_scp_accept_request requested_file))
  = request_mode requested_file /\
  filelen (snd (ssh_scp_accept_request requested_file))
  = filelen requested_file /\
  processed (snd (ssh_scp_accept_request requested_file))
  = processed requested_file.
Proof.
  apply (X16_accept_request_outcomes
           requested_file (channel_of requested_file));
    vm_compute; reflexivity.
Defined.

(** ** What a read chunk delivers *)

(** X17: a read chunk in ReadReading, with processed within the
    declared size and no wrap-around in the size arithmetic, over a
    channel that has the bytes [bs] ready.  It stores in the caller's
    buffer the first min(size, S - processed, 65536) bytes of [bs], or
    all of [bs] when it has fewer, and returns their number.  When this
    brings processed to the declared size the counters are reset and
    the state is ReadInited; otherwise the state stays ReadReading and
    processed has advanced by the number returned. *)
Theorem X17_read_chunk_delivers :
  forall scp ch size bs p,
    state scp = SSH_SCP_READ_READING -> channel scp = Some ch ->
    rd_plan ch = RdData bs :: p ->
    0 <= size -> 0 <= processed scp <= filelen scp ->
    processed scp + size < SIZE_MODULUS ->
    fst (ssh_scp_read scp size)
    = (Z.of_nat (length (firstn (Z.to_nat (chunk_len scp size)) bs)),
       firstn (Z.to_nat (chunk_len scp size)) bs) /\
    (state (snd (ssh_scp_read scp size)),
     filelen (snd (ssh_scp_read scp size)),
     processed (snd (ssh_scp_read scp size)))
    = (if processed scp
          + Z.of_nat (length (firstn (Z.to_nat (chunk_len scp size)) bs))
          =? filelen scp
       then (SSH_SCP_READ_INITED, 0, 0)
       else (SSH_SCP_READ_READING, filelen scp,
             processed scp
             + Z.of_nat (length (firstn (Z.to_nat (chunk_len scp size)) bs)))).
Proof.
  intros scp ch size bs p S C R L P W.
  destruct (ssh_scp_read_steps scp ch size S C) as (r & got & ch' & E & _ & Q).
  rewrite read_len_no_wrap in E by assumption.
  fold (chunk_len scp size) in E.
  assert (N : 0 <= chunk_len scp size <= size) by (unfold chunk_len; lia).
  unfold channel_read in E; rewrite R in E.
  rewrite take_z_firstn in E by lia.
  set (got' := firstn (Z.to_nat (chunk_len scp size)) bs) in *.
  inversion E; subst r got; clear E.
  assert (G : Z.of_nat (length got') <= size).
  { unfold got'. rewrite length_firstn. lia. }
  rewrite Q.
  replace (is_error (Z.of_nat (length got'))) with false
    by (symmetry; apply Z.eqb_neq; unfold SSH_ERROR; lia).
  assert (M : SIZE_MODULUS = 2 ^ 64) by reflexivity.
  rewrite wrap_small by lia.
  unfold end_of_file; cbn [fst snd processed filelen set_processed set_channel].
  destruct (processed scp + Z.of_nat (length got') =? filelen scp);
    (split; [reflexivity|]); cbn; rewrite ?S; reflexivity.
Qed.

Lemma X17_read_chunk_delivers_witness :
  fst (ssh_scp_read half_read 100)
  = (Z.of_nat (length (firstn (Z.to_nat (chunk_len half_read 100))
                         (str "world" ++ line "C0644 3 y"))),
     firstn (Z.to_nat (chunk_len half_read 100))
       (str "world" ++ line "C0644 3 y")) /\
  (state (snd (ssh_scp_read half_read 100)),
   filelen (snd (ssh_scp_read half_read 100)),
   processed (snd (ssh_scp_read half_read 100)))
  = (if processed half_read
        + Z.of_nat (length (firstn (Z.to_nat (chunk_len half_read 100))
                              (str "world" ++ line "C0644 3 y")))
        =? filelen half_read
     then (SSH_SCP_READ_INITED, 0, 0)
     else (SSH_SCP_READ_READING, filelen half_read,
           processed half_read
           + Z.of_nat (length (firstn (Z.to_nat (chunk_len half_read 100))
                                 (str "world" ++ line "C0644 3 y"))))).
Proof.
  refine (X17_read_chunk_delivers
            half_read (channel_of half_read) 100
            (str "world" ++ line "C0644 3 y") [] _ _ _ _ _ _);
    vm_compute; first [reflexivity | split; discriminate | discriminate].
Defined.
